(** * ngsflow: pipeline stage invokers

    A shallow embedding of the stage functions of
    [ddb_ngsflow/annotation.py], [ngsflow/gatk.py] and
    [ngsflow/variation/platypus.py].

    Every stage builds a command tuple out of the configuration
    dictionary, the sample name and the artifact paths handed in, reports
    it through [job.fileStore.logToMaster], runs it through
    [pipeline.run_and_log_command] and returns the conventional name of the
    file the external tool is expected to write.

    The embedding follows Python 3 (3.7 or later): a dictionary keeps its
    keys in insertion order, and a string is a sequence of code points, of
    which the model has those below 256; [repr] escapes the ones that are
    not printable. (Python 2 differs on both counts: it lists the keys of
    a dictionary in the order of its hash table and escapes every byte
    above 126.) Dictionaries are objects of a store and are held by
    reference, so that a dictionary nested in another, or listed twice,
    is one object for all its holders.

    Layout of the development:
    - Python values, [str]/[repr] formatting and dictionary access;
    - the world the stages act on (object store, CPU count, effect trace)
      and a small state-and-exception monad;
    - the stage functions, in source order;
    - general facts about the store and about formatting;
    - the properties of the stages. *)

From Stdlib Require Import ZArith String Ascii List DecimalString.
From stdpp Require Import base tactics option list strings.
Import ListNotations.

Local Open Scope string_scope.
Local Open Scope Z_scope.

#[local] Set Warnings "-register-all".

(* ===================================================================== *)
(** ** Python values *)
(* ===================================================================== *)

(** A dictionary is an object of the store, named by its location. *)
Abbreviation loc := nat (only parsing).

(** The values a configuration dictionary (or a sample record) holds. A
    dictionary value is a reference to the object; a list is taken by
    value, no stage writes to one. *)
Inductive pyval : Type :=
  | PNone
  | PBool (b : bool)
  | PInt (z : Z)
  | PStr (s : string)
  | PList (l : list pyval)
  | PDict (o : loc).

(** The content of a dictionary object: string keys, in insertion order,
    which is the order [repr] prints them in. *)
Abbreviation pydict := (list (string * pyval)).

(** The dictionary objects, by location. *)
Abbreviation store := (list pydict).

(** The exceptions the stage functions can raise while reading their
    configuration. *)
Inductive pyexc : Type :=
  | KeyError (key : string)
  | TypeError.

(** Result of evaluating a Python expression. *)
Inductive outcome (A : Type) : Type :=
  | Ret (a : A)
  | Raise (e : pyexc).
Arguments Ret {A} a.
Arguments Raise {A} e.

Module Py.

(** The line feed of ["...\n"] literals. *)
Definition nl : string := String (ascii_of_nat 10) EmptyString.

(** [str(n)] for an integer. *)
Definition str_of_int (z : Z) : string := NilZero.string_of_int (Z.to_int z).

Definition hex_digit (n : nat) : ascii :=
  match n with
  | 0 => "0" | 1 => "1" | 2 => "2" | 3 => "3" | 4 => "4" | 5 => "5"
  | 6 => "6" | 7 => "7" | 8 => "8" | 9 => "9" | 10 => "a" | 11 => "b"
  | 12 => "c" | 13 => "d" | 14 => "e" | _ => "f"
  end%nat%char.

Fixpoint mem_char (c : ascii) (s : string) : bool :=
  match s with
  | EmptyString => false
  | String d s' => if Ascii.eqb c d then true else mem_char c s'
  end.

Definition squote : ascii := ascii_of_nat 39.
Definition dquote : ascii := ascii_of_nat 34.
Definition bslash : ascii := ascii_of_nat 92.

(** The quote [repr] wraps a string in: a double quote only when the
    string has a single quote and no double quote. *)
Definition repr_quote (s : string) : ascii :=
  if mem_char squote s && negb (mem_char dquote s) then dquote else squote.

(** [c.isprintable()] for a code point below 256: the control characters
    (0 to 31 and 127 to 159), the no-break space (160) and the soft
    hyphen (173) are not printable. *)
Definition printable (n : nat) : bool :=
  (Nat.leb 32 n && Nat.ltb n 127) || (Nat.ltb 160 n && negb (Nat.eqb n 173)).

(** One character of the body of [repr(s)]: the quote and the backslash
    are escaped, tab, line feed and carriage return have their letter,
    any other character that is not printable is written in
    hexadecimal. *)
Definition repr_char (q c : ascii) : string :=
  let n := nat_of_ascii c in
  if Ascii.eqb c q || Ascii.eqb c bslash then String bslash (String c EmptyString)
  else if Nat.eqb n 9 then String bslash "t"
  else if Nat.eqb n 10 then String bslash "n"
  else if Nat.eqb n 13 then String bslash "r"
  else if printable n then String c EmptyString
  else String bslash (String "x"%char
         (String (hex_digit (Nat.div n 16))
           (String (hex_digit (Nat.modulo n 16)) EmptyString))).

Fixpoint repr_body (q : ascii) (s : string) : string :=
  match s with
  | EmptyString => EmptyString
  | String c s' => repr_char q c ++ repr_body q s'
  end.

(** [repr(s)] for a string. *)
Definition repr_str (s : string) : string :=
  let q := repr_quote s in
  String q (repr_body q s ++ String q EmptyString).

(** [repr(v)], given how a dictionary object prints. *)
Fixpoint repr_in (repr_dict : loc → string) (v : pyval) : string :=
  match v with
  | PNone => "None"
  | PBool true => "True"
  | PBool false => "False"
  | PInt z => str_of_int z
  | PStr s => repr_str s
  | PList l => "[" ++ String.concat ", " (List.map (repr_in repr_dict) l) ++ "]"
  | PDict o => repr_dict o
  end.

(** [repr] of the dictionary object at [o]. [stack] holds the dictionaries
    that are being printed: one that contains itself prints as [{...}]
    where it comes up again. Every step into a dictionary puts a new
    object on the stack, so [fuel] as large as the store never runs out
    (lemma [repr_obj_fuel]). A location outside the store names no
    object. *)
Fixpoint repr_obj (h : store) (fuel : nat) (stack : list loc) (o : loc) : string :=
  if existsb (Nat.eqb o) stack then "{...}"
  else
    match fuel, h !! o with
    | S fuel', Some d =>
        "{" ++ String.concat ", "
                 (List.map (fun kv : string * pyval =>
                              repr_str kv.1 ++ ": "
                              ++ repr_in (repr_obj h fuel' (o :: stack)) kv.2) d)
            ++ "}"
    | _, _ => "{...}"
    end.

(** [repr(v)] in the store [h]. *)
Definition repr (h : store) (v : pyval) : string :=
  repr_in (repr_obj h (length h) []) v.

(** [str(v)], which is what ["{}".format(v)] and ["%s" % v] insert. *)
Definition str (h : store) (v : pyval) : string :=
  match v with
  | PStr s => s
  | _ => repr h v
  end.

(** [str(t)] for a tuple of strings, as ["... {}".format(command)]
    prints a command. *)
Definition str_tuple (t : list string) : string :=
  match t with
  | [x] => "(" ++ repr_str x ++ ",)"
  | _ => "(" ++ String.concat ", " (List.map repr_str t) ++ ")"
  end.

(** [" ".join(t)]. *)
Definition join (t : list string) : string := String.concat " " t.

(** [d[k]] lookup in the content of a dictionary. *)
Fixpoint dict_get (d : pydict) (k : string) : option pyval :=
  match d with
  | [] => None
  | (k', v) :: d' => if String.eqb k k' then Some v else dict_get d' k
  end.

(** [d[k] = v]: an existing key keeps its place, a new key goes last. *)
Fixpoint dict_set (d : pydict) (k : string) (v : pyval) : pydict :=
  match d with
  | [] => [(k, v)]
  | (k', v') :: d' =>
      if String.eqb k k' then (k, v) :: d' else (k', v') :: dict_set d' k v
  end.

(** [v[k]] with a string subscript: only a dictionary has string keys. *)
Definition getitem (h : store) (v : pyval) (k : string) : outcome pyval :=
  match v with
  | PDict o =>
      match h !! o with
      | Some d =>
          match dict_get d k with
          | Some x => Ret x
          | None => Raise (KeyError k)
          end
      | None => Raise TypeError
      end
  | _ => Raise TypeError
  end.

End Py.

(* ===================================================================== *)
(** ** The world of a stage call *)
(* ===================================================================== *)

(** What a stage does to its surroundings, in the order it happens. *)
Inductive Event : Type :=
  | LogToMaster (msg : string)                (* job.fileStore.logToMaster *)
  | RunAndLog (command logfile : string)      (* pipeline.run_and_log_command *)
  | Touch (path : string)                     (* utilities.touch *)
  | StdoutWrite (msg : string)                (* sys.stdout.write *)
  | Sleep (seconds : Z).                      (* time.sleep *)

(** The state a call runs in: the dictionary objects the caller shares
    with the stage, the number of CPUs of the host and the effects
    performed so far (oldest first). *)
Record World : Type := mkWorld {
  objs : store;
  cpu_count : Z;
  trace : list Event
}.

(** A computation may read and update the world and may raise; what it did
    before raising stays done. *)
Definition M (A : Type) : Type := World -> outcome A * World.

#[global] Instance M_ret : MRet M := fun A a w => (Ret a, w).

#[global] Instance M_bind : MBind M := fun A B f m w =>
  match m w with
  | (Ret a, w') => f a w'
  | (Raise e, w') => (Raise e, w')
  end.

Module Run.

Definition emit (e : Event) : M unit := fun w =>
  (Ret tt, mkWorld (objs w) (cpu_count w) (trace w ++ [e])).

(** [try: body except KeyError: handler]. *)
Definition try_except_KeyError {A} (body handler : M A) : M A := fun w =>
  match body w with
  | (Raise (KeyError _), w') => handler w'
  | r => r
  end.

(** [v[k]]. *)
Definition getitem (v : pyval) (k : string) : M pyval := fun w =>
  (Py.getitem (objs w) v k, w).

(** [o[k]] on the dictionary object at [o]. *)
Definition obj_getitem (o : loc) (k : string) : M pyval := getitem (PDict o) k.

(** [o[k1][k2]]. *)
Definition obj_getitem2 (o : loc) (k1 k2 : string) : M pyval :=
  v ← obj_getitem o k1; getitem v k2.

(** [o[k] = v]: the object is updated in place, for every holder of the
    reference. *)
Definition obj_setitem (o : loc) (k : string) (v : pyval) : M unit := fun w =>
  match objs w !! o with
  | Some d =>
      (Ret tt, mkWorld (<[o := Py.dict_set d k v]> (objs w)) (cpu_count w) (trace w))
  | None => (Raise TypeError, w)
  end.

(** ["{}".format(v)] and ["%s" % v]: the text of [v] as the store stands
    when the expression is evaluated. *)
Definition format (v : pyval) : M string := fun w => (Ret (Py.str (objs w) v), w).

(** [multiprocessing.cpu_count()]. *)
Definition multiprocessing_cpu_count : M Z := fun w => (Ret (cpu_count w), w).

(** [job.fileStore.logToMaster(msg)]. *)
Definition logToMaster (msg : string) : M unit := emit (LogToMaster msg).

(** Modelled from the spec: [pipeline.run_and_log_command] of
    [ngsflow/pipeline.py], the process-execution boundary. It takes the
    joined command string and the name of the per-stage log file, runs
    the command synchronously and hands nothing back: the exit status is
    not inspected. The call is recorded in the trace. *)
Definition run_and_log_command (command logfile : string) : M unit :=
  emit (RunAndLog command logfile).

(** Modelled from the spec: [utilities.touch] of
    [ngsflow/utils/utilities.py], which creates the named file. *)
Definition touch (path : string) : M unit := emit (Touch path).

Definition sys_stdout_write (msg : string) : M unit := emit (StdoutWrite msg).

Definition time_sleep (seconds : Z) : M unit := emit (Sleep seconds).

End Run.
Import Run.

(* ===================================================================== *)
(** ** ddb_ngsflow/annotation.py *)
(* ===================================================================== *)

(** The [job] handle of the workflow engine is only used for
    [job.fileStore.logToMaster]; its effect lives in the trace, so the
    stages below do not carry the parameter. [config] is the location of
    the configuration dictionary; [sample] and the artifact names are
    strings, as the docstrings say.

    Each command tuple of the source is a definition of its own, a
    function of the texts the stage interpolates into it; the stage
    looks the values up and formats them, in the order the tuple
    evaluates them, and applies it. *)

(** ["{}.snpEff.{}.vcf".format(sample, config['snpeff']['reference'])] *)
Definition snpeff_output_vcf (sample reference : string) : string :=
  sample ++ ".snpEff." ++ reference ++ ".vcf".

(** No comma follows [">"] in the source: the two adjacent literals are
    one format string, [">{}"]. *)
Definition snpeff_command (bin max_mem reference input_vcf output_vcf : string)
    : list string :=
  [ bin;
    "-Xmx" ++ max_mem ++ "g";
    "-v";
    reference;
    input_vcf;
    ">" ++ output_vcf ].

Definition snpeff (config : loc) (sample input_vcf : string) : M string :=
  reference ← obj_getitem2 config "snpeff" "reference" ≫= format;
  let output_vcf := snpeff_output_vcf sample reference in
  let logfile := sample ++ ".snpeff.log" in
  bin ← obj_getitem2 config "snpeff" "bin" ≫= format;
  max_mem ← obj_getitem2 config "snpeff" "max_mem" ≫= format;
  reference' ← obj_getitem2 config "snpeff" "reference" ≫= format;
  let snpeff_command := snpeff_command bin max_mem reference' input_vcf output_vcf in
  logToMaster ("snpEff Command: " ++ Py.str_tuple snpeff_command ++ Py.nl);;
  run_and_log_command (Py.join snpeff_command) logfile;;
  mret output_vcf.

(** ["{}.snpEff.{}.db".format(sample, config['snpeff']['reference'])] *)
Definition gemini_db (sample reference : string) : string :=
  sample ++ ".snpEff." ++ reference ++ ".db".

Definition gemini_command (bin num_cores input_vcf db : string) : list string :=
  [ bin;
    "load";
    "--cores";
    num_cores;
    "--save-info-string";
    "-v";
    input_vcf;
    "-t";
    "snpEff";
    db ].

Definition gemini (config : loc) (sample input_vcf : string) : M string :=
  reference ← obj_getitem2 config "snpeff" "reference" ≫= format;
  let db := gemini_db sample reference in
  let logfile := sample ++ ".gemini.log" in
  bin ← obj_getitem2 config "gemini" "bin" ≫= format;
  num_cores ← obj_getitem2 config "gemini" "num_cores" ≫= format;
  let command := gemini_command bin num_cores input_vcf db in
  logToMaster ("GEMINI Command: " ++ Py.str_tuple command ++ Py.nl);;
  run_and_log_command (Py.join command) logfile;;
  mret db.

(** ["{}.vcfanno.snpEff.{}.vcf".format(sample, config['snpeff']['reference'])] *)
Definition vcfanno_output_vcf (sample reference : string) : string :=
  sample ++ ".vcfanno.snpEff." ++ reference ++ ".vcf".

Definition vcfanno_command (bin num_cores lua conf input_vcf output_vcf : string)
    : list string :=
  [ bin;
    "-p";
    num_cores;
    "--lua";
    lua;
    conf;
    input_vcf;
    ">";
    output_vcf ].

Definition vcfanno (config : loc) (sample input_vcf : string) : M string :=
  reference ← obj_getitem2 config "snpeff" "reference" ≫= format;
  let output_vcf := vcfanno_output_vcf sample reference in
  let logfile := sample ++ ".vcfanno.log" in
  bin ← obj_getitem2 config "vcfanno" "bin" ≫= format;
  num_cores ← obj_getitem2 config "vcfanno" "num_cores" ≫= format;
  lua ← obj_getitem2 config "vcfanno" "lua" ≫= format;
  conf ← obj_getitem2 config "vcfanno" "conf" ≫= format;
  let command := vcfanno_command bin num_cores lua conf input_vcf output_vcf in
  logToMaster ("GEMINI Command: " ++ Py.str_tuple command ++ Py.nl);;
  run_and_log_command (Py.join command) logfile;;
  mret output_vcf.

(* ===================================================================== *)
(** ** ngsflow/gatk.py *)
(* ===================================================================== *)

Definition diagnosetargets_command
    (bin reference regions coverage_loci_threshold bad_mate_threshold
     coverage_threshold quality_loci_threshold
     input_bam diagnose_targets_vcf missing_intervals : string) : list string :=
  [ "java";
    "-Xmx" ++ Py.str_of_int 2 ++ "g";
    "-jar";
    bin;
    "-T";
    "DiagnoseTargets";
    "-R";
    reference;
    "-L";
    regions;
    "--coverage_status_threshold";
    coverage_loci_threshold;
    "--bad_mate_status_threshold";
    bad_mate_threshold;
    "--minimum_coverage";
    coverage_threshold;
    "--quality_status_threshold";
    quality_loci_threshold;
    "-I";
    input_bam;
    "-o";
    diagnose_targets_vcf;
    "--missing_intervals";
    missing_intervals ].

Definition diagnosetargets (config : loc) (sample input_bam : string) : M string :=
  let diagnose_targets_vcf := sample ++ ".diagnosetargets.vcf" in
  let missing_intervals := sample ++ ".missing.intervals" in
  let logfile := sample ++ ".diagnose_targets.log" in
  bin ← obj_getitem2 config "gatk" "bin" ≫= format;
  reference ← obj_getitem config "reference" ≫= format;
  regions ← obj_getitem config "regions" ≫= format;
  coverage_loci_threshold ← obj_getitem config "coverage_loci_threshold" ≫= format;
  bad_mate_threshold ← obj_getitem config "bad_mate_threshold" ≫= format;
  coverage_threshold ← obj_getitem config "coverage_threshold" ≫= format;
  quality_loci_threshold ← obj_getitem config "quality_loci_threshold" ≫= format;
  let command :=
    diagnosetargets_command bin reference regions coverage_loci_threshold
      bad_mate_threshold coverage_threshold quality_loci_threshold
      input_bam diagnose_targets_vcf missing_intervals in
  logToMaster ("GATK DiagnoseTargets Command: " ++ Py.str_tuple command ++ Py.nl);;
  run_and_log_command (Py.join command) logfile;;
  mret diagnose_targets_vcf.

Definition annotation_command (max_mem bin reference : string) (num_threads : Z)
    (dbsnp input_bam input_vcf output_vcf : string) : list string :=
  [ "java";
    "-Xmx" ++ max_mem ++ "g";
    "-jar";
    bin;
    "-T";
    "VariantAnnotator";
    "-R";
    reference;
    "-nt";
    Py.str_of_int num_threads;
    "--group";
    "StandardAnnotation";
    "--dbsnp";
    dbsnp;
    "-I";
    input_bam;
    "--variant";
    input_vcf;
    "-L";
    input_vcf;
    "-o";
    output_vcf ].

Definition annotate_vcf (config : loc) (sample input_vcf input_bam : string)
    (num_threads : Z) : M string :=
  let output_vcf := sample ++ ".annotated.vcf" in
  let annotation_logfile := sample ++ ".variantannotation.log" in
  max_mem ← obj_getitem2 config "gatk" "max_mem" ≫= format;
  bin ← obj_getitem2 config "gatk" "bin" ≫= format;
  reference ← obj_getitem config "reference" ≫= format;
  dbsnp ← obj_getitem config "dbsnp" ≫= format;
  let annotation_command :=
    annotation_command max_mem bin reference num_threads dbsnp
      input_bam input_vcf output_vcf in
  logToMaster ("GATK VariantAnnotator Command: "
               ++ Py.str_tuple annotation_command ++ Py.nl);;
  run_and_log_command (Py.join annotation_command) annotation_logfile;;
  mret output_vcf.

Definition filter_command
    (max_mem bin reference coverage_threshold input_vcf output_vcf : string)
    : list string :=
  [ "java";
    "-Xmx" ++ max_mem ++ "g";
    "-jar";
    bin;
    "-T";
    "VariantFiltration";
    "-R";
    reference;
    "--filterExpression";
    "'MQ0 > 50'";
    "--filterName";
    "'HighMQ0'";
    "--filterExpression";
    "'DP < " ++ coverage_threshold ++ "'";
    "--filterName";
    "'LowDepth'";
    "--filterExpression";
    "'QUAL < 10'";
    "--filterName";
    "'LowQual'";
    "--filterExpression";
    "'MQ < 10'";
    "--filterName";
    "'LowMappingQual'";
    "--variant";
    input_vcf;
    "-o";
    output_vcf ].

Definition filter_variants (config : loc) (sample input_vcf : string) : M string :=
  let output_vcf := sample ++ ".filtered.vcf" in
  let filter_log := sample ++ ".variantfiltration.log" in
  max_mem ← obj_getitem2 config "gatk" "max_mem" ≫= format;
  bin ← obj_getitem2 config "gatk" "bin" ≫= format;
  reference ← obj_getitem config "reference" ≫= format;
  coverage_threshold ← obj_getitem config "coverage_threshold" ≫= format;
  let filter_command :=
    filter_command max_mem bin reference coverage_threshold input_vcf output_vcf in
  logToMaster ("GATK VariantFiltration Command: "
               ++ Py.str_tuple filter_command ++ Py.nl);;
  run_and_log_command (Py.join filter_command) filter_log;;
  mret output_vcf.

(** The command string of [run_mark_duplicates], one ["%s"] per value. *)
Definition mark_duplicates_command
    (max_mem bin working_bam dedup_bam metrics : string) : string :=
  "java -Xmx" ++ max_mem ++ "g -jar " ++ bin
  ++ " MarkDuplicates CREATE_INDEX=true INPUT=" ++ working_bam
  ++ " OUTPUT=" ++ dedup_bam
  ++ " METRICS_FILE=" ++ metrics
  ++ " VALIDATION_STRINGENCY=LENIENT".

(** The body of the [for sample in sample_config] loop of
    [run_mark_duplicates]; [instructions] is the local list the loop
    appends to. A sample is a dictionary object of the caller, updated in
    place. The four values of the command are looked up first and
    formatted together, by the one [%]. *)
Definition run_mark_duplicates_body (tool_config sample : loc)
    (instructions : list (string * string)) : M (list (string * string)) :=
  name ← obj_getitem sample "name" ≫= format;
  let logfile := name ++ ".markduplicates.log" in
  try_except_KeyError
    (bam ← obj_getitem sample "bam"; obj_setitem sample "sorted_bam" bam)
    (mret tt);;
  name' ← obj_getitem sample "name" ≫= format;
  obj_setitem sample "dedup_bam" (PStr (name' ++ ".dedup.sorted.bam"));;
  name'' ← obj_getitem sample "name" ≫= format;
  let metrics := name'' ++ ".dedup.metrics" in
  max_mem ← obj_getitem2 tool_config "gatk" "max_mem";
  bin ← obj_getitem2 tool_config "picard" "bin";
  working_bam ← obj_getitem sample "working_bam";
  dedup_bam ← obj_getitem sample "dedup_bam";
  max_mem' ← format max_mem;
  bin' ← format bin;
  working_bam' ← format working_bam;
  dedup_bam' ← format dedup_bam;
  let command := mark_duplicates_command max_mem' bin' working_bam' dedup_bam' metrics in
  let instructions := (instructions ++ [(command, logfile)])%list in
  dedup_bam'' ← obj_getitem sample "dedup_bam";
  obj_setitem sample "working_bam" dedup_bam'';;
  mret instructions.

(** The loop itself, over the samples still to visit. *)
Fixpoint run_mark_duplicates_loop (tool_config : loc) (sample_config : list loc)
    (instructions : list (string * string)) : M (list (string * string)) :=
  match sample_config with
  | [] => mret instructions
  | sample :: rest =>
      instructions' ← run_mark_duplicates_body tool_config sample instructions;
      run_mark_duplicates_loop tool_config rest instructions'
  end.

(** [run_mark_duplicates] has no [return]: the instructions it collects
    are dropped and the caller gets [None]. [project_config] and
    [resource_config] are not used. *)
Definition run_mark_duplicates (project_config : pyval) (sample_config : list loc)
    (tool_config : loc) (resource_config : pyval) : M unit :=
  sys_stdout_write ("Running MarkDuplicates" ++ Py.nl);;
  instructions ← run_mark_duplicates_loop tool_config sample_config [];
  mret tt.

Definition add_or_replace_readgroups_command
    (max_mem picard sample input_bam output_bam : string) : list string :=
  [ "java";
    "-Xmx" ++ max_mem ++ "g";
    "-jar";
    picard;
    "AddOrReplaceReadGroups";
    "INPUT=" ++ input_bam;
    "OUTPUT=" ++ output_bam;
    "RGID=" ++ sample;
    "RGSM=" ++ sample;
    "RGLB=" ++ sample;
    "RGPL=illumina";
    "RGPU=miseq" ].

Definition add_or_replace_readgroups_command2 (max_mem picard output_bam : string)
    : list string :=
  [ "java";
    "-Xmx" ++ max_mem ++ "g";
    "-jar";
    picard;
    "BuildBamIndex";
    "INPUT=" ++ output_bam ].

Definition add_or_replace_readgroups (config : loc) (sample input_bam : string)
    : M string :=
  logToMaster ("Running AddOrReplaceReadGroups in sample: " ++ sample);;
  let output_bam := sample ++ ".rg.sorted.bam" in
  let logfile := sample ++ ".addreadgroups.log" in
  let index_log := sample ++ ".buildindex.log" in
  max_mem ← obj_getitem2 config "gatk" "max_mem" ≫= format;
  picard ← obj_getitem config "picard" ≫= format;
  let command :=
    add_or_replace_readgroups_command max_mem picard sample input_bam output_bam in
  max_mem' ← obj_getitem2 config "gatk" "max_mem" ≫= format;
  picard' ← obj_getitem config "picard" ≫= format;
  let command2 := add_or_replace_readgroups_command2 max_mem' picard' output_bam in
  logToMaster ("GATK AddOrReplaceReadGroupsCommand Command: "
               ++ Py.str_tuple command ++ Py.nl);;
  run_and_log_command (Py.join command) logfile;;
  logToMaster ("GATK BuildBamIndex Command: " ++ Py.str_tuple command2 ++ Py.nl);;
  run_and_log_command (Py.join command2) index_log;;
  mret output_bam.

(** The [-jar] argument formats [config['gatk']] itself, the value that
    [config['gatk']['max_mem']] subscripts one line above. *)
Definition realign_target_creator_command
    (max_mem gatk reference indel1 indel2 input_bam targets : string)
    : list string :=
  [ "java";
    "-Xmx" ++ max_mem ++ "g";
    "-jar";
    gatk;
    "-T";
    "IndelRealigner";
    "-R";
    reference;
    "-I";
    input_bam;
    "-o";
    targets;
    "-known";
    indel1;
    "-known";
    indel2;
    "-targetIntervals";
    targets;
    "--read_filter";
    "NotPrimaryAlignment" ].

Definition realign_target_creator (config : loc) (sample input_bam : string)
    : M string :=
  let targets := sample ++ ".targets.intervals" in
  let targets_log := sample ++ ".targetcreation.log" in
  max_mem ← obj_getitem2 config "gatk" "max_mem" ≫= format;
  gatk ← obj_getitem config "gatk" ≫= format;
  reference ← obj_getitem config "reference" ≫= format;
  indel1 ← obj_getitem config "indel1" ≫= format;
  indel2 ← obj_getitem config "indel2" ≫= format;
  let command :=
    realign_target_creator_command max_mem gatk reference indel1 indel2
      input_bam targets in
  logToMaster ("GATK RealignerTargetCreator Command: " ++ Py.str_tuple command ++ Py.nl);;
  run_and_log_command (Py.join command) targets_log;;
  mret targets.

Definition realign_indels_command
    (max_mem gatk reference indel1 indel2 : string) (cpus : Z)
    (input_bam targets : string) : list string :=
  [ "java";
    "-Xmx" ++ max_mem ++ "g";
    "-jar";
    gatk;
    "-T";
    "RealignerTargetCreator";
    "-R";
    reference;
    "-I";
    input_bam;
    "-o";
    targets;
    "-known";
    indel1;
    "-known";
    indel2;
    "-nt";
    Py.str_of_int cpus ].

Definition realign_indels (config : loc) (sample input_bam targets : string)
    : M string :=
  let output_bam := sample ++ ".realigned.sorted.bam" in
  let realign_log := sample ++ ".realignindels.log" in
  max_mem ← obj_getitem2 config "gatk" "max_mem" ≫= format;
  gatk ← obj_getitem config "gatk" ≫= format;
  reference ← obj_getitem config "reference" ≫= format;
  indel1 ← obj_getitem config "indel1" ≫= format;
  indel2 ← obj_getitem config "indel2" ≫= format;
  cpus ← multiprocessing_cpu_count;
  let command :=
    realign_indels_command max_mem gatk reference indel1 indel2 cpus
      input_bam targets in
  logToMaster ("GATK IndelRealigner Command: " ++ Py.str_tuple command ++ Py.nl);;
  touch output_bam;;
  run_and_log_command (Py.join command) realign_log;;
  mret output_bam.

Definition recal_commands (max_mem gatk reference dbsnp : string) (cpus : Z)
    (input_bam recal_config : string) : list string :=
  [ "java";
    "-Xmx" ++ max_mem ++ "g";
    "-jar";
    gatk;
    "-T";
    "BaseRecalibrator";
    "-R";
    reference;
    "-I";
    input_bam;
    "-o";
    recal_config;
    "--knownSites";
    dbsnp;
    "-nct";
    Py.str_of_int cpus ].

Definition print_reads_command (max_mem gatk reference : string) (cpus : Z)
    (input_bam output_bam recal_config : string) : list string :=
  [ "java";
    "-Xmx" ++ max_mem ++ "g";
    "-jar";
    gatk;
    "-T";
    "PrintReads";
    "-R";
    reference;
    "-I";
    input_bam;
    "-o";
    output_bam;
    "-BQSR";
    recal_config;
    "-nct";
    Py.str_of_int cpus ].

Definition cp_command (sample : string) : list string :=
  [ "cp";
    sample ++ ".recalibrated.sorted.bai";
    sample ++ ".recalibrated.sorted.bam.bai" ].

Definition recalibrator (config : loc) (sample input_bam : string) : M string :=
  let output_bam := sample ++ ".recalibrated.sorted.bam" in
  let recal_config := sample ++ ".recal" in
  let recal_log := sample ++ ".recalibrate.log" in
  let print_log := sample ++ ".printrecalibrated.log" in
  let cp_log := sample ++ ".copy.log" in
  (* Calculate covariates *)
  max_mem ← obj_getitem2 config "gatk" "max_mem" ≫= format;
  gatk ← obj_getitem config "gatk" ≫= format;
  reference ← obj_getitem config "reference" ≫= format;
  dbsnp ← obj_getitem config "dbsnp" ≫= format;
  cpus ← multiprocessing_cpu_count;
  let recal_commands :=
    recal_commands max_mem gatk reference dbsnp cpus input_bam recal_config in
  (* Print recalibrated BAM *)
  max_mem' ← obj_getitem2 config "gatk" "max_mem" ≫= format;
  gatk' ← obj_getitem config "gatk" ≫= format;
  reference' ← obj_getitem config "reference" ≫= format;
  cpus' ← multiprocessing_cpu_count;
  let print_reads_command :=
    print_reads_command max_mem' gatk' reference' cpus'
      input_bam output_bam recal_config in
  (* Copy index to alternative name *)
  let cp_command := cp_command sample in
  logToMaster ("GATK BaseRecalibrator Command: " ++ Py.str_tuple recal_commands ++ Py.nl);;
  run_and_log_command (Py.join recal_commands) recal_log;;
  logToMaster ("GATK PrintReads Command: " ++ Py.str_tuple print_reads_command ++ Py.nl);;
  run_and_log_command (Py.join print_reads_command) print_log;;
  logToMaster ("GATK Copy Command: " ++ Py.str_tuple cp_command ++ Py.nl);;
  run_and_log_command (Py.join cp_command) cp_log;;
  mret output_bam.

(* ===================================================================== *)
(** ** ngsflow/variation/platypus.py *)
(* ===================================================================== *)

Definition platypus_command (platypus reference platypus_regions : string)
    (cpus : Z) (internal_log input_bam platypus_vcf : string) : list string :=
  [ platypus;
    "callVariants";
    "--refFile=" ++ reference;
    "--regions=" ++ platypus_regions;
    "--assemble=1";
    "--assembleBrokenPairs=1";
    "--filterDuplicates=0";
    "--nCPU=" ++ Py.str_of_int cpus;
    "--logFileName=" ++ internal_log;
    "--bamFiles=" ++ input_bam;
    "--output=" ++ platypus_vcf ].

(** The call of [pipeline.run_and_log_command] is commented out in the
    source; the stage waits two seconds instead. *)
Definition platypus_single (config : loc) (sample input_bam : string) : M string :=
  let platypus_vcf := sample ++ ".platypus.vcf" in
  let platypus_log := sample ++ ".platypus.log" in
  let internal_log := sample ++ ".platypus_internal.log" in
  platypus ← obj_getitem config "platypus" ≫= format;
  reference ← obj_getitem config "reference" ≫= format;
  platypus_regions ← obj_getitem config "platypus_regions" ≫= format;
  cpus ← multiprocessing_cpu_count;
  let platypus_command :=
    platypus_command platypus reference platypus_regions cpus
      internal_log input_bam platypus_vcf in
  logToMaster ("Platypus Command: " ++ Py.str_tuple platypus_command ++ Py.nl);;
  (* pipeline.run_and_log_command(" ".join(platypus_command), platypus_log) *)
  time_sleep 2;;
  mret platypus_vcf.

(* ===================================================================== *)
(** ** The twelve stages as one entry point *)
(* ===================================================================== *)

(** A call of a stage function with its arguments. *)
Inductive call : Type :=
  | Snpeff (config : loc) (sample input_vcf : string)
  | Gemini (config : loc) (sample input_vcf : string)
  | Vcfanno (config : loc) (sample input_vcf : string)
  | Diagnosetargets (config : loc) (sample input_bam : string)
  | AnnotateVcf (config : loc) (sample input_vcf input_bam : string) (num_threads : Z)
  | FilterVariants (config : loc) (sample input_vcf : string)
  | RunMarkDuplicates (project_config : pyval) (sample_config : list loc)
                      (tool_config : loc) (resource_config : pyval)
  | AddOrReplaceReadgroups (config : loc) (sample input_bam : string)
  | RealignTargetCreator (config : loc) (sample input_bam : string)
  | RealignIndels (config : loc) (sample input_bam targets : string)
  | Recalibrator (config : loc) (sample input_bam : string)
  | PlatypusSingle (config : loc) (sample input_bam : string).

(** The value a call hands back to its caller. *)
Definition run (c : call) : M pyval :=
  match c with
  | Snpeff config sample input_vcf => path ← snpeff config sample input_vcf; mret (PStr path)
  | Gemini config sample input_vcf => path ← gemini config sample input_vcf; mret (PStr path)
  | Vcfanno config sample input_vcf => path ← vcfanno config sample input_vcf; mret (PStr path)
  | Diagnosetargets config sample input_bam =>
      path ← diagnosetargets config sample input_bam; mret (PStr path)
  | AnnotateVcf config sample input_vcf input_bam num_threads =>
      path ← annotate_vcf config sample input_vcf input_bam num_threads; mret (PStr path)
  | FilterVariants config sample input_vcf =>
      path ← filter_variants config sample input_vcf; mret (PStr path)
  | RunMarkDuplicates project_config sample_config tool_config resource_config =>
      run_mark_duplicates project_config sample_config tool_config resource_config;;
      mret PNone
  | AddOrReplaceReadgroups config sample input_bam =>
      path ← add_or_replace_readgroups config sample input_bam; mret (PStr path)
  | RealignTargetCreator config sample input_bam =>
      path ← realign_target_creator config sample input_bam; mret (PStr path)
  | RealignIndels config sample input_bam targets =>
      path ← realign_indels config sample input_bam targets; mret (PStr path)
  | Recalibrator config sample input_bam =>
      path ← recalibrator config sample input_bam; mret (PStr path)
  | PlatypusSingle config sample input_bam =>
      path ← platypus_single config sample input_bam; mret (PStr path)
  end.

(* ===================================================================== *)
(** ** The vocabulary of the properties *)
(* ===================================================================== *)

(** [extend w evs]: the world [w] after the effects [evs], nothing else
    changed. *)
Definition extend (w : World) (evs : list Event) : World :=
  mkWorld (objs w) (cpu_count w) (trace w ++ evs).

(** The world with the content of the dictionary at [o] replaced. *)
Definition set_obj (w : World) (o : loc) (d : pydict) : World :=
  mkWorld (<[o := d]> (objs w)) (cpu_count w) (trace w).

(** The dictionary objects a value holds, at any depth of lists. *)
Fixpoint refs (v : pyval) : list loc :=
  match v with
  | PDict o => [o]
  | PList l => List.flat_map refs l
  | _ => []
  end.

(** The dictionary objects the values of a dictionary hold. *)
Definition dict_refs (d : pydict) : list loc :=
  List.flat_map (fun kv : string * pyval => refs kv.2) d.

(** [closed h L]: the dictionaries of [L] hold dictionaries of [L] only.
    A closed set that has the configuration dictionary has everything
    that can be reached from it. *)
Definition closed (h : store) (L : list loc) : bool :=
  forallb (fun o : loc =>
             match h !! o with
             | Some d => forallb (fun o' : loc => existsb (Nat.eqb o') L) (dict_refs d)
             | None => true
             end) L.

(** The content of the dictionaries of [L], in the order of [L]. *)
Definition objects_at (L : list loc) (h : store) : list (option pydict) :=
  List.map (fun o : loc => h !! o) L.

(** Two stores agree on the dictionaries of [L]. *)
Definition agree (L : list loc) (h1 h2 : store) : Prop :=
  ∀ o, o ∈ L → h1 !! o = h2 !! o.

(** [same_outside keys h h']: the store [h'] has the dictionaries of [h],
    each with the values it had under every key that is not in [keys]. *)
Definition same_outside (keys : list string) (h h' : store) : Prop :=
  length h' = length h
  ∧ ∀ o d, h !! o = Some d →
      ∃ d', h' !! o = Some d' ∧ ∀ k, k ∉ keys → Py.dict_get d' k = Py.dict_get d k.

(** The dictionaries of the store that are not being printed. *)
Definition unvisited (h : store) (stack : list loc) : list loc :=
  List.filter (fun o : loc => negb (existsb (Nat.eqb o) stack)) (seq 0 (length h)).

(** [v[k1][k2]...]: the subscripts of a key path, applied in turn. *)
Fixpoint lookup_path (h : store) (v : pyval) (p : list string) : outcome pyval :=
  match p with
  | [] => Ret v
  | k :: p' =>
      match Py.getitem h v k with
      | Ret x => lookup_path h x p'
      | Raise e => Raise e
      end
  end.

(** The exception of the first read that fails, if any; a read is a key
    path and the dictionary object it starts from. *)
Fixpoint first_failure (h : store) (reads : list (loc * list string))
    : option pyexc :=
  match reads with
  | [] => None
  | (o, p) :: reads' =>
      match lookup_path h (PDict o) p with
      | Ret _ => first_failure h reads'
      | Raise e => Some e
      end
  end.

(** The value at a key path of the dictionary at [o] (and [None] where
    there is none), and the text it formats to. *)
Definition path_val (h : store) (o : loc) (p : list string) : pyval :=
  match lookup_path h (PDict o) p with
  | Ret v => v
  | Raise _ => PNone
  end.

Definition path_str (h : store) (o : loc) (p : list string) : string :=
  Py.str h (path_val h o p).

(** The stages that take [(job, config, sample, ...)]: all but
    [run_mark_duplicates]. *)
Definition is_job (c : call) : bool :=
  match c with
  | RunMarkDuplicates _ _ _ _ => false
  | _ => true
  end.

(** The configuration dictionary a call is handed. *)
Definition config_of (c : call) : loc :=
  match c with
  | Snpeff config _ _ | Gemini config _ _ | Vcfanno config _ _
  | Diagnosetargets config _ _ | AnnotateVcf config _ _ _ _
  | FilterVariants config _ _ | AddOrReplaceReadgroups config _ _
  | RealignTargetCreator config _ _ | RealignIndels config _ _ _
  | Recalibrator config _ _ | PlatypusSingle config _ _ => config
  | RunMarkDuplicates _ _ tool_config _ => tool_config
  end.

(** The reads of one iteration of the loop of [run_mark_duplicates] that
    can fail, in the order of their first evaluation: the name of the
    sample record, the two values of the tool configuration, the
    [working_bam] of the record. (The read of [bam] is guarded by the
    [try]; [dedup_bam] has just been assigned when it is read.) *)
Definition sample_reads (tool_config sample : loc) : list (loc * list string) :=
  [ (sample, ["name"]);
    (tool_config, ["gatk"; "max_mem"]);
    (tool_config, ["picard"; "bin"]);
    (sample, ["working_bam"]) ].

(** The key paths a call requires, each with the dictionary it is read
    from, in the order of their first read: those of a job stage start
    from its configuration dictionary, those of [run_mark_duplicates]
    from the tool configuration and from each sample record in turn. *)
Definition required (c : call) : list (loc * list string) :=
  match c with
  | Snpeff config _ _ =>
      List.map (pair config)
        [["snpeff"; "reference"]; ["snpeff"; "bin"]; ["snpeff"; "max_mem"]]
  | Gemini config _ _ =>
      List.map (pair config)
        [["snpeff"; "reference"]; ["gemini"; "bin"]; ["gemini"; "num_cores"]]
  | Vcfanno config _ _ =>
      List.map (pair config)
        [["snpeff"; "reference"]; ["vcfanno"; "bin"]; ["vcfanno"; "num_cores"];
         ["vcfanno"; "lua"]; ["vcfanno"; "conf"]]
  | Diagnosetargets config _ _ =>
      List.map (pair config)
        [["gatk"; "bin"]; ["reference"]; ["regions"]; ["coverage_loci_threshold"];
         ["bad_mate_threshold"]; ["coverage_threshold"]; ["quality_loci_threshold"]]
  | AnnotateVcf config _ _ _ _ =>
      List.map (pair config)
        [["gatk"; "max_mem"]; ["gatk"; "bin"]; ["reference"]; ["dbsnp"]]
  | FilterVariants config _ _ =>
      List.map (pair config)
        [["gatk"; "max_mem"]; ["gatk"; "bin"]; ["reference"]; ["coverage_threshold"]]
  | RunMarkDuplicates _ sample_config tool_config _ =>
      List.flat_map (sample_reads tool_config) sample_config
  | AddOrReplaceReadgroups config _ _ =>
      List.map (pair config) [["gatk"; "max_mem"]; ["picard"]]
  | RealignTargetCreator config _ _ | RealignIndels config _ _ _ =>
      List.map (pair config)
        [["gatk"; "max_mem"]; ["gatk"]; ["reference"]; ["indel1"]; ["indel2"]]
  | Recalibrator config _ _ =>
      List.map (pair config)
        [["gatk"; "max_mem"]; ["gatk"]; ["reference"]; ["dbsnp"]]
  | PlatypusSingle config _ _ =>
      List.map (pair config) [["platypus"]; ["reference"]; ["platypus_regions"]]
  end.

(** What a call has done before it first reads a dictionary. *)
Definition preamble (c : call) : list Event :=
  match c with
  | AddOrReplaceReadgroups _ sample _ =>
      [LogToMaster ("Running AddOrReplaceReadGroups in sample: " ++ sample)]
  | RunMarkDuplicates _ _ _ _ =>
      [StdoutWrite ("Running MarkDuplicates" ++ Py.nl)]
  | _ => []
  end.

(** The artifact name a job stage returns when it runs to its end. *)
Definition returned (c : call) (h : store) : string :=
  match c with
  | Snpeff config sample _ =>
      snpeff_output_vcf sample (path_str h config ["snpeff"; "reference"])
  | Gemini config sample _ =>
      gemini_db sample (path_str h config ["snpeff"; "reference"])
  | Vcfanno config sample _ =>
      vcfanno_output_vcf sample (path_str h config ["snpeff"; "reference"])
  | Diagnosetargets _ sample _ => sample ++ ".diagnosetargets.vcf"
  | AnnotateVcf _ sample _ _ _ => sample ++ ".annotated.vcf"
  | FilterVariants _ sample _ => sample ++ ".filtered.vcf"
  | RunMarkDuplicates _ _ _ _ => ""
  | AddOrReplaceReadgroups _ sample _ => sample ++ ".rg.sorted.bam"
  | RealignTargetCreator _ sample _ => sample ++ ".targets.intervals"
  | RealignIndels _ sample _ _ => sample ++ ".realigned.sorted.bam"
  | Recalibrator _ sample _ => sample ++ ".recalibrated.sorted.bam"
  | PlatypusSingle _ sample _ => sample ++ ".platypus.vcf"
  end.

(** The command tuples a job stage builds when every key is there, each
    with the label it is announced under and its log file, in the order
    they are built. *)
Definition commands (c : call) (h : store) (cpus : Z)
    : list (string * list string * string) :=
  let val := path_str h (config_of c) in
  match c with
  | Snpeff _ sample input_vcf =>
      [("snpEff",
        snpeff_command (val ["snpeff"; "bin"]) (val ["snpeff"; "max_mem"])
          (val ["snpeff"; "reference"]) input_vcf (returned c h),
        sample ++ ".snpeff.log")]
  | Gemini _ sample input_vcf =>
      [("GEMINI",
        gemini_command (val ["gemini"; "bin"]) (val ["gemini"; "num_cores"])
          input_vcf (returned c h),
        sample ++ ".gemini.log")]
  | Vcfanno _ sample input_vcf =>
      [("GEMINI",
        vcfanno_command (val ["vcfanno"; "bin"]) (val ["vcfanno"; "num_cores"])
          (val ["vcfanno"; "lua"]) (val ["vcfanno"; "conf"])
          input_vcf (returned c h),
        sample ++ ".vcfanno.log")]
  | Diagnosetargets _ sample input_bam =>
      [("GATK DiagnoseTargets",
        diagnosetargets_command (val ["gatk"; "bin"]) (val ["reference"])
          (val ["regions"]) (val ["coverage_loci_threshold"])
          (val ["bad_mate_threshold"]) (val ["coverage_threshold"])
          (val ["quality_loci_threshold"])
          input_bam (returned c h) (sample ++ ".missing.intervals"),
        sample ++ ".diagnose_targets.log")]
  | AnnotateVcf _ sample input_vcf input_bam num_threads =>
      [("GATK VariantAnnotator",
        annotation_command (val ["gatk"; "max_mem"]) (val ["gatk"; "bin"])
          (val ["reference"]) num_threads (val ["dbsnp"])
          input_bam input_vcf (returned c h),
        sample ++ ".variantannotation.log")]
  | FilterVariants _ sample input_vcf =>
      [("GATK VariantFiltration",
        filter_command (val ["gatk"; "max_mem"]) (val ["gatk"; "bin"])
          (val ["reference"]) (val ["coverage_threshold"])
          input_vcf (returned c h),
        sample ++ ".variantfiltration.log")]
  | RunMarkDuplicates _ _ _ _ => []
  | AddOrReplaceReadgroups _ sample input_bam =>
      [("GATK AddOrReplaceReadGroupsCommand",
        add_or_replace_readgroups_command (val ["gatk"; "max_mem"]) (val ["picard"])
          sample input_bam (returned c h),
        sample ++ ".addreadgroups.log");
       ("GATK BuildBamIndex",
        add_or_replace_readgroups_command2 (val ["gatk"; "max_mem"]) (val ["picard"])
          (returned c h),
        sample ++ ".buildindex.log")]
  | RealignTargetCreator _ sample input_bam =>
      [("GATK RealignerTargetCreator",
        realign_target_creator_command (val ["gatk"; "max_mem"]) (val ["gatk"])
          (val ["reference"]) (val ["indel1"]) (val ["indel2"])
          input_bam (returned c h),
        sample ++ ".targetcreation.log")]
  | RealignIndels _ sample input_bam targets =>
      [("GATK IndelRealigner",
        realign_indels_command (val ["gatk"; "max_mem"]) (val ["gatk"])
          (val ["reference"]) (val ["indel1"]) (val ["indel2"]) cpus
          input_bam targets,
        sample ++ ".realignindels.log")]
  | Recalibrator _ sample input_bam =>
      [("GATK BaseRecalibrator",
        recal_commands (val ["gatk"; "max_mem"]) (val ["gatk"]) (val ["reference"])
          (val ["dbsnp"]) cpus input_bam (sample ++ ".recal"),
        sample ++ ".recalibrate.log");
       ("GATK PrintReads",
        print_reads_command (val ["gatk"; "max_mem"]) (val ["gatk"])
          (val ["reference"]) cpus input_bam (returned c h) (sample ++ ".recal"),
        sample ++ ".printrecalibrated.log");
       ("GATK Copy", cp_command sample, sample ++ ".copy.log")]
  | PlatypusSingle _ sample input_bam =>
      [("Platypus",
        platypus_command (val ["platypus"]) (val ["reference"])
          (val ["platypus_regions"]) cpus
          (sample ++ ".platypus_internal.log") input_bam (returned c h),
        sample ++ ".platypus.log")]
  end.

(** How a command tuple is announced and how it is executed. *)
Definition announce (cmd : string * list string * string) : Event :=
  let '(label, vector, _) := cmd in
  LogToMaster (label ++ " Command: " ++ Py.str_tuple vector ++ Py.nl).

Definition execute (cmd : string * list string * string) : Event :=
  let '(_, vector, logfile) := cmd in
  RunAndLog (Py.join vector) logfile.

(** The effects of a job stage that runs to its end: every command is
    announced and then executed, except that [realign_indels] touches its
    output in between and [platypus_single] sleeps instead of executing. *)
Definition effects (c : call) (h : store) (cpus : Z) : list Event :=
  match c with
  | RealignIndels _ _ _ _ =>
      List.flat_map (fun cmd => [announce cmd; Touch (returned c h); execute cmd])
        (commands c h cpus)
  | PlatypusSingle _ _ _ =>
      List.flat_map (fun cmd => [announce cmd; Sleep 2]) (commands c h cpus)
  | _ =>
      preamble c
      ++ List.flat_map (fun cmd => [announce cmd; execute cmd]) (commands c h cpus)
  end.

(** The result of a job stage in terms of the above. *)
Definition job_result (c : call) (w : World) : outcome string * World :=
  match first_failure (objs w) (required c) with
  | Some e => (Raise e, extend w (preamble c))
  | None =>
      (Ret (returned c (objs w)), extend w (effects c (objs w) (cpu_count w)))
  end.

(** The store provides every key the call reads. *)
Definition provides (h : store) (c : call) : Prop :=
  first_failure h (required c) = None.

(** A configuration dictionary and the four sections it holds. *)
Definition example_config : pydict :=
  [ ("snpeff", PDict 1%nat);
    ("gemini", PDict 2%nat);
    ("vcfanno", PDict 3%nat);
    ("gatk", PDict 4%nat);
    ("picard", PStr "picard.jar");
    ("platypus", PStr "platypus");
    ("reference", PStr "hg19.fa");
    ("regions", PStr "panel.bed");
    ("platypus_regions", PStr "panel.txt");
    ("dbsnp", PStr "dbsnp.vcf");
    ("indel1", PStr "mills.vcf");
    ("indel2", PStr "1000g.vcf");
    ("coverage_loci_threshold", PInt 20);
    ("bad_mate_threshold", PInt 50);
    ("coverage_threshold", PInt 200);
    ("quality_loci_threshold", PInt 20) ].

Definition example_sections : store :=
  [ [("bin", PStr "snpEff"); ("max_mem", PInt 4); ("reference", PStr "GRCh37")];
    [("bin", PStr "gemini"); ("num_cores", PInt 2)];
    [("bin", PStr "vcfanno"); ("num_cores", PInt 2);
     ("lua", PStr "custom.lua"); ("conf", PStr "anno.conf")];
    [("bin", PStr "gatk.jar"); ("max_mem", PInt 8)] ].

(** A host with four CPUs holding [example_config] at location 0 and its
    sections at locations 1 to 4. *)
Definition example_world : World :=
  mkWorld (example_config :: example_sections) 4 [].

(** The commands a list of effects hands to
    [pipeline.run_and_log_command], each with its log file. *)
Fixpoint executed (evs : list Event) : list (string * string) :=
  match evs with
  | [] => []
  | RunAndLog command logfile :: evs' => (command, logfile) :: executed evs'
  | _ :: evs' => executed evs'
  end.

(** The stages whose source calls [pipeline.run_and_log_command]. *)
Definition invokes (c : call) : bool :=
  match c with
  | PlatypusSingle _ _ _ | RunMarkDuplicates _ _ _ _ => false
  | _ => true
  end.

(** The stages that ask the host for its number of CPUs. *)
Definition uses_cpu_count (c : call) : bool :=
  match c with
  | RealignIndels _ _ _ _ | Recalibrator _ _ _ | PlatypusSingle _ _ _ => true
  | _ => false
  end.

(** The dictionary objects a call writes to, and the keys it assigns. *)
Definition written (c : call) : list loc :=
  match c with
  | RunMarkDuplicates _ sample_config _ _ => sample_config
  | _ => []
  end.

Definition written_keys : list string := ["sorted_bam"; "dedup_bam"; "working_bam"].

(** A host with eight CPUs and the same store. *)
Definition example_world_8_cpus : World :=
  mkWorld (example_config :: example_sections) 8 [].

(** A host with eight CPUs that holds the same configuration among other
    things: one more dictionary, and a trace that is not empty. *)
Definition example_busy_world : World :=
  mkWorld (example_config :: example_sections ++ [[("unrelated", PInt 1)]])%list 8
    [Sleep 1].

(** A configuration without [dbsnp], its [gatk] section at location 1. *)
Definition example_world_without_dbsnp : World :=
  mkWorld
    [ [("gatk", PDict 1%nat); ("reference", PStr "hg19.fa")];
      [("bin", PStr "gatk.jar"); ("max_mem", PInt 8)] ]
    4 [].

(** A tool configuration and a sample record for [run_mark_duplicates]. *)
Definition example_tool_config : pydict :=
  [ ("gatk", PDict 2%nat); ("picard", PDict 3%nat) ].

Definition example_sample : pydict :=
  [ ("name", PStr "S1"); ("working_bam", PStr "S1.sorted.bam") ].

Definition example_tool_sections : store :=
  [ [("max_mem", PInt 8)]; [("bin", PStr "picard.jar")] ].

(** The tool configuration at location 0, the sample record at 1, the two
    sections of the tool configuration at 2 and 3. *)
Definition example_samples_world : World :=
  mkWorld (example_tool_config :: example_sample :: example_tool_sections) 4 [].

(** One dictionary that is tool configuration and sample record at once,
    at location 0. *)
Definition example_shared_world : World :=
  mkWorld
    [ [("gatk", PDict 1%nat); ("picard", PDict 2%nat);
       ("name", PStr "S1"); ("working_bam", PStr "S1.sorted.bam")];
      [("max_mem", PInt 8)];
      [("bin", PStr "picard.jar")] ]
    4 [].

(** A sample record that is the [gatk] section of the tool configuration:
    the dictionary at location 1 is [tool_config['gatk']] and is handed in
    [sample_config] as well. *)
Definition example_nested_world : World :=
  mkWorld
    [ [("gatk", PDict 1%nat); ("picard", PDict 2%nat)];
      [("max_mem", PInt 8); ("name", PStr "S1"); ("working_bam", PStr "S1.sorted.bam")];
      [("bin", PStr "picard.jar")] ]
    4 [].

(** The last character of a string. *)
Fixpoint last_char (s : string) : option ascii :=
  match s with
  | EmptyString => None
  | String c EmptyString => Some c
  | String _ s' => last_char s'
  end.

(** The stages whose artifact name carries [config['snpeff']['reference']]. *)
Definition names_reference (c : call) : bool :=
  match c with
  | Snpeff _ _ _ | Gemini _ _ _ | Vcfanno _ _ _ => true
  | _ => false
  end.

(** The example configuration with another genome build. *)
Definition example_world_hg38 : World :=
  mkWorld
    (Py.dict_set example_config "reference" (PStr "hg38.fa")
     :: [("bin", PStr "snpEff"); ("max_mem", PInt 4); ("reference", PStr "GRCh38")]
     :: tail example_sections)
    4 [].

(** How a command tells its tool where to write. *)
Inductive output_style : Type :=
  | RedirectGlued     (* one token: ">" followed by the path *)
  | Redirect          (* two tokens: ">" and the path *)
  | Positional        (* the path as the last argument, after "-t snpEff" *)
  | FlagO             (* "-o" and the path *)
  | OutputEquals.     (* "OUTPUT=" followed by the path *)

Definition names_output (style : output_style) (vector : list string)
    (out : string) : Prop :=
  match style with
  | RedirectGlued => ∃ pre, vector = (pre ++ [(">" ++ out)%string])%list
  | Redirect => ∃ pre, vector = (pre ++ [">"; out])%list
  | Positional => ∃ pre, vector = (pre ++ ["-t"; "snpEff"; out])%list
  | FlagO => ∃ pre post, vector = (pre ++ ["-o"; out] ++ post)%list
  | OutputEquals => ∃ pre post, vector = (pre ++ [("OUTPUT=" ++ out)%string] ++ post)%list
  end.

(** The style of each stage that executes a command naming the artifact it
    returns. [realign_indels] is not among them (its [-o] names the
    targets file it is handed), nor is [platypus_single] (which executes
    nothing). *)
Definition output_style_of (c : call) : option output_style :=
  match c with
  | Snpeff _ _ _ => Some RedirectGlued
  | Vcfanno _ _ _ => Some Redirect
  | Gemini _ _ _ => Some Positional
  | Diagnosetargets _ _ _ | AnnotateVcf _ _ _ _ _ | FilterVariants _ _ _
  | RealignTargetCreator _ _ _ | Recalibrator _ _ _ => Some FlagO
  | AddOrReplaceReadgroups _ _ _ => Some OutputEquals
  | RealignIndels _ _ _ _ | PlatypusSingle _ _ _ | RunMarkDuplicates _ _ _ _ => None
  end.

(** The names a call is handed as arguments: the sample and the
    artifacts of earlier stages. *)
Definition arguments (c : call) : list string :=
  match c with
  | Snpeff _ sample input_vcf | Gemini _ sample input_vcf
  | Vcfanno _ sample input_vcf | FilterVariants _ sample input_vcf =>
      [sample; input_vcf]
  | Diagnosetargets _ sample input_bam | AddOrReplaceReadgroups _ sample input_bam
  | RealignTargetCreator _ sample input_bam | Recalibrator _ sample input_bam
  | PlatypusSingle _ sample input_bam => [sample; input_bam]
  | AnnotateVcf _ sample input_vcf input_bam num_threads =>
      [sample; input_vcf; input_bam; Py.str_of_int num_threads]
  | RealignIndels _ sample input_bam targets => [sample; input_bam; targets]
  | RunMarkDuplicates _ _ _ _ => []
  end.

(** Every text a job stage receives and puts into its commands: its
    arguments, the configuration values it reads, as they format, and the
    CPU count where it asks for it. What else a command holds, the stage
    wrote itself. *)
Definition interpolated (c : call) (h : store) (cpus : Z) : list string :=
  (arguments c
   ++ List.map (fun r : loc * list string => path_str h r.1 r.2) (required c)
   ++ (if uses_cpu_count c then [Py.str_of_int cpus] else []))%list.







(** ["%s.dedup.sorted.bam" % sample['name']], as the value stored in the
    sample record; [name] is the name as it formats. *)
Definition dedup_name (name : string) : pyval := PStr (name ++ ".dedup.sorted.bam").

(** The world after the [try] of an iteration: [sorted_bam] has been set
    when the record has a [bam]. *)
Definition with_sorted_bam (w : World) (sample : loc) (d : pydict) : World :=
  match Py.dict_get d "bam" with
  | Some bam => set_obj w sample (Py.dict_set d "sorted_bam" bam)
  | None => w
  end.

(** A sample record when the loop of [run_mark_duplicates] reaches the
    command of its iteration: [sorted_bam] has been set when there is a
    [bam], and [dedup_bam] has been set. *)
Definition half_marked (d : pydict) (name : string) : pydict :=
  let d1 :=
    match Py.dict_get d "bam" with
    | Some bam => Py.dict_set d "sorted_bam" bam
    | None => d
    end in
  Py.dict_set d1 "dedup_bam" (dedup_name name).

(** A sample record after its iteration: [working_bam] has been set too. *)
Definition marked (d : pydict) (name : string) : pydict :=
  Py.dict_set (half_marked d name) "working_bam" (dedup_name name).

(** The instruction of one sample, from the texts that go into it. *)
Definition instruction_for (max_mem bin working_bam name : string)
    : string * string :=
  (mark_duplicates_command max_mem bin working_bam
     (name ++ ".dedup.sorted.bam") (name ++ ".dedup.metrics"),
   name ++ ".markduplicates.log").

(** One iteration of the loop in closed form. The name is formatted three
    times, as the store stands before the [try], after it and after the
    assignment of [dedup_bam]; the values of the command are formatted
    after that assignment too. A value that holds no dictionary formats
    the same each time (lemma [str_plain]). *)
Definition body_result (tool_config sample : loc)
    (instructions : list (string * string)) (w : World)
    : outcome (list (string * string)) * World :=
  match objs w !! sample with
  | None => (Raise TypeError, w)
  | Some d =>
      match Py.dict_get d "name" with
      | None => (Raise (KeyError "name"), w)
      | Some name =>
          let text := Py.str (objs (with_sorted_bam w sample d)) name in
          let w2 := set_obj w sample (half_marked d text) in
          match first_failure (objs w)
                  [ (tool_config, ["gatk"; "max_mem"]);
                    (tool_config, ["picard"; "bin"]);
                    (sample, ["working_bam"]) ] with
          | Some e => (Raise e, w2)
          | None =>
              let val o p := Py.str (objs w2) (path_val (objs w) o p) in
              let command :=
                mark_duplicates_command
                  (val tool_config ["gatk"; "max_mem"])
                  (val tool_config ["picard"; "bin"])
                  (val sample ["working_bam"])
                  (text ++ ".dedup.sorted.bam")
                  (Py.str (objs w2) name ++ ".dedup.metrics") in
              let logfile := Py.str (objs w) name ++ ".markduplicates.log" in
              (Ret (instructions ++ [(command, logfile)])%list,
               set_obj w sample (marked d text))
          end
      end
  end.

(** The [working_bam] of the sample at position [i] of [sample_config]
    when its turn comes: the dedup name, if the record was listed before,
    and the value it came with otherwise. *)
Definition working_bam_at (sample_config : list loc) (i : nat) (sample : loc)
    (name working_bam : string) : string :=
  if existsb (Nat.eqb sample) (take i sample_config)
  then name ++ ".dedup.sorted.bam"
  else working_bam.

(** A sample record the loop can process: it has a [name] and a
    [working_bam]. *)
Definition ready (w : World) (sample : loc) : Prop :=
  ∃ d name working_bam,
    objs w !! sample = Some d
    ∧ Py.dict_get d "name" = Some name
    ∧ Py.dict_get d "working_bam" = Some working_bam.

(** A record whose [name] and [working_bam] hold no dictionary, as
    strings and numbers do: they format the same whatever the store. *)
Definition plain_ready (w : World) (sample : loc) : Prop :=
  ∃ d name working_bam,
    objs w !! sample = Some d
    ∧ Py.dict_get d "name" = Some name
    ∧ Py.dict_get d "working_bam" = Some working_bam
    ∧ refs name = [] ∧ refs working_bam = [].

(** The two reads of the tool configuration. *)
Definition tool_reads (tool_config : loc) : list (loc * list string) :=
  [ (tool_config, ["gatk"; "max_mem"]); (tool_config, ["picard"; "bin"]) ].

(** The three stages whose [-jar] argument formats [config['gatk']]
    itself. *)
Definition formats_gatk_section (c : call) : bool :=
  match c with
  | RealignTargetCreator _ _ _ | RealignIndels _ _ _ _ | Recalibrator _ _ _ => true
  | _ => false
  end.

(** The same call for another sample. *)
Definition with_sample (c : call) (sample : string) : call :=
  match c with
  | Snpeff config _ input_vcf => Snpeff config sample input_vcf
  | Gemini config _ input_vcf => Gemini config sample input_vcf
  | Vcfanno config _ input_vcf => Vcfanno config sample input_vcf
  | Diagnosetargets config _ input_bam => Diagnosetargets config sample input_bam
  | AnnotateVcf config _ input_vcf input_bam num_threads =>
      AnnotateVcf config sample input_vcf input_bam num_threads
  | FilterVariants config _ input_vcf => FilterVariants config sample input_vcf
  | AddOrReplaceReadgroups config _ input_bam =>
      AddOrReplaceReadgroups config sample input_bam
  | RealignTargetCreator config _ input_bam =>
      RealignTargetCreator config sample input_bam
  | RealignIndels config _ input_bam targets =>
      RealignIndels config sample input_bam targets
  | Recalibrator config _ input_bam => Recalibrator config sample input_bam
  | PlatypusSingle config _ input_bam => PlatypusSingle config sample input_bam
  | RunMarkDuplicates _ _ _ _ => c
  end.

(** An event that only writes a line to the master log. *)
Definition is_log (ev : Event) : Prop := ∃ msg, ev = LogToMaster msg.

(** A configuration whose [gatk] entry is the path of the jar. *)
Definition example_world_gatk_path : World :=
  mkWorld
    [ [ ("gatk", PStr "gatk.jar"); ("reference", PStr "hg19.fa");
        ("indel1", PStr "mills.vcf"); ("indel2", PStr "1000g.vcf");
        ("dbsnp", PStr "dbsnp.vcf") ] ]
    4 [].

(** A second sample record, without [working_bam]: the tool configuration
    at location 0, the records at 1 and 2, the two sections at 3 and 4. *)
Definition example_two_samples_world : World :=
  mkWorld
    [ [("gatk", PDict 3%nat); ("picard", PDict 4%nat)];
      example_sample;
      [("name", PStr "S2")];
      [("max_mem", PInt 8)];
      [("bin", PStr "picard.jar")] ]
    4 [].

(* ===================================================================== *)
(** ** Worlds and the monad *)
(* ===================================================================== *)

Lemma extend_nil w : extend w [] = w.
Proof. destruct w as [o c t]. unfold extend. simpl. by rewrite app_nil_r. Qed.

Lemma extend_extend w evs evs' :
  extend (extend w evs) evs' = extend w (evs ++ evs')%list.
Proof. unfold extend. simpl. by rewrite app_assoc. Qed.

Lemma bind_cpu_count {A} (K : Z → M A) w :
  (multiprocessing_cpu_count ≫= K) w = K (cpu_count w) w.
Proof. reflexivity. Qed.

Lemma bind_emit {A} e (K : unit → M A) w :
  (emit e ≫= K) w = K tt (extend w [e]).
Proof. reflexivity. Qed.

Lemma bind_format {A} v (K : string → M A) w :
  (format v ≫= K) w = K (Py.str (objs w) v) w.
Proof. reflexivity. Qed.

Lemma bind_obj_getitem {A} o k (K : pyval → M A) w :
  (obj_getitem o k ≫= K) w =
    match lookup_path (objs w) (PDict o) [k] with
    | Ret v => K v w
    | Raise e => (Raise e, w)
    end.
Proof.
  unfold mbind, M_bind, obj_getitem, getitem. cbn [lookup_path].
  by destruct (Py.getitem (objs w) (PDict o) k).
Qed.

Lemma bind_obj_getitem2 {A} o k1 k2 (K : pyval → M A) w :
  (obj_getitem2 o k1 k2 ≫= K) w =
    match lookup_path (objs w) (PDict o) [k1; k2] with
    | Ret v => K v w
    | Raise e => (Raise e, w)
    end.
Proof.
  unfold obj_getitem2, mbind, M_bind, obj_getitem, getitem. cbn [lookup_path].
  destruct (Py.getitem (objs w) (PDict o) k1) as [v|]; [|done].
  by destruct (Py.getitem (objs w) v k2).
Qed.

(** A value is read and formatted, as in
    ["{}".format(config[k1][k2])]. *)
Lemma bind_format_obj_getitem {A} o k (K : string → M A) w :
  ((obj_getitem o k ≫= format) ≫= K) w =
    match lookup_path (objs w) (PDict o) [k] with
    | Ret v => K (Py.str (objs w) v) w
    | Raise e => (Raise e, w)
    end.
Proof.
  unfold mbind at 1. unfold M_bind. rewrite bind_obj_getitem.
  by destruct (lookup_path _ _ _).
Qed.

Lemma bind_format_obj_getitem2 {A} o k1 k2 (K : string → M A) w :
  ((obj_getitem2 o k1 k2 ≫= format) ≫= K) w =
    match lookup_path (objs w) (PDict o) [k1; k2] with
    | Ret v => K (Py.str (objs w) v) w
    | Raise e => (Raise e, w)
    end.
Proof.
  unfold mbind at 1. unfold M_bind. rewrite bind_obj_getitem2.
  by destruct (lookup_path _ _ _).
Qed.

(* ===================================================================== *)
(** ** Running a job stage *)
(* ===================================================================== *)

(** One step of a stage: the next statement reads and formats a value of
    the configuration (and the case of the key path is split, or is known
    from an earlier read), asks for the CPU count or performs an
    effect. *)
Ltac stage_step :=
  first
    [ rewrite bind_format_obj_getitem2
    | rewrite bind_format_obj_getitem
    | rewrite bind_cpu_count
    | rewrite bind_emit ];
  cbn [objs extend cpu_count];
  try lazymatch goal with
    | H : lookup_path ?h ?v ?p = _ |- context [lookup_path ?h ?v ?p] => rewrite !H
    | |- (match lookup_path ?h ?v ?p with _ => _ end) = _ =>
        let E := fresh "E" in
        destruct (lookup_path h v p) eqn:E; [|by rewrite ?extend_nil]
    end.

Ltac stage_run :=
  unfold job_result, effects, preamble, commands, returned, required, path_str,
         path_val, announce, execute, logToMaster, run_and_log_command,
         touch, time_sleep;
  cbn [first_failure List.map config_of];
  cbv zeta;
  repeat stage_step;
  rewrite ?extend_extend; reflexivity.

Lemma snpeff_run config sample input_vcf w :
  snpeff config sample input_vcf w = job_result (Snpeff config sample input_vcf) w.
Proof. unfold snpeff. stage_run. Qed.

Lemma gemini_run config sample input_vcf w :
  gemini config sample input_vcf w = job_result (Gemini config sample input_vcf) w.
Proof. unfold gemini. stage_run. Qed.

Lemma vcfanno_run config sample input_vcf w :
  vcfanno config sample input_vcf w = job_result (Vcfanno config sample input_vcf) w.
Proof. unfold vcfanno. stage_run. Qed.

Lemma diagnosetargets_run config sample input_bam w :
  diagnosetargets config sample input_bam w
  = job_result (Diagnosetargets config sample input_bam) w.
Proof. unfold diagnosetargets. stage_run. Qed.

Lemma annotate_vcf_run config sample input_vcf input_bam num_threads w :
  annotate_vcf config sample input_vcf input_bam num_threads w
  = job_result (AnnotateVcf config sample input_vcf input_bam num_threads) w.
Proof. unfold annotate_vcf. stage_run. Qed.

Lemma filter_variants_run config sample input_vcf w :
  filter_variants config sample input_vcf w
  = job_result (FilterVariants config sample input_vcf) w.
Proof. unfold filter_variants. stage_run. Qed.

Lemma add_or_replace_readgroups_run config sample input_bam w :
  add_or_replace_readgroups config sample input_bam w
  = job_result (AddOrReplaceReadgroups config sample input_bam) w.
Proof. unfold add_or_replace_readgroups. stage_run. Qed.

Lemma realign_target_creator_run config sample input_bam w :
  realign_target_creator config sample input_bam w
  = job_result (RealignTargetCreator config sample input_bam) w.
Proof. unfold realign_target_creator. stage_run. Qed.

Lemma realign_indels_run config sample input_bam targets w :
  realign_indels config sample input_bam targets w
  = job_result (RealignIndels config sample input_bam targets) w.
Proof. unfold realign_indels. stage_run. Qed.

Lemma recalibrator_run config sample input_bam w :
  recalibrator config sample input_bam w
  = job_result (Recalibrator config sample input_bam) w.
Proof. unfold recalibrator. stage_run. Qed.

Lemma platypus_single_run config sample input_bam w :
  platypus_single config sample input_bam w
  = job_result (PlatypusSingle config sample input_bam) w.
Proof. unfold platypus_single. stage_run. Qed.

(** A call of a job stage in terms of [job_result]. *)
Lemma run_job c w :
  is_job c = true →
  run c w =
    (match fst (job_result c w) with
     | Ret path => Ret (PStr path)
     | Raise e => Raise e
     end, snd (job_result c w)).
Proof.
  intros Hjob. destruct c; try discriminate Hjob;
    unfold run; unfold mbind at 1; unfold M_bind.
  - rewrite snpeff_run. by destruct (job_result _ _) as [[?|?] ?].
  - rewrite gemini_run. by destruct (job_result _ _) as [[?|?] ?].
  - rewrite vcfanno_run. by destruct (job_result _ _) as [[?|?] ?].
  - rewrite diagnosetargets_run. by destruct (job_result _ _) as [[?|?] ?].
  - rewrite annotate_vcf_run. by destruct (job_result _ _) as [[?|?] ?].
  - rewrite filter_variants_run. by destruct (job_result _ _) as [[?|?] ?].
  - rewrite add_or_replace_readgroups_run. by destruct (job_result _ _) as [[?|?] ?].
  - rewrite realign_target_creator_run. by destruct (job_result _ _) as [[?|?] ?].
  - rewrite realign_indels_run. by destruct (job_result _ _) as [[?|?] ?].
  - rewrite recalibrator_run. by destruct (job_result _ _) as [[?|?] ?].
  - rewrite platypus_single_run. by destruct (job_result _ _) as [[?|?] ?].
Qed.

Lemma run_job_provided c w :
  is_job c = true → provides (objs w) c →
  run c w = (Ret (PStr (returned c (objs w))),
             extend w (effects c (objs w) (cpu_count w))).
Proof.
  intros Hjob Hp. rewrite (run_job c w Hjob).
  unfold job_result. by rewrite Hp.
Qed.

Lemma run_job_failure c w e :
  is_job c = true → first_failure (objs w) (required c) = Some e →
  run c w = (Raise e, extend w (preamble c)).
Proof.
  intros Hjob Hf. rewrite (run_job c w Hjob).
  unfold job_result. by rewrite Hf.
Qed.

Lemma first_failure_KeyError h reads :
  (∀ o p, (o, p) ∈ reads → lookup_path h (PDict o) p ≠ Raise TypeError) →
  (∃ o p k, (o, p) ∈ reads ∧ lookup_path h (PDict o) p = Raise (KeyError k)) →
  ∃ k, first_failure h reads = Some (KeyError k).
Proof.
  induction reads as [|[o p] reads IH]; intros Hty (o' & q & k & Hq & Hk).
  - by apply elem_of_nil in Hq.
  - simpl. destruct (lookup_path h (PDict o) p) as [v|[k'|]] eqn:E.
    + apply IH.
      * intros o'' r Hr. apply Hty. by right.
      * apply elem_of_cons in Hq as [[= -> ->]|Hq]; [congruence|eauto 6].
    + eauto.
    + destruct (Hty o p); [by left|done].
Qed.

Lemma first_failure_app h reads reads' :
  first_failure h (reads ++ reads')
  = match first_failure h reads with
    | Some e => Some e
    | None => first_failure h reads'
    end.
Proof.
  induction reads as [|[o p] reads IH]; simpl; [done|].
  by destruct (lookup_path h (PDict o) p).
Qed.

(* ===================================================================== *)
(** ** Invocation and returned artifact *)
(* ===================================================================== *)

(** C1 does not hold of [platypus_single]: the call of
    [pipeline.run_and_log_command] is commented out in the source, so the
    stage hands its path back without any command having gone through the
    process-execution boundary. *)
Lemma platypus_single_does_not_invoke :
  let r := run (PlatypusSingle 0%nat "S1" "S1.bam") example_world in
  fst r = Ret (PStr "S1.platypus.vcf") ∧ executed (trace (snd r)) = [].
Proof. vm_compute. done. Qed.

(** X1: the ten stages whose source calls [pipeline.run_and_log_command]:
    called with a configuration that provides the keys it reads, such a
    stage returns its derived artifact name; it builds at least one
    command, and the commands it hands to [pipeline.run_and_log_command]
    are the ones it built, each joined by blanks and paired with its log
    file, in the order they were built. *)
Theorem job_stage_invokes_and_returns c w :
  invokes c = true → provides (objs w) c →
  ∃ evs,
    run c w = (Ret (PStr (returned c (objs w))), extend w evs)
    ∧ commands c (objs w) (cpu_count w) ≠ []
    ∧ executed evs
      = List.map (λ cmd, (Py.join cmd.1.2, cmd.2))
          (commands c (objs w) (cpu_count w)).
Proof.
  intros Hinv Hp. exists (effects c (objs w) (cpu_count w)).
  assert (Hjob : is_job c = true) by by destruct c.
  split; [by apply run_job_provided|].
  destruct c; try discriminate Hinv; done.
Qed.

Lemma job_stage_invokes_and_returns_witness :
  ∃ evs,
    run (Recalibrator 0%nat "S1" "S1.bam") example_world
    = (Ret (PStr "S1.recalibrated.sorted.bam"), extend example_world evs)
    ∧ List.length (executed evs) = 3%nat.
Proof.
  destruct (job_stage_invokes_and_returns
              (Recalibrator 0%nat "S1" "S1.bam") example_world
              eq_refl eq_refl) as (evs & Hrun & _ & Hexec).
  exists evs. split; [exact Hrun|]. by rewrite Hexec.
Defined.

(** C3: for sample ["S1"] and a configuration whose
    [config['snpeff']['reference']] is ["GRCh37"] (and which has the other
    two keys [snpeff] reads), [snpeff] returns ["S1.snpEff.GRCh37.vcf"] and
    runs its one command with the log file ["S1.snpeff.log"]. *)
Theorem snpeff_S1_GRCh37 config input_vcf w :
  lookup_path (objs w) (PDict config) ["snpeff"; "reference"] = Ret (PStr "GRCh37") →
  provides (objs w) (Snpeff config "S1" input_vcf) →
  ∃ evs command,
    snpeff config "S1" input_vcf w = (Ret "S1.snpEff.GRCh37.vcf", extend w evs)
    ∧ executed evs = [(command, "S1.snpeff.log")].
Proof.
  intros Href Hp.
  rewrite snpeff_run. unfold job_result. rewrite Hp.
  eexists _, _. split.
  - f_equal. f_equal. simpl. unfold path_str, path_val. by rewrite Href.
  - reflexivity.
Qed.

Lemma snpeff_S1_GRCh37_witness :
  ∃ evs command,
    snpeff 0%nat "S1" "S1.vcf" example_world
    = (Ret "S1.snpEff.GRCh37.vcf", extend example_world evs)
    ∧ executed evs = [(command, "S1.snpeff.log")].
Proof.
  exact (snpeff_S1_GRCh37 0%nat "S1.vcf" example_world eq_refl eq_refl).
Defined.

(** The same call, evaluated: the redirection and the output name are one
    token of the command. *)
Example snpeff_S1_GRCh37_trace :
  snpeff 0%nat "S1" "S1.vcf" example_world
  = (Ret "S1.snpEff.GRCh37.vcf",
     extend example_world
       [ LogToMaster
           ("snpEff Command: ('snpEff', '-Xmx4g', '-v', 'GRCh37', 'S1.vcf', "
            ++ "'>S1.snpEff.GRCh37.vcf')" ++ Py.nl);
         RunAndLog "snpEff -Xmx4g -v GRCh37 S1.vcf >S1.snpEff.GRCh37.vcf"
                   "S1.snpeff.log" ]).
Proof. vm_compute. reflexivity. Qed.

(** C2, as stated, fails: [recalibrator] hands three commands to
    [pipeline.run_and_log_command], the third being the [cp] of the index. *)
Lemma recalibrator_executes_three :
  List.map snd (executed (trace (snd (recalibrator 0%nat "S1" "S1.bam" example_world))))
  = ["S1.recalibrate.log"; "S1.printrecalibrated.log"; "S1.copy.log"].
Proof. vm_compute. reflexivity. Qed.

(** C2, amended: with a configuration that provides the keys it reads,
    [recalibrator] performs exactly three external invocations, in this
    order: BaseRecalibrator, PrintReads and the [cp] of the index. The
    file named after BaseRecalibrator's [-o] flag is [sample ++ ".recal"],
    and it is the argument after [-BQSR] of PrintReads. *)
Theorem recalibrator_invocations config sample input_bam w :
  provides (objs w) (Recalibrator config sample input_bam) →
  ∃ evs max_mem gatk reference dbsnp,
    let recal_config := sample ++ ".recal" in
    let output_bam := sample ++ ".recalibrated.sorted.bam" in
    let recal :=
      recal_commands max_mem gatk reference dbsnp (cpu_count w)
        input_bam recal_config in
    let print_reads :=
      print_reads_command max_mem gatk reference (cpu_count w)
        input_bam output_bam recal_config in
    recalibrator config sample input_bam w = (Ret output_bam, extend w evs)
    ∧ executed evs =
        [ (Py.join recal, sample ++ ".recalibrate.log");
          (Py.join print_reads, sample ++ ".printrecalibrated.log");
          (Py.join (cp_command sample), sample ++ ".copy.log") ]
    ∧ recal !! 5%nat = Some "BaseRecalibrator"
    ∧ recal !! 10%nat = Some "-o"
    ∧ recal !! 11%nat = Some recal_config
    ∧ print_reads !! 5%nat = Some "PrintReads"
    ∧ print_reads !! 12%nat = Some "-BQSR"
    ∧ print_reads !! 13%nat = Some recal_config.
Proof.
  intros Hp.
  rewrite recalibrator_run. unfold job_result. rewrite Hp.
  eexists _, _, _, _, _. cbv zeta.
  split; [reflexivity|]. split; [reflexivity|]. done.
Qed.

Lemma recalibrator_invocations_witness :
  ∃ evs,
    recalibrator 0%nat "S1" "S1.bam" example_world
    = (Ret "S1.recalibrated.sorted.bam", extend example_world evs)
    ∧ List.map snd (executed evs)
      = ["S1.recalibrate.log"; "S1.printrecalibrated.log"; "S1.copy.log"].
Proof.
  destruct (recalibrator_invocations 0%nat "S1" "S1.bam" example_world eq_refl)
    as (evs & m & g & r & d & Hrun & Hexec & _).
  exists evs. split; [exact Hrun|]. by rewrite Hexec.
Defined.

(* ===================================================================== *)
(** ** Dictionaries and the store *)
(* ===================================================================== *)

Lemma dict_get_set_eq d k v : Py.dict_get (Py.dict_set d k v) k = Some v.
Proof.
  induction d as [|[k0 v0] d IH]; simpl.
  - by rewrite String.eqb_refl.
  - destruct (String.eqb_spec k k0) as [->|Hk]; simpl.
    + by rewrite String.eqb_refl.
    + destruct (String.eqb_spec k k0); [done|apply IH].
Qed.

Lemma dict_get_set_ne d k v k' :
  k ≠ k' → Py.dict_get (Py.dict_set d k v) k' = Py.dict_get d k'.
Proof.
  intros Hne. induction d as [|[k0 v0] d IH]; simpl.
  - destruct (String.eqb_spec k' k); [congruence|done].
  - destruct (String.eqb_spec k k0) as [->|Hk]; simpl.
    + destruct (String.eqb_spec k' k0); [congruence|done].
    + destruct (String.eqb_spec k' k0); [done|apply IH].
Qed.

Lemma dict_set_same d k v : Py.dict_get d k = Some v → Py.dict_set d k v = d.
Proof.
  induction d as [|[k0 v0] d IH]; simpl; [done|].
  destruct (String.eqb_spec k k0) as [->|Hk].
  - by intros [= ->].
  - intros H. by rewrite IH.
Qed.

Lemma dict_set_set d k v v' :
  Py.dict_set (Py.dict_set d k v) k v' = Py.dict_set d k v'.
Proof.
  induction d as [|[k0 v0] d IH]; simpl.
  - by rewrite String.eqb_refl.
  - destruct (String.eqb_spec k k0) as [->|Hk]; simpl.
    + by rewrite String.eqb_refl.
    + destruct (String.eqb_spec k k0); [done|by rewrite IH].
Qed.

Lemma set_obj_lookup w (o : loc) d d0 :
  objs w !! o = Some d0 → objs (set_obj w o d) !! o = Some d.
Proof.
  intros H. simpl. apply list_lookup_insert_eq. by eapply lookup_lt_Some.
Qed.

Lemma set_obj_lookup_ne w (o o' : loc) d :
  o ≠ o' → objs (set_obj w o d) !! o' = objs w !! o'.
Proof. intros H. simpl. by apply list_lookup_insert_ne. Qed.

Lemma set_obj_set_obj w (o : loc) d d' :
  set_obj (set_obj w o d) o d' = set_obj w o d'.
Proof. unfold set_obj. simpl. by rewrite list_insert_insert_eq. Qed.

(** Replacing the content of a dictionary by one that has the same values
    under the keys of a path does not change what the path leads to,
    wherever the path starts. *)
Lemma lookup_path_insert h (o : loc) d d' v p :
  h !! o = Some d →
  (∀ k, k ∈ p → Py.dict_get d' k = Py.dict_get d k) →
  lookup_path (<[o := d']> h) v p = lookup_path h v p.
Proof.
  intros Ho. revert v. induction p as [|k p IH]; intros v Hk; [done|].
  cbn [lookup_path].
  assert (Hget : Py.getitem (<[o := d']> h) v k = Py.getitem h v k).
  { destruct v as [| | | | |o']; try done. unfold Py.getitem.
    destruct (decide (o = o')) as [<-|Hne].
    - rewrite list_lookup_insert_eq by by eapply lookup_lt_Some.
      rewrite Ho, Hk; [done|by left].
    - by rewrite list_lookup_insert_ne. }
  rewrite Hget. destruct (Py.getitem h v k); [|done].
  apply IH. intros k' Hk'. apply Hk. by right.
Qed.

Lemma lookup_path_set_obj w (o : loc) d d' v p :
  objs w !! o = Some d →
  (∀ k, k ∈ p → Py.dict_get d' k = Py.dict_get d k) →
  lookup_path (objs (set_obj w o d')) v p = lookup_path (objs w) v p.
Proof. apply lookup_path_insert. Qed.

(** A read of one key of a dictionary object. *)
Lemma lookup_path_single h (o : loc) k :
  lookup_path h (PDict o) [k]
  = match h !! o with
    | Some d =>
        match Py.dict_get d k with
        | Some v => Ret v
        | None => Raise (KeyError k)
        end
    | None => Raise TypeError
    end.
Proof.
  cbn [lookup_path]. unfold Py.getitem.
  destruct (h !! o) as [d|]; [|done]. by destruct (Py.dict_get d k).
Qed.

(* ===================================================================== *)
(** ** Formatting and the store *)
(* ===================================================================== *)

(** Induction on a value, with the elements of a list as premises. *)
Lemma pyval_ind_list (P : pyval → Prop) :
  P PNone → (∀ b, P (PBool b)) → (∀ z, P (PInt z)) → (∀ s, P (PStr s)) →
  (∀ l, Forall P l → P (PList l)) → (∀ o, P (PDict o)) → ∀ v, P v.
Proof.
  intros HN HB HI HS HL HD. fix IH 1.
  intros [| b | z | s | l | o];
    [exact HN | apply HB | apply HI | apply HS | | apply HD].
  apply HL. induction l as [|x l IHl]; constructor; [apply IH|exact IHl].
Qed.

Lemma elem_of_refs_list o l : o ∈ refs (PList l) ↔ ∃ x, x ∈ l ∧ o ∈ refs x.
Proof.
  cbn [refs]. rewrite list_elem_of_In, in_flat_map.
  split; intros (x & Hx & Ho); exists x;
    by rewrite ?list_elem_of_In in *.
Qed.

Lemma elem_of_dict_refs o d :
  o ∈ dict_refs d ↔ ∃ k v, (k, v) ∈ d ∧ o ∈ refs v.
Proof.
  unfold dict_refs. rewrite list_elem_of_In, in_flat_map. split.
  - intros ([k v] & Hx & Ho). exists k, v. by rewrite !list_elem_of_In.
  - intros (k & v & Hx & Ho). exists (k, v). by rewrite <- !list_elem_of_In.
Qed.

Lemma dict_get_elem_of d k v : Py.dict_get d k = Some v → (k, v) ∈ d.
Proof.
  induction d as [|[k0 v0] d IH]; simpl; [done|].
  destruct (String.eqb_spec k k0) as [->|Hk].
  - intros [= ->]. by left.
  - intros H. right. by apply IH.
Qed.

Lemma dict_get_refs d k v o :
  Py.dict_get d k = Some v → o ∈ refs v → o ∈ dict_refs d.
Proof.
  intros Hg Ho. apply elem_of_dict_refs. exists k, v.
  split; [by apply dict_get_elem_of|done].
Qed.

Lemma dict_set_refs d k v o :
  o ∈ dict_refs (Py.dict_set d k v) → o ∈ dict_refs d ∨ o ∈ refs v.
Proof.
  rewrite !elem_of_dict_refs.
  induction d as [|[k0 v0] d IH]; simpl.
  - intros (k' & v' & Hin & Ho). apply list_elem_of_singleton in Hin as [= -> ->].
    by right.
  - destruct (String.eqb_spec k k0) as [->|Hk].
    + intros (k' & v' & Hin & Ho). apply elem_of_cons in Hin as [[= -> ->]|Hin].
      * by right.
      * left. exists k', v'. split; [by right|done].
    + intros (k' & v' & Hin & Ho). apply elem_of_cons in Hin as [[= -> ->]|Hin].
      * left. exists k0, v0. split; [by left|done].
      * destruct IH as [(k'' & v'' & Hin' & Ho')|Hr]; [by exists k', v'| |by right].
        left. exists k'', v''. split; [by right|done].
Qed.

(** How a value prints depends on how the dictionaries it holds print. *)
Lemma repr_in_ext f g v :
  (∀ o, o ∈ refs v → f o = g o) → Py.repr_in f v = Py.repr_in g v.
Proof.
  induction v as [| b | z | s | l IH | o] using pyval_ind_list; intros H;
    try done.
  - cbn [Py.repr_in]. do 3 f_equal.
    induction IH as [|x l Hx Hl IHl]; [done|]. cbn [List.map]. f_equal.
    + apply Hx. intros o Ho. apply H, elem_of_refs_list. exists x.
      split; [by left|done].
    + apply IHl. intros o Ho. apply H. apply elem_of_refs_list in Ho as (y & Hy & Ho).
      apply elem_of_refs_list. exists y. split; [by right|done].
  - cbn [Py.repr_in]. apply H. by left.
Qed.

(** A value that holds no dictionary formats the same in every store. *)
Lemma str_plain h h' v : refs v = [] → Py.str h v = Py.str h' v.
Proof.
  intros Hv. unfold Py.str, Py.repr. destruct v; try done;
    apply repr_in_ext; intros o Ho; rewrite Hv in Ho; by apply elem_of_nil in Ho.
Qed.

Lemma filter_length_lt {A} (P Q : A → bool) (l : list A) x :
  (∀ y, Q y = true → P y = true) →
  In x l → P x = true → Q x = false →
  (length (List.filter Q l) < length (List.filter P l))%nat.
Proof.
  intros HQP. induction l as [|y l IH]; intros Hin HP HQ; [done|].
  assert (Hle : ∀ l', (length (List.filter Q l') ≤ length (List.filter P l'))%nat).
  { induction l' as [|z l' IHl']; [done|]. simpl.
    destruct (Q z) eqn:E; [rewrite (HQP z E); simpl; lia|].
    destruct (P z); simpl; lia. }
  simpl. destruct Hin as [->|Hin].
  - rewrite HP, HQ. simpl. specialize (Hle l). lia.
  - specialize (IH Hin HP HQ).
    destruct (Q y) eqn:E; [rewrite (HQP y E); simpl; lia|].
    destruct (P y); simpl; lia.
Qed.

Lemma unvisited_cons h stack (o : loc) d :
  h !! o = Some d → existsb (Nat.eqb o) stack = false →
  (length (unvisited h (o :: stack)) < length (unvisited h stack))%nat.
Proof.
  intros Ho Hs. unfold unvisited. apply filter_length_lt with o.
  - intros y. cbn [existsb]. rewrite negb_orb. intros H.
    by apply andb_prop in H as [_ H].
  - apply in_seq. apply lookup_lt_Some in Ho. lia.
  - by rewrite Hs.
  - cbn [existsb]. by rewrite Nat.eqb_refl.
Qed.

Lemma unvisited_nil h : length (unvisited h []) = length h.
Proof.
  unfold unvisited. cbn [existsb negb].
  assert (H : ∀ l : list loc, List.filter (λ _, true) l = l).
  { induction l as [|x l IH]; [done|]. simpl. by rewrite IH. }
  by rewrite H, length_seq.
Qed.

Lemma repr_obj_S h n stack o :
  Py.repr_obj h (S n) stack o
  = if existsb (Nat.eqb o) stack then "{...}"
    else
      match h !! o with
      | Some d =>
          "{" ++ String.concat ", "
                   (List.map (fun kv : string * pyval =>
                                Py.repr_str kv.1 ++ ": "
                                ++ Py.repr_in (Py.repr_obj h n (o :: stack)) kv.2) d)
              ++ "}"
      | None => "{...}"
      end.
Proof. reflexivity. Qed.

Lemma repr_obj_0 h stack o : Py.repr_obj h 0 stack o = "{...}".
Proof. simpl. by destruct (existsb _ _). Qed.

Lemma map_ext_elem_of {A B} (f g : A → B) (l : list A) :
  (∀ x, x ∈ l → f x = g x) → List.map f l = List.map g l.
Proof.
  intros H. apply map_ext_in. intros x Hx. apply H. by apply list_elem_of_In.
Qed.

(** Fuel that covers the dictionaries not yet on the stack is never used
    up: one more unit changes nothing. *)
Lemma repr_obj_fuel h n : ∀ stack o,
  (length (unvisited h stack) ≤ n)%nat →
  Py.repr_obj h n stack o = Py.repr_obj h (S n) stack o.
Proof.
  induction n as [|n IH]; intros stack o Hn.
  - rewrite repr_obj_0, repr_obj_S.
    destruct (existsb (Nat.eqb o) stack) eqn:Hs; [done|].
    destruct (h !! o) as [d|] eqn:Ho; [|done].
    pose proof (unvisited_cons h stack o d Ho Hs). lia.
  - rewrite (repr_obj_S h (S n)), (repr_obj_S h n).
    destruct (existsb (Nat.eqb o) stack) eqn:Hs; [done|].
    destruct (h !! o) as [d|] eqn:Ho; [|done].
    pose proof (unvisited_cons h stack o d Ho Hs) as Hlt.
    do 3 f_equal. apply map_ext_elem_of. intros [k v] _. cbn [fst snd].
    do 2 f_equal. apply repr_in_ext. intros o' _. apply IH. lia.
Qed.

Lemma repr_obj_fuel_le h n m stack o :
  (length (unvisited h stack) ≤ n)%nat → (n ≤ m)%nat →
  Py.repr_obj h n stack o = Py.repr_obj h m stack o.
Proof.
  intros Hn Hm. induction Hm as [|m Hm IH]; [done|].
  rewrite IH. apply repr_obj_fuel. lia.
Qed.

(** [repr] with any fuel that is at least the size of the store. *)
Lemma repr_fuel h n v :
  (length h ≤ n)%nat → Py.repr h v = Py.repr_in (Py.repr_obj h n []) v.
Proof.
  intros Hn. unfold Py.repr. apply repr_in_ext. intros o _.
  apply repr_obj_fuel_le; [by rewrite unvisited_nil|done].
Qed.

Lemma objects_at_agree L h1 h2 :
  objects_at L h1 = objects_at L h2 ↔ agree L h1 h2.
Proof.
  unfold objects_at, agree. induction L as [|o L IH]; simpl.
  - split; [|done]. intros _ o Ho. by apply elem_of_nil in Ho.
  - split.
    + intros [= Ho HL] o' Ho'. apply elem_of_cons in Ho' as [->|Ho']; [done|].
      by apply IH.
    + intros H. f_equal; [apply H; by left|]. apply IH. intros o' Ho'.
      apply H. by right.
Qed.

Lemma closed_spec h L :
  closed h L = true ↔
  ∀ o d o', o ∈ L → h !! o = Some d → o' ∈ dict_refs d → o' ∈ L.
Proof.
  unfold closed. rewrite forallb_forall. split.
  - intros H o d o' Ho Hd Ho'. apply list_elem_of_In in Ho.
    specialize (H o Ho). rewrite Hd in H. rewrite forallb_forall in H.
    apply list_elem_of_In in Ho'. specialize (H o' Ho').
    apply existsb_exists in H as (x & Hx & Heq).
    apply Nat.eqb_eq in Heq as ->. by apply list_elem_of_In.
  - intros H o Ho. destruct (h !! o) as [d|] eqn:Hd; [|done].
    apply forallb_forall. intros o' Ho'. apply existsb_exists. exists o'.
    split; [|apply Nat.eqb_refl].
    apply list_elem_of_In. apply (H o d o'); [|done|]; by apply list_elem_of_In.
Qed.

Section Agree.
Context (L : list loc) (h1 h2 : store).
Hypothesis Hclosed : closed h1 L = true.
Hypothesis Hagree : agree L h1 h2.

Lemma getitem_agree v k :
  (∀ o, o ∈ refs v → o ∈ L) →
  Py.getitem h1 v k = Py.getitem h2 v k
  ∧ ∀ x, Py.getitem h1 v k = Ret x → ∀ o, o ∈ refs x → o ∈ L.
Proof.
  intros Hv. destruct v as [| | | | |o]; try done. unfold Py.getitem.
  assert (Ho : o ∈ L) by (apply Hv; by left).
  rewrite <- (Hagree o Ho). destruct (h1 !! o) as [d|] eqn:Hd; [|done].
  destruct (Py.dict_get d k) as [x|] eqn:Hk; [|done].
  split; [done|]. intros x' [= <-] o' Ho'.
  apply (proj1 (closed_spec h1 L) Hclosed o d o' Ho Hd).
  by apply (dict_get_refs d k x).
Qed.

Lemma lookup_path_agree p : ∀ v,
  (∀ o, o ∈ refs v → o ∈ L) →
  lookup_path h1 v p = lookup_path h2 v p
  ∧ ∀ x, lookup_path h1 v p = Ret x → ∀ o, o ∈ refs x → o ∈ L.
Proof.
  induction p as [|k p IH]; intros v Hv.
  - split; [done|]. by intros x [= <-].
  - cbn [lookup_path]. destruct (getitem_agree v k Hv) as [Heq Hx].
    rewrite <- Heq. destruct (Py.getitem h1 v k) as [x|]; [|done].
    apply IH. by apply Hx.
Qed.

Lemma repr_obj_agree n : ∀ stack o,
  o ∈ L → Py.repr_obj h1 n stack o = Py.repr_obj h2 n stack o.
Proof.
  induction n as [|n IH]; intros stack o Ho.
  - by rewrite !repr_obj_0.
  - rewrite !repr_obj_S. rewrite <- (Hagree o Ho).
    destruct (existsb (Nat.eqb o) stack); [done|].
    destruct (h1 !! o) as [d|] eqn:Hd; [|done].
    do 3 f_equal. apply map_ext_elem_of. intros [k v] Hkv. cbn [fst snd].
    do 2 f_equal. apply repr_in_ext. intros o' Ho'. apply IH.
    apply (proj1 (closed_spec h1 L) Hclosed o d o' Ho Hd).
    apply elem_of_dict_refs. by exists k, v.
Qed.

(** A value whose dictionaries are in [L] prints and formats the same in
    both stores, whatever else they hold. *)
Lemma repr_agree v :
  (∀ o, o ∈ refs v → o ∈ L) → Py.repr h1 v = Py.repr h2 v.
Proof.
  intros Hv.
  rewrite (repr_fuel h1 (length h1 `max` length h2)) by lia.
  rewrite (repr_fuel h2 (length h1 `max` length h2)) by lia.
  apply repr_in_ext. intros o Ho. apply repr_obj_agree. by apply Hv.
Qed.

Lemma str_agree v :
  (∀ o, o ∈ refs v → o ∈ L) → Py.str h1 v = Py.str h2 v.
Proof. intros Hv. pose proof (repr_agree v Hv). by destruct v. Qed.

Lemma path_val_agree o p :
  o ∈ L →
  path_val h1 o p = path_val h2 o p
  ∧ ∀ o', o' ∈ refs (path_val h1 o p) → o' ∈ L.
Proof.
  intros Ho. unfold path_val.
  destruct (lookup_path_agree p (PDict o)) as [Heq Hx].
  { intros o' Ho'. apply list_elem_of_singleton in Ho'. by subst. }
  rewrite <- Heq. destruct (lookup_path h1 (PDict o) p) as [x|] eqn:E.
  - split; [done|]. by apply Hx.
  - split; [done|]. intros o' Ho'. by apply elem_of_nil in Ho'.
Qed.

Lemma path_str_agree o p : o ∈ L → path_str h1 o p = path_str h2 o p.
Proof.
  intros Ho. unfold path_str. destruct (path_val_agree o p Ho) as [Heq Hx].
  rewrite <- Heq. by apply str_agree.
Qed.

Lemma first_failure_agree reads :
  (∀ o p, (o, p) ∈ reads → o ∈ L) →
  first_failure h1 reads = first_failure h2 reads.
Proof.
  induction reads as [|[o p] reads IH]; intros Hin; [done|].
  cbn [first_failure].
  destruct (lookup_path_agree p (PDict o)) as [Heq _].
  { intros o' Ho'. apply list_elem_of_singleton in Ho' as ->. apply (Hin o p). by left. }
  rewrite <- Heq. destruct (lookup_path h1 (PDict o) p); [|done].
  apply IH. intros o' p' H. apply (Hin o' p'). by right.
Qed.

End Agree.

(* ===================================================================== *)
(** ** One iteration of run_mark_duplicates *)
(* ===================================================================== *)

Lemma bind_obj_setitem {A} (o : loc) k v (K : unit → M A) w d :
  objs w !! o = Some d →
  (obj_setitem o k v ≫= K) w = K tt (set_obj w o (Py.dict_set d k v)).
Proof. intros H. unfold mbind, M_bind, obj_setitem. by rewrite H. Qed.

Lemma bind_try_sorted_bam {A} (sample : loc) (K : unit → M A) w d :
  objs w !! sample = Some d →
  (try_except_KeyError
     (bam ← obj_getitem sample "bam"; obj_setitem sample "sorted_bam" bam)
     (mret tt) ≫= K) w
  = K tt (with_sorted_bam w sample d).
Proof.
  intros H. unfold mbind at 1. unfold M_bind, try_except_KeyError, with_sorted_bam.
  rewrite bind_obj_getitem, lookup_path_single, H.
  destruct (Py.dict_get d "bam") as [bam|]; [|done].
  unfold obj_setitem. by rewrite H.
Qed.

Lemma half_marked_other d name k :
  k ≠ "sorted_bam" → k ≠ "dedup_bam" →
  Py.dict_get (half_marked d name) k = Py.dict_get d k.
Proof.
  intros H1 H2. unfold half_marked. rewrite dict_get_set_ne by done.
  destruct (Py.dict_get d "bam"); [by rewrite dict_get_set_ne|done].
Qed.

Lemma half_marked_dedup_bam d name :
  Py.dict_get (half_marked d name) "dedup_bam" = Some (dedup_name name).
Proof. unfold half_marked. apply dict_get_set_eq. Qed.

Lemma marked_other d name k :
  k ≠ "sorted_bam" → k ≠ "dedup_bam" → k ≠ "working_bam" →
  Py.dict_get (marked d name) k = Py.dict_get d k.
Proof.
  intros H1 H2 H3. unfold marked. rewrite dict_get_set_ne by done.
  by apply half_marked_other.
Qed.

Lemma marked_working_bam d name :
  Py.dict_get (marked d name) "working_bam" = Some (dedup_name name).
Proof. unfold marked. apply dict_get_set_eq. Qed.

Lemma marked_dedup_bam d name :
  Py.dict_get (marked d name) "dedup_bam" = Some (dedup_name name).
Proof.
  unfold marked. rewrite dict_get_set_ne by done. apply half_marked_dedup_bam.
Qed.

Lemma marked_sorted_bam d name :
  Py.dict_get (marked d name) "sorted_bam"
  = match Py.dict_get d "bam" with
    | Some bam => Some bam
    | None => Py.dict_get d "sorted_bam"
    end.
Proof.
  unfold marked, half_marked. rewrite !dict_get_set_ne by done.
  destruct (Py.dict_get d "bam"); [apply dict_get_set_eq|done].
Qed.

(** What the loop writes into a record leaves the paths it reads alone. *)
Lemma elem_of_path2 (k k1 k2 : string) : k ∈ [k1; k2] → k = k1 ∨ k = k2.
Proof.
  intros H. apply elem_of_cons in H as [->|H]; [by left|].
  apply list_elem_of_singleton in H. by right.
Qed.

Lemma lookup_tool_half_marked w (sample : loc) d name v k1 k2 :
  objs w !! sample = Some d →
  k1 ≠ "sorted_bam" → k1 ≠ "dedup_bam" → k2 ≠ "sorted_bam" → k2 ≠ "dedup_bam" →
  lookup_path (objs (set_obj w sample (half_marked d name))) v [k1; k2]
  = lookup_path (objs w) v [k1; k2].
Proof.
  intros Hd H1 H2 H3 H4. apply lookup_path_set_obj with d; [done|].
  intros k Hk. apply elem_of_path2 in Hk as [->| ->]; by apply half_marked_other.
Qed.

Lemma lookup_tool_marked w (sample : loc) d name v k1 k2 :
  objs w !! sample = Some d →
  k1 ≠ "sorted_bam" → k1 ≠ "dedup_bam" → k1 ≠ "working_bam" →
  k2 ≠ "sorted_bam" → k2 ≠ "dedup_bam" → k2 ≠ "working_bam" →
  lookup_path (objs (set_obj w sample (marked d name))) v [k1; k2]
  = lookup_path (objs w) v [k1; k2].
Proof.
  intros Hd H1 H2 H3 H4 H5 H6. apply lookup_path_set_obj with d; [done|].
  intros k Hk. apply elem_of_path2 in Hk as [->| ->]; by apply marked_other.
Qed.

(** One iteration of the loop is [body_result]. *)
Lemma run_mark_duplicates_body_run tool_config sample instructions w :
  run_mark_duplicates_body tool_config sample instructions w
  = body_result tool_config sample instructions w.
Proof.
  unfold run_mark_duplicates_body, body_result.
  rewrite bind_format_obj_getitem, lookup_path_single.
  destruct (objs w !! sample) as [d|] eqn:Hd; [|done].
  destruct (Py.dict_get d "name") as [name|] eqn:Hn; [|done].
  cbv zeta. rewrite (bind_try_sorted_bam _ _ _ _ Hd).
  set (w1 := with_sorted_bam w sample d).
  set (d1 := match Py.dict_get d "bam" with
             | Some bam => Py.dict_set d "sorted_bam" bam | None => d end).
  assert (Hd1 : objs w1 !! sample = Some d1).
  { subst w1 d1. unfold with_sorted_bam. destruct (Py.dict_get d "bam"); [|done].
    by apply (set_obj_lookup w sample _ d). }
  assert (Hw1 : ∀ d', set_obj w1 sample d' = set_obj w sample d').
  { intros d'. subst w1. unfold with_sorted_bam.
    destruct (Py.dict_get d "bam"); [|done]. apply set_obj_set_obj. }
  assert (Hn1 : Py.dict_get d1 "name" = Some name).
  { subst d1. destruct (Py.dict_get d "bam"); [by rewrite dict_get_set_ne|done]. }
  rewrite bind_format_obj_getitem, lookup_path_single, Hd1, Hn1.
  set (text := Py.str (objs w1) name).
  rewrite (bind_obj_setitem _ _ _ _ _ _ Hd1), Hw1.
  change (Py.dict_set d1 "dedup_bam" (PStr (text ++ ".dedup.sorted.bam")))
    with (half_marked d text).
  set (w2 := set_obj w sample (half_marked d text)).
  assert (Hd2 : objs w2 !! sample = Some (half_marked d text))
    by by apply (set_obj_lookup w sample _ d).
  rewrite bind_format_obj_getitem, lookup_path_single, Hd2.
  rewrite half_marked_other, Hn by done.
  rewrite bind_obj_getitem2.
  subst w2. rewrite (lookup_tool_half_marked w sample d text) by done.
  cbn [first_failure]. unfold path_val.
  destruct (lookup_path (objs w) (PDict tool_config) ["gatk"; "max_mem"])
    as [max_mem|] eqn:E1; [|done].
  rewrite bind_obj_getitem2.
  rewrite (lookup_tool_half_marked w sample d text) by done.
  destruct (lookup_path (objs w) (PDict tool_config) ["picard"; "bin"])
    as [bin|] eqn:E2; [|done].
  rewrite bind_obj_getitem.
  rewrite (lookup_path_set_obj w sample d) by
    (done || (intros k Hk; apply list_elem_of_singleton in Hk as ->;
              by apply half_marked_other)).
  destruct (lookup_path (objs w) (PDict sample) ["working_bam"])
    as [working_bam|] eqn:E3; [|done].
  set (w2 := set_obj w sample (half_marked d text)) in *.
  rewrite bind_obj_getitem, lookup_path_single, Hd2, half_marked_dedup_bam.
  rewrite !bind_format.
  rewrite bind_obj_getitem, lookup_path_single, Hd2, half_marked_dedup_bam.
  rewrite (bind_obj_setitem _ _ _ _ _ _ Hd2).
  subst w2. rewrite set_obj_set_obj. reflexivity.
Qed.

Lemma same_outside_refl keys h : same_outside keys h h.
Proof. split; [done|]. intros o d Hd. by exists d. Qed.

Lemma same_outside_trans keys h1 h2 h3 :
  same_outside keys h1 h2 → same_outside keys h2 h3 → same_outside keys h1 h3.
Proof.
  intros [Hl1 H1] [Hl2 H2]. split; [congruence|].
  intros o d Hd. destruct (H1 o d Hd) as (d' & Hd' & Hk').
  destruct (H2 o d' Hd') as (d'' & Hd'' & Hk'').
  exists d''. split; [done|]. intros k Hk. by rewrite Hk'', Hk'.
Qed.

Lemma same_outside_insert keys h (o : loc) d d' :
  h !! o = Some d →
  (∀ k, k ∉ keys → Py.dict_get d' k = Py.dict_get d k) →
  same_outside keys h (<[o := d']> h).
Proof.
  intros Ho Hk. split; [by rewrite length_insert|].
  intros o' d0 Hd0. destruct (decide (o = o')) as [<-|Hne].
  - exists d'. rewrite list_lookup_insert_eq by by eapply lookup_lt_Some.
    split; [done|]. by replace d0 with d by congruence.
  - exists d0. by rewrite list_lookup_insert_ne.
Qed.

Lemma same_outside_lookup_None keys h h' (o : loc) :
  same_outside keys h h' → h !! o = None → h' !! o = None.
Proof.
  intros [Hl _] H. apply lookup_ge_None. apply lookup_ge_None in H. lia.
Qed.

(** A path whose keys are not in [keys] leads to the same value. *)
Lemma lookup_path_same_outside keys h h' p : ∀ v,
  same_outside keys h h' → (∀ k, k ∈ p → k ∉ keys) →
  lookup_path h' v p = lookup_path h v p.
Proof.
  induction p as [|k p IH]; intros v Hs Hk; [done|].
  cbn [lookup_path].
  assert (Hget : Py.getitem h' v k = Py.getitem h v k).
  { destruct v as [| | | | |o]; try done. unfold Py.getitem.
    destruct (h !! o) as [d|] eqn:Hd.
    - destruct (proj2 Hs o d Hd) as (d' & -> & Hd').
      rewrite Hd'; [done|]. apply Hk. by left.
    - by rewrite (same_outside_lookup_None keys h h' o Hs Hd). }
  rewrite Hget. destruct (Py.getitem h v k); [|done].
  apply IH; [done|]. intros k' Hk'. apply Hk. by right.
Qed.

Lemma not_written_key (k : string) :
  k ≠ "sorted_bam" → k ≠ "dedup_bam" → k ≠ "working_bam" → k ∉ written_keys.
Proof.
  intros H1 H2 H3 Hin. unfold written_keys in Hin.
  repeat (apply elem_of_cons in Hin as [->|Hin]; [done|]).
  by apply elem_of_nil in Hin.
Qed.

Lemma written_key_ne (k : string) :
  k ∉ written_keys → k ≠ "sorted_bam" ∧ k ≠ "dedup_bam" ∧ k ≠ "working_bam".
Proof.
  intros Hk. unfold written_keys in Hk.
  repeat split; intros ->; apply Hk; repeat first [by left|right].
Qed.

Lemma half_marked_same_outside w (sample : loc) d name :
  objs w !! sample = Some d →
  same_outside written_keys (objs w) (objs (set_obj w sample (half_marked d name))).
Proof.
  intros Hd. apply same_outside_insert with d; [done|].
  intros k Hk. apply written_key_ne in Hk as (? & ? & ?).
  by apply half_marked_other.
Qed.

Lemma marked_same_outside w (sample : loc) d name :
  objs w !! sample = Some d →
  same_outside written_keys (objs w) (objs (set_obj w sample (marked d name))).
Proof.
  intros Hd. apply same_outside_insert with d; [done|].
  intros k Hk. apply written_key_ne in Hk as (? & ? & ?).
  by apply marked_other.
Qed.

(** Whatever an iteration does, it leaves the trace and the CPU count
    alone, writes to the sample record only, and there only under the
    three keys it assigns. *)
Lemma body_result_frame tool_config (sample : loc) instructions w :
  let w' := snd (body_result tool_config sample instructions w) in
  trace w' = trace w
  ∧ cpu_count w' = cpu_count w
  ∧ same_outside written_keys (objs w) (objs w')
  ∧ ∀ o : loc, o ≠ sample → objs w' !! o = objs w !! o.
Proof.
  unfold body_result.
  destruct (objs w !! sample) as [d|] eqn:Hd;
    [|by (repeat split; try apply same_outside_refl)].
  destruct (Py.dict_get d "name") as [name|];
    [|by (repeat split; try apply same_outside_refl)].
  cbv zeta.
  destruct (first_failure _ _); cbn [snd].
  - repeat split; [by apply half_marked_same_outside..|].
    intros o Ho. by apply set_obj_lookup_ne.
  - repeat split; [by apply marked_same_outside..|].
    intros o Ho. by apply set_obj_lookup_ne.
Qed.

Lemma run_mark_duplicates_loop_cons tool_config sample rest instructions w :
  run_mark_duplicates_loop tool_config (sample :: rest) instructions w
  = match body_result tool_config sample instructions w with
    | (Ret instructions', w1) =>
        run_mark_duplicates_loop tool_config rest instructions' w1
    | (Raise e, w1) => (Raise e, w1)
    end.
Proof.
  cbn [run_mark_duplicates_loop]. unfold mbind, M_bind.
  by rewrite run_mark_duplicates_body_run.
Qed.

(** The loop over a list in two parts. *)
Lemma run_mark_duplicates_loop_app tool_config before rest : ∀ instructions w,
  run_mark_duplicates_loop tool_config (before ++ rest) instructions w
  = match run_mark_duplicates_loop tool_config before instructions w with
    | (Ret instructions', w1) =>
        run_mark_duplicates_loop tool_config rest instructions' w1
    | (Raise e, w1) => (Raise e, w1)
    end.
Proof.
  induction before as [|s before IH]; intros instructions w; [done|].
  rewrite <- app_comm_cons, !run_mark_duplicates_loop_cons.
  destruct (body_result tool_config s instructions w) as [[ins'|e] w1]; [|done].
  apply IH.
Qed.

(** The loop leaves the trace and the CPU count alone, writes to the
    sample records only, and there only under the three keys. *)
Lemma run_mark_duplicates_loop_frame tool_config sample_config :
  ∀ instructions w,
  let w' := snd (run_mark_duplicates_loop tool_config sample_config instructions w) in
  trace w' = trace w
  ∧ cpu_count w' = cpu_count w
  ∧ same_outside written_keys (objs w) (objs w')
  ∧ ∀ o : loc, o ∉ sample_config → objs w' !! o = objs w !! o.
Proof.
  induction sample_config as [|s rest IH]; intros instructions w.
  - by (repeat split; try apply same_outside_refl).
  - cbv zeta. rewrite run_mark_duplicates_loop_cons.
    destruct (body_result_frame tool_config s instructions w)
      as (Ht & Hc & Hs & Hf).
    destruct (body_result tool_config s instructions w) as [[ins'|e] w1];
      cbn [snd] in *.
    + destruct (IH ins' w1) as (Ht' & Hc' & Hs' & Hf').
      split; [congruence|]. split; [congruence|].
      split; [by eapply same_outside_trans|].
      intros o Ho. apply not_elem_of_cons in Ho as [Hne Ho].
      by rewrite Hf', Hf.
    + split; [done|]. split; [done|]. split; [done|].
      intros o Ho. apply not_elem_of_cons in Ho as [Hne Ho]. by apply Hf.
Qed.

(** [run_mark_duplicates] as a call: the line on the standard output, the
    loop, and [None] for the caller. *)
Lemma run_RunMarkDuplicates project_config sample_config tool_config
    resource_config w :
  run (RunMarkDuplicates project_config sample_config tool_config resource_config) w
  = match run_mark_duplicates_loop tool_config sample_config []
            (extend w [StdoutWrite ("Running MarkDuplicates" ++ Py.nl)]) with
    | (Ret _, w') => (Ret PNone, w')
    | (Raise e, w') => (Raise e, w')
    end.
Proof.
  unfold run, run_mark_duplicates, sys_stdout_write, mbind, M_bind, emit, extend.
  simpl. by destruct (run_mark_duplicates_loop _ _ _ _) as [[?|?] ?].
Qed.

(** An iteration whose reads are provided. *)
Lemma body_result_provided tool_config (sample : loc) instructions w :
  first_failure (objs w) (sample_reads tool_config sample) = None →
  ∃ d name working_bam max_mem bin instruction,
    objs w !! sample = Some d
    ∧ Py.dict_get d "name" = Some name
    ∧ Py.dict_get d "working_bam" = Some working_bam
    ∧ lookup_path (objs w) (PDict tool_config) ["gatk"; "max_mem"] = Ret max_mem
    ∧ lookup_path (objs w) (PDict tool_config) ["picard"; "bin"] = Ret bin
    ∧ body_result tool_config sample instructions w
      = (Ret (instructions ++ [instruction])%list,
         set_obj w sample
           (marked d (Py.str (objs (with_sorted_bam w sample d)) name)))
    ∧ (refs name = [] → refs working_bam = [] → refs max_mem = [] → refs bin = [] →
       instruction
       = instruction_for (Py.str (objs w) max_mem) (Py.str (objs w) bin)
           (Py.str (objs w) working_bam) (Py.str (objs w) name)).
Proof.
  unfold sample_reads, body_result. cbn [first_failure].
  rewrite !lookup_path_single.
  destruct (objs w !! sample) as [d|] eqn:Hd; [|done].
  destruct (Py.dict_get d "name") as [name|] eqn:Hn; [|done].
  unfold path_val. rewrite !lookup_path_single, Hd.
  destruct (lookup_path (objs w) (PDict tool_config) ["gatk"; "max_mem"])
    as [max_mem|] eqn:E1; [|done].
  destruct (lookup_path (objs w) (PDict tool_config) ["picard"; "bin"])
    as [bin|] eqn:E2; [|done].
  destruct (Py.dict_get d "working_bam") as [working_bam|] eqn:E3; [|done].
  intros _. eexists d, name, working_bam, max_mem, bin, _.
  do 5 (split; [done|]). split; [reflexivity|].
  intros Hpn Hpw Hpm Hpb. unfold instruction_for.
  rewrite !(str_plain (objs (set_obj _ _ _)) (objs w)) by done.
  by rewrite (str_plain (objs (with_sorted_bam _ _ _)) (objs w)).
Qed.

(** An iteration with a read that fails raises the exception of the first
    one that does. *)
Lemma body_result_failure tool_config (sample : loc) instructions w e :
  first_failure (objs w) (sample_reads tool_config sample) = Some e →
  ∃ w', body_result tool_config sample instructions w = (Raise e, w').
Proof.
  unfold sample_reads, body_result. cbn [first_failure].
  rewrite !lookup_path_single.
  destruct (objs w !! sample) as [d|] eqn:Hd; [|intros [= <-]; eauto].
  destruct (Py.dict_get d "name") as [name|] eqn:Hn; [|intros [= <-]; eauto].
  cbv zeta.
  destruct (lookup_path (objs w) (PDict tool_config) ["gatk"; "max_mem"])
    as [max_mem|] eqn:E1; [|intros [= <-]; eauto].
  destruct (lookup_path (objs w) (PDict tool_config) ["picard"; "bin"])
    as [bin|] eqn:E2; [|intros [= <-]; eauto].
  destruct (Py.dict_get d "working_bam") as [working_bam|] eqn:E3;
    [done|intros [= <-]; eauto].
Qed.

(** The reads of the samples still to come succeed or fail after an
    iteration as they did before it. *)
Lemma first_failure_marked tool_config rest w (sample : loc) d name working_bam :
  objs w !! sample = Some d →
  Py.dict_get d "working_bam" = Some working_bam →
  first_failure (objs (set_obj w sample (marked d name)))
    (List.flat_map (sample_reads tool_config) rest)
  = first_failure (objs w) (List.flat_map (sample_reads tool_config) rest).
Proof.
  intros Hd Hwb. induction rest as [|s rest IH]; [done|].
  cbn [List.flat_map]. rewrite !first_failure_app, IH. f_equal.
  unfold sample_reads. cbn [first_failure].
  rewrite !(lookup_tool_marked w sample d name) by done.
  rewrite (lookup_path_set_obj w sample d (marked d name) (PDict s) ["name"])
    by (done || (intros k Hk; apply list_elem_of_singleton in Hk as ->;
                 by apply marked_other)).
  destruct (lookup_path (objs w) (PDict s) ["name"]); [|done].
  destruct (lookup_path (objs w) (PDict tool_config) ["gatk"; "max_mem"]); [|done].
  destruct (lookup_path (objs w) (PDict tool_config) ["picard"; "bin"]); [|done].
  rewrite !lookup_path_single.
  destruct (decide (sample = s)) as [<-|Hne].
  - rewrite (set_obj_lookup w sample _ d Hd), Hd, marked_working_bam. by rewrite Hwb.
  - by rewrite set_obj_lookup_ne.
Qed.

(* ===================================================================== *)
(** ** The loop of run_mark_duplicates, sample by sample *)
(* ===================================================================== *)

Lemma dict_set_comm d k v k' v' :
  k ≠ k' → is_Some (Py.dict_get d k) →
  Py.dict_set (Py.dict_set d k' v') k v = Py.dict_set (Py.dict_set d k v) k' v'.
Proof.
  intros Hne. induction d as [|[k0 v0] d IH]; simpl; [by intros [? ?]|].
  destruct (String.eqb_spec k k0) as [->|Hk].
  - intros _. destruct (String.eqb_spec k' k0) as [->|Hk']; [done|].
    simpl. rewrite String.eqb_refl.
    by destruct (String.eqb_spec k' k0).
  - intros Hs. destruct (String.eqb_spec k' k0) as [->|Hk']; simpl.
    + destruct (String.eqb_spec k k0); [done|]. by rewrite String.eqb_refl.
    + destruct (String.eqb_spec k k0); [done|].
      destruct (String.eqb_spec k' k0); [done|]. by rewrite IH.
Qed.

(** A second iteration on a record overrides the first. *)
Lemma marked_marked d name name' : marked (marked d name) name' = marked d name'.
Proof.
  unfold marked at 1. unfold half_marked at 1.
  rewrite (marked_other d name "bam") by done.
  assert (H1 : match Py.dict_get d "bam" with
               | Some bam => Py.dict_set (marked d name) "sorted_bam" bam
               | None => marked d name
               end = marked d name).
  { destruct (Py.dict_get d "bam") as [bam|] eqn:E; [|done].
    apply dict_set_same. by rewrite marked_sorted_bam, E. }
  rewrite H1. unfold marked, half_marked.
  set (d1 := match Py.dict_get d "bam" with
             | Some bam => Py.dict_set d "sorted_bam" bam | None => d end).
  rewrite (dict_set_comm (Py.dict_set d1 "dedup_bam" (dedup_name name))
             "dedup_bam" (dedup_name name') "working_bam" (dedup_name name))
    by (done || (rewrite dict_get_set_eq; by eexists)).
  by rewrite !dict_set_set.
Qed.

Lemma marked_name d name text :
  Py.dict_get d "name" = Some name →
  Py.dict_get (marked d text) "name" = Some name.
Proof. intros H. by rewrite marked_other. Qed.

Lemma with_sorted_bam_lookup_ne w (sample o : loc) d :
  sample ≠ o → objs (with_sorted_bam w sample d) !! o = objs w !! o.
Proof.
  intros Hne. unfold with_sorted_bam.
  destruct (Py.dict_get d "bam"); [by apply set_obj_lookup_ne|done].
Qed.

(** A name formatted in a store that differs from [h] on the sample
    records only formats as in [h], when it holds no dictionary, or when
    the dictionaries it reaches (a closed set [L] that has those it
    holds) are no sample records. *)
Lemma str_outside_samples (samples : list loc) h h' name :
  (∀ o, o ∉ samples → h' !! o = h !! o) →
  (refs name = [] → Py.str h' name = Py.str h name)
  ∧ ∀ L, closed h L = true → (∀ o, o ∈ refs name → o ∈ L) →
         (∀ o, o ∈ L → o ∉ samples) →
         Py.str h' name = Py.str h name.
Proof.
  intros Hout. split; [intros Hpl; by apply str_plain|].
  intros L Hc Hn HL. symmetry. apply (str_agree L h h' Hc); [|done].
  intros o Ho. symmetry. by apply Hout, HL.
Qed.

(** The loop on samples whose reads are provided: it returns one
    instruction per sample, and each record ends up [marked], with its
    name as it formats in a store that differs from the one of the call
    on the sample records only. *)
Lemma run_mark_duplicates_loop_provided tool_config sample_config :
  ∀ instructions w,
  first_failure (objs w) (List.flat_map (sample_reads tool_config) sample_config)
  = None →
  ∃ new w',
    run_mark_duplicates_loop tool_config sample_config instructions w
    = (Ret (instructions ++ new)%list, w')
    ∧ length new = length sample_config
    ∧ ∀ s d name, s ∈ sample_config →
        objs w !! s = Some d → Py.dict_get d "name" = Some name →
        ∃ h, objs w' !! s = Some (marked d (Py.str h name))
             ∧ ∀ o, o ∉ sample_config → h !! o = objs w !! o.
Proof.
  induction sample_config as [|s0 rest IH]; intros instructions w Hp.
  - exists [], w. cbn [run_mark_duplicates_loop]. rewrite app_nil_r.
    split; [done|]. split; [done|]. intros s d name Hs. by apply elem_of_nil in Hs.
  - cbn [List.flat_map] in Hp. rewrite first_failure_app in Hp.
    destruct (first_failure (objs w) (sample_reads tool_config s0)) eqn:E0; [done|].
    destruct (body_result_provided tool_config s0 instructions w E0)
      as (d0 & name0 & wb0 & max_mem & bin & instruction
          & Hd0 & Hn0 & Hwb0 & _ & _ & Hbody & _).
    set (text0 := Py.str (objs (with_sorted_bam w s0 d0)) name0) in *.
    set (w1 := set_obj w s0 (marked d0 text0)) in *.
    rewrite <- (first_failure_marked tool_config rest w s0 d0 text0 wb0 Hd0 Hwb0)
      in Hp.
    destruct (IH (instructions ++ [instruction])%list w1 Hp)
      as (new & w' & Hrun & Hlen & Hdone).
    exists (instruction :: new), w'.
    rewrite run_mark_duplicates_loop_cons, Hbody, Hrun.
    split; [by rewrite <- app_assoc|]. split; [simpl; by rewrite Hlen|].
    intros s d name Hs Hd Hn.
    destruct (decide (s ∈ rest)) as [Hin|Hnin].
    + destruct (decide (s = s0)) as [->|Hne].
      * assert (d = d0) as -> by congruence.
        destruct (Hdone s0 (marked d0 text0) name Hin) as (h & Hw' & Hh).
        { by apply (set_obj_lookup w s0 _ d0). }
        { by apply marked_name. }
        exists h. rewrite marked_marked in Hw'. split; [done|].
        intros o Ho. apply not_elem_of_cons in Ho as [Hne Ho].
        rewrite (Hh o Ho). subst w1. by apply set_obj_lookup_ne.
      * destruct (Hdone s d name Hin) as (h & Hw' & Hh); [|done|].
        { subst w1. by rewrite set_obj_lookup_ne. }
        exists h. split; [done|].
        intros o Ho. apply not_elem_of_cons in Ho as [Hne' Ho].
        rewrite (Hh o Ho). subst w1. by apply set_obj_lookup_ne.
    + apply elem_of_cons in Hs as [->|Hs]; [|done].
      assert (d = d0) as -> by congruence.
      assert (name = name0) as -> by congruence.
      exists (objs (with_sorted_bam w s0 d0)). split.
      * pose proof (run_mark_duplicates_loop_frame tool_config rest
                      (instructions ++ [instruction])%list w1) as (_ & _ & _ & Hf).
        rewrite Hrun in Hf. cbn [snd] in Hf. rewrite (Hf s0 Hnin).
        by apply (set_obj_lookup w s0 _ d0).
      * intros o Ho. apply not_elem_of_cons in Ho as [Hne Ho].
        by apply with_sorted_bam_lookup_ne.
Qed.

(** The instructions of the loop when the names, the input files and the
    two values of the tool configuration hold no dictionary. *)
Lemma run_mark_duplicates_loop_instructions tool_config sample_config :
  ∀ instructions w max_mem bin,
  lookup_path (objs w) (PDict tool_config) ["gatk"; "max_mem"] = Ret max_mem →
  refs max_mem = [] →
  lookup_path (objs w) (PDict tool_config) ["picard"; "bin"] = Ret bin →
  refs bin = [] →
  (∀ s, s ∈ sample_config → plain_ready w s) →
  ∃ new w',
    run_mark_duplicates_loop tool_config sample_config instructions w
    = (Ret (instructions ++ new)%list, w')
    ∧ length new = length sample_config
    ∧ ∀ i s d name working_bam,
        sample_config !! i = Some s → objs w !! s = Some d →
        Py.dict_get d "name" = Some name →
        Py.dict_get d "working_bam" = Some working_bam →
        new !! i
        = Some (instruction_for (Py.str (objs w) max_mem) (Py.str (objs w) bin)
                  (working_bam_at sample_config i s (Py.str (objs w) name)
                     (Py.str (objs w) working_bam))
                  (Py.str (objs w) name)).
Proof.
  induction sample_config as [|s0 rest IH];
    intros instructions w max_mem bin Hm Hpm Hb Hpb Hr.
  - exists [], w. cbn [run_mark_duplicates_loop]. rewrite app_nil_r.
    split; [done|]. split; [done|]. intros i s d name wb Hi. done.
  - destruct (Hr s0) as (d0 & name0 & wb0 & Hd0 & Hn0 & Hwb0 & Hpn0 & Hpw0);
      [by left|].
    assert (E0 : first_failure (objs w) (sample_reads tool_config s0) = None).
    { unfold sample_reads. cbn [first_failure].
      by rewrite Hm, Hb, !lookup_path_single, Hd0, Hn0, Hwb0. }
    destruct (body_result_provided tool_config s0 instructions w E0)
      as (d0' & name0' & wb0' & max_mem' & bin' & instruction
          & Hd0' & Hn0' & Hwb0' & Hm' & Hb' & Hbody & Hinstr).
    assert (d0' = d0) as -> by congruence.
    assert (name0' = name0) as -> by congruence.
    assert (wb0' = wb0) as -> by congruence.
    assert (max_mem' = max_mem) as -> by congruence.
    assert (bin' = bin) as -> by congruence.
    specialize (Hinstr Hpn0 Hpw0 Hpm Hpb).
    assert (Htext : Py.str (objs (with_sorted_bam w s0 d0)) name0
                    = Py.str (objs w) name0) by by apply str_plain.
    rewrite Htext in Hbody.
    set (n0 := Py.str (objs w) name0) in *.
    set (w1 := set_obj w s0 (marked d0 n0)) in *.
    destruct (IH (instructions ++ [instruction])%list w1 max_mem bin)
      as (new & w' & Hrun & Hlen & Hnew); [| done | | done | |].
    { subst w1. by rewrite (lookup_tool_marked w s0 d0 n0). }
    { subst w1. by rewrite (lookup_tool_marked w s0 d0 n0). }
    { intros s Hs. destruct (decide (s = s0)) as [->|Hne].
      - exists (marked d0 n0), name0, (dedup_name n0).
        split; [by apply (set_obj_lookup w s0 _ d0)|].
        split; [by apply marked_name|]. split; [apply marked_working_bam|done].
      - destruct (Hr s) as (d & name & wb & Hd & Hn & Hwb & Hpn & Hpw); [by right|].
        exists d, name, wb. subst w1. by rewrite set_obj_lookup_ne. }
    exists (instruction :: new), w'.
    rewrite run_mark_duplicates_loop_cons, Hbody, Hrun.
    split; [by rewrite <- app_assoc|]. split; [simpl; by rewrite Hlen|].
    intros i s d name wb Hi Hd Hn Hwb.
    destruct i as [|j].
    + injection Hi as <-.
      assert (d = d0) as -> by congruence.
      assert (name = name0) as -> by congruence.
      assert (wb = wb0) as -> by congruence.
      by rewrite Hinstr.
    + change (rest !! j = Some s) in Hi.
      change ((instruction :: new) !! S j) with (new !! j).
      assert (Hs : s ∈ rest) by by eapply list_elem_of_lookup_2.
      destruct (Hr s) as (d' & name' & wb' & Hd' & Hn' & Hwb' & Hpn & Hpw);
        [by right|].
      assert (d' = d) as -> by congruence.
      assert (name' = name) as -> by congruence.
      assert (wb' = wb) as -> by congruence.
      destruct (decide (s = s0)) as [->|Hne].
      * assert (d = d0) as -> by congruence.
        assert (name = name0) as -> by congruence.
        rewrite (Hnew j s0 (marked d0 n0) name0 (dedup_name n0) Hi).
        -- rewrite !(str_plain (objs w1) (objs w)) by done.
           do 2 f_equal. unfold working_bam_at. cbn [take existsb].
           rewrite Nat.eqb_refl. cbn [orb Py.str dedup_name].
           by destruct (existsb _ _).
        -- by apply (set_obj_lookup w s0 _ d0).
        -- by apply marked_name.
        -- apply marked_working_bam.
      * rewrite (Hnew j s d name wb Hi).
        -- rewrite !(str_plain (objs w1) (objs w)) by done.
           do 2 f_equal. unfold working_bam_at. cbn [take existsb].
           apply Nat.eqb_neq in Hne. by rewrite Hne.
        -- subst w1. by rewrite set_obj_lookup_ne.
        -- done.
        -- done.
Qed.

(** The loop with a read that fails: it gets through the samples before
    the one the read belongs to, collects their instructions, and raises
    in the iteration of that sample. *)
Lemma run_mark_duplicates_loop_failure tool_config sample_config :
  ∀ instructions w e,
  first_failure (objs w) (List.flat_map (sample_reads tool_config) sample_config)
  = Some e →
  ∃ before sample rest new w1 w',
    sample_config = (before ++ sample :: rest)%list
    ∧ first_failure (objs w) (List.flat_map (sample_reads tool_config) before) = None
    ∧ run_mark_duplicates_loop tool_config before instructions w
      = (Ret (instructions ++ new)%list, w1)
    ∧ length new = length before
    ∧ run_mark_duplicates_body tool_config sample (instructions ++ new)%list w1
      = (Raise e, w')
    ∧ run_mark_duplicates_loop tool_config sample_config instructions w
      = (Raise e, w').
Proof.
  induction sample_config as [|s0 rest IH]; intros instructions w e Hf; [done|].
  cbn [List.flat_map] in Hf. rewrite first_failure_app in Hf.
  destruct (first_failure (objs w) (sample_reads tool_config s0)) as [e0|] eqn:E0.
  - injection Hf as ->.
    destruct (body_result_failure tool_config s0 instructions w e E0) as [w' Hbody].
    exists [], s0, rest, [], w, w'. rewrite app_nil_r.
    split; [done|]. split; [done|]. split; [done|]. split; [done|].
    split; [by rewrite run_mark_duplicates_body_run|].
    by rewrite run_mark_duplicates_loop_cons, Hbody.
  - destruct (body_result_provided tool_config s0 instructions w E0)
      as (d0 & name0 & wb0 & max_mem & bin & instruction
          & Hd0 & Hn0 & Hwb0 & _ & _ & Hbody & _).
    set (text0 := Py.str (objs (with_sorted_bam w s0 d0)) name0) in *.
    set (w1 := set_obj w s0 (marked d0 text0)) in *.
    rewrite <- (first_failure_marked tool_config rest w s0 d0 text0 wb0 Hd0 Hwb0)
      in Hf.
    destruct (IH (instructions ++ [instruction])%list w1 e Hf)
      as (before & sample & rest' & new & w2 & w' & -> & Hnone & Hrun & Hlen
          & Hraise & Hall).
    exists (s0 :: before), sample, rest', (instruction :: new), w2, w'.
    split; [done|]. split.
    { cbn [List.flat_map]. rewrite first_failure_app, E0.
      by rewrite <- (first_failure_marked tool_config before w s0 d0 text0 wb0). }
    rewrite !run_mark_duplicates_loop_cons, Hbody, Hrun, Hall.
    rewrite <- !app_assoc in *. cbn [app] in *.
    split; [done|]. split; [simpl; by rewrite Hlen|]. done.
Qed.

(* ===================================================================== *)
(** ** What a call depends on *)
(* ===================================================================== *)

Lemma agree_insert L h1 h2 (o : loc) d :
  agree L h1 h2 → is_Some (h1 !! o) → is_Some (h2 !! o) →
  agree L (<[o := d]> h1) (<[o := d]> h2).
Proof.
  intros Ha [d1 H1] [d2 H2] o' Ho'. destruct (decide (o = o')) as [<-|Hne].
  - rewrite !list_lookup_insert_eq; [done|by eapply lookup_lt_Some..].
  - rewrite !list_lookup_insert_ne by done. by apply Ha.
Qed.

Lemma closed_insert h L (o : loc) d :
  closed h L = true → (∀ o', o' ∈ dict_refs d → o' ∈ L) →
  closed (<[o := d]> h) L = true.
Proof.
  intros Hc Hd. apply closed_spec. intros o1 d1 o' Ho1 Hd1 Ho'.
  apply list_lookup_insert_Some in Hd1 as [(<- & <- & _)|(Hne & Hd1)].
  - by apply Hd.
  - by apply (proj1 (closed_spec h L) Hc o1 d1 o').
Qed.

Lemma half_marked_refs d name o :
  o ∈ dict_refs (half_marked d name) → o ∈ dict_refs d.
Proof.
  unfold half_marked. intros H. apply dict_set_refs in H as [H|H];
    [|by apply elem_of_nil in H].
  destruct (Py.dict_get d "bam") as [bam|] eqn:E; [|done].
  apply dict_set_refs in H as [H|H]; [done|]. by apply (dict_get_refs d "bam" bam).
Qed.

Lemma marked_refs d name o : o ∈ dict_refs (marked d name) → o ∈ dict_refs d.
Proof.
  unfold marked. intros H. apply dict_set_refs in H as [H|H];
    [by apply half_marked_refs in H|by apply elem_of_nil in H].
Qed.

Section BodyAgree.
Context (L : list loc) (tool_config sample : loc) (w1 w2 : World).
Hypothesis Hclosed : closed (objs w1) L = true.
Hypothesis Hagree : agree L (objs w1) (objs w2).
Hypothesis Htool : tool_config ∈ L.
Hypothesis Hsample : sample ∈ L.

(** Replacing the sample record by the same content on both sides, with
    no dictionary the record did not hold, keeps the two stores closed
    and in agreement. *)
Lemma set_obj_agree d d' :
  objs w1 !! sample = Some d → (∀ o, o ∈ dict_refs d' → o ∈ dict_refs d) →
  closed (objs (set_obj w1 sample d')) L = true
  ∧ agree L (objs (set_obj w1 sample d')) (objs (set_obj w2 sample d')).
Proof.
  intros Hd Hsub.
  assert (Hd2 : objs w2 !! sample = Some d) by by rewrite <- (Hagree sample Hsample).
  split.
  - apply closed_insert; [done|]. intros o Ho.
    by apply (proj1 (closed_spec _ L) Hclosed sample d o Hsample Hd), Hsub.
  - by apply agree_insert.
Qed.

Lemma with_sorted_bam_agree d :
  objs w1 !! sample = Some d →
  closed (objs (with_sorted_bam w1 sample d)) L = true
  ∧ agree L (objs (with_sorted_bam w1 sample d)) (objs (with_sorted_bam w2 sample d)).
Proof.
  intros Hd. unfold with_sorted_bam.
  destruct (Py.dict_get d "bam") as [bam|] eqn:E; [|done].
  apply (set_obj_agree d); [done|]. intros o Ho.
  apply dict_set_refs in Ho as [Ho|Ho]; [done|].
  by apply (dict_get_refs d "bam" bam).
Qed.

(** An iteration in two worlds that agree on a closed set with the tool
    configuration and the sample record: the same outcome, and the two
    worlds still agree. *)
Lemma body_result_agree instructions :
  fst (body_result tool_config sample instructions w1)
  = fst (body_result tool_config sample instructions w2)
  ∧ closed (objs (snd (body_result tool_config sample instructions w1))) L = true
  ∧ agree L (objs (snd (body_result tool_config sample instructions w1)))
            (objs (snd (body_result tool_config sample instructions w2))).
Proof.
  unfold body_result. rewrite <- (Hagree sample Hsample).
  destruct (objs w1 !! sample) as [d|] eqn:Hd; [|done].
  destruct (Py.dict_get d "name") as [name|] eqn:Hn; [|done].
  cbv zeta.
  assert (Hname : ∀ o, o ∈ refs name → o ∈ L).
  { intros o Ho.
    apply (proj1 (closed_spec _ L) Hclosed sample d o Hsample Hd).
    by apply (dict_get_refs d "name" name). }
  destruct (with_sorted_bam_agree d Hd) as [Hc1 Ha1].
  rewrite <- (str_agree L _ _ Hc1 Ha1 name Hname).
  set (text := Py.str (objs (with_sorted_bam w1 sample d)) name).
  destruct (set_obj_agree d (half_marked d text) Hd) as [Hc2 Ha2];
    [intros o; apply half_marked_refs|].
  destruct (set_obj_agree d (marked d text) Hd) as [Hc3 Ha3];
    [intros o; apply marked_refs|].
  rewrite <- (first_failure_agree L _ _ Hclosed Hagree).
  2:{ intros o p Hin.
      repeat (apply elem_of_cons in Hin as [[= -> ->]|Hin]; [done|]).
      by apply elem_of_nil in Hin. }
  destruct (first_failure (objs w1) _); cbn [fst snd]; [done|].
  split; [|done].
  destruct (path_val_agree L _ _ Hclosed Hagree tool_config ["gatk"; "max_mem"] Htool)
    as [<- Hr1].
  destruct (path_val_agree L _ _ Hclosed Hagree tool_config ["picard"; "bin"] Htool)
    as [<- Hr2].
  destruct (path_val_agree L _ _ Hclosed Hagree sample ["working_bam"] Hsample)
    as [<- Hr3].
  rewrite <- !(str_agree L _ _ Hc2 Ha2) by done.
  by rewrite <- (str_agree L _ _ Hclosed Hagree name Hname).
Qed.

End BodyAgree.

Lemma run_mark_duplicates_loop_agree L tool_config sample_config :
  ∀ instructions w1 w2,
  closed (objs w1) L = true → agree L (objs w1) (objs w2) →
  tool_config ∈ L → (∀ s, s ∈ sample_config → s ∈ L) →
  fst (run_mark_duplicates_loop tool_config sample_config instructions w1)
  = fst (run_mark_duplicates_loop tool_config sample_config instructions w2)
  ∧ agree L
      (objs (snd (run_mark_duplicates_loop tool_config sample_config instructions w1)))
      (objs (snd (run_mark_duplicates_loop tool_config sample_config instructions w2))).
Proof.
  induction sample_config as [|s rest IH]; intros instructions w1 w2 Hc Ha Ht Hs;
    [done|].
  rewrite !run_mark_duplicates_loop_cons.
  destruct (body_result_agree L tool_config s w1 w2 Hc Ha Ht (Hs s ltac:(by left))
              instructions) as (Hr & Hc' & Ha').
  destruct (body_result tool_config s instructions w1) as [r1 u1],
           (body_result tool_config s instructions w2) as [r2 u2].
  cbn [fst snd] in *. subst r2. destruct r1 as [ins'|e]; [|done].
  apply IH; [done..|]. intros s' Hs'. apply Hs. by right.
Qed.

Lemma effects_cpu_count c h cpus cpus' :
  uses_cpu_count c = false → effects c h cpus = effects c h cpus'.
Proof. by destruct c. Qed.

(** A job stage in two worlds that agree on a closed set with its
    configuration dictionary. *)
Lemma job_result_agree c L w1 w2 :
  is_job c = true → config_of c ∈ L →
  closed (objs w1) L = true → agree L (objs w1) (objs w2) →
  (uses_cpu_count c = true → cpu_count w1 = cpu_count w2) →
  ∃ evs, fst (job_result c w1) = fst (job_result c w2)
         ∧ snd (job_result c w1) = extend w1 evs
         ∧ snd (job_result c w2) = extend w2 evs.
Proof.
  intros Hjob Hcfg Hc Ha Hcpu. unfold job_result.
  rewrite <- (first_failure_agree L _ _ Hc Ha).
  2:{ intros o p Hin. destruct c; try discriminate Hjob; cbn [required] in Hin;
        apply list_elem_of_fmap in Hin as (q & [= -> ->] & _); exact Hcfg. }
  destruct (first_failure (objs w1) (required c)); [by eexists|].
  exists (effects c (objs w1) (cpu_count w1)). cbn [fst snd].
  assert (Hret : returned c (objs w1) = returned c (objs w2)).
  { destruct c; try discriminate Hjob; cbn [returned]; try done;
      by rewrite (path_str_agree L _ _ Hc Ha _ _ Hcfg). }
  assert (Heff : effects c (objs w1) (cpu_count w1)
                 = effects c (objs w2) (cpu_count w2)).
  { destruct (uses_cpu_count c) eqn:E.
    - rewrite <- (Hcpu eq_refl).
      destruct c; try discriminate E; unfold effects, commands;
        cbn [config_of] in *; rewrite Hret;
        by rewrite !(path_str_agree L (objs w1) (objs w2) Hc Ha _ _ Hcfg).
    - rewrite (effects_cpu_count c (objs w2) (cpu_count w2) (cpu_count w1) E).
      destruct c; try discriminate Hjob; try discriminate E;
        unfold effects, commands; cbn [config_of] in *; rewrite Hret;
        by rewrite !(path_str_agree L (objs w1) (objs w2) Hc Ha _ _ Hcfg). }
  by rewrite Hret, Heff.
Qed.

(** C5, as stated, fails: with the same configuration, sample and
    artifact names, [realign_indels] builds a different argument vector on
    a host with a different number of CPUs. *)
Lemma realign_indels_depends_on_cpu_count :
  objs example_world = objs example_world_8_cpus
  ∧ executed (trace (snd (realign_indels 0%nat "S1" "S1.bam" "S1.targets.intervals"
                            example_world)))
    = [("java -Xmx8g -jar {'bin': 'gatk.jar', 'max_mem': 8} "
        ++ "-T RealignerTargetCreator -R hg19.fa -I S1.bam "
        ++ "-o S1.targets.intervals -known mills.vcf -known 1000g.vcf -nt 4",
        "S1.realignindels.log")]
  ∧ executed (trace (snd (realign_indels 0%nat "S1" "S1.bam" "S1.targets.intervals"
                            example_world_8_cpus)))
    = [("java -Xmx8g -jar {'bin': 'gatk.jar', 'max_mem': 8} "
        ++ "-T RealignerTargetCreator -R hg19.fa -I S1.bam "
        ++ "-o S1.targets.intervals -known mills.vcf -known 1000g.vcf -nt 8",
        "S1.realignindels.log")].
Proof. vm_compute. done. Qed.

(** The two other stages that read the CPU count depend on it as well. *)
Example recalibrator_depends_on_cpu_count :
  fst (recalibrator 0%nat "S1" "S1.bam" example_world)
  = fst (recalibrator 0%nat "S1" "S1.bam" example_world_8_cpus)
  ∧ trace (snd (recalibrator 0%nat "S1" "S1.bam" example_world))
    ≠ trace (snd (recalibrator 0%nat "S1" "S1.bam" example_world_8_cpus)).
Proof. split; [reflexivity|]. vm_compute. discriminate. Qed.

Example platypus_single_depends_on_cpu_count :
  fst (platypus_single 0%nat "S1" "S1.bam" example_world)
  = fst (platypus_single 0%nat "S1" "S1.bam" example_world_8_cpus)
  ∧ trace (snd (platypus_single 0%nat "S1" "S1.bam" example_world))
    ≠ trace (snd (platypus_single 0%nat "S1" "S1.bam" example_world_8_cpus)).
Proof. split; [reflexivity|]. vm_compute. discriminate. Qed.

(** C5, amended: what a stage builds is a function of the configuration
    dictionary with the dictionaries nested in it, of the sample and
    artifact names of the call and, for [realign_indels], [recalibrator]
    and [platypus_single], of the CPU count of the host, and of nothing
    else. Let [L] be a set of dictionaries that has the configuration and
    is closed (it has every dictionary one of its members holds). Two
    runs of one call of a job stage in worlds that agree on the
    dictionaries of [L] (and, for these three, have the same CPU count)
    have the same result and announce and execute the same commands,
    whatever else differs: other dictionaries, the size of the store, the
    trace. The instructions [run_mark_duplicates] collects (or the
    exception it raises) are the same in two worlds that agree on a
    closed set with the tool configuration and the sample records, and so
    is the result of the call. *)
Theorem argument_vectors_determined :
  (∀ c L w1 w2,
      is_job c = true → config_of c ∈ L →
      closed (objs w1) L = true →
      objects_at L (objs w1) = objects_at L (objs w2) →
      (uses_cpu_count c = true → cpu_count w1 = cpu_count w2) →
      ∃ evs, fst (run c w1) = fst (run c w2)
             ∧ snd (run c w1) = extend w1 evs
             ∧ snd (run c w2) = extend w2 evs)
  ∧ (∀ tool_config sample_config L instructions w1 w2,
      tool_config ∈ L → (∀ s, s ∈ sample_config → s ∈ L) →
      closed (objs w1) L = true →
      objects_at L (objs w1) = objects_at L (objs w2) →
      fst (run_mark_duplicates_loop tool_config sample_config instructions w1)
      = fst (run_mark_duplicates_loop tool_config sample_config instructions w2)
      ∧ ∀ project_config resource_config,
          fst (run (RunMarkDuplicates project_config sample_config tool_config
                      resource_config) w1)
          = fst (run (RunMarkDuplicates project_config sample_config tool_config
                        resource_config) w2)).
Proof.
  split.
  - intros c L w1 w2 Hjob Hcfg Hc Hobj Hcpu. apply objects_at_agree in Hobj.
    destruct (job_result_agree c L w1 w2 Hjob Hcfg Hc Hobj Hcpu)
      as (evs & Hr & H1 & H2).
    exists evs. rewrite !(run_job c _ Hjob). cbn [fst snd]. by rewrite Hr.
  - intros tool_config sample_config L instructions w1 w2 Ht Hs Hc Hobj.
    apply objects_at_agree in Hobj. split.
    + by destruct (run_mark_duplicates_loop_agree L tool_config sample_config
                     instructions w1 w2 Hc Hobj Ht Hs) as [Hr _].
    + intros project_config resource_config. rewrite !run_RunMarkDuplicates.
      set (line := [StdoutWrite ("Running MarkDuplicates" ++ Py.nl)]).
      destruct (run_mark_duplicates_loop_agree L tool_config sample_config
                  [] (extend w1 line) (extend w2 line) Hc Hobj Ht Hs) as [Hr _].
      destruct (run_mark_duplicates_loop tool_config sample_config []
                  (extend w1 line)) as [r1 u1],
               (run_mark_duplicates_loop tool_config sample_config []
                  (extend w2 line)) as [r2 u2].
      cbn [fst] in Hr. subst r2. by destruct r1.
Qed.

Lemma argument_vectors_determined_witness :
  (∃ evs,
    fst (run (Diagnosetargets 0%nat "S1" "S1.bam") example_world)
    = fst (run (Diagnosetargets 0%nat "S1" "S1.bam") example_busy_world)
    ∧ snd (run (Diagnosetargets 0%nat "S1" "S1.bam") example_world)
      = extend example_world evs
    ∧ snd (run (Diagnosetargets 0%nat "S1" "S1.bam") example_busy_world)
      = extend example_busy_world evs)
  ∧ fst (run_mark_duplicates_loop 0%nat [1%nat] [] example_samples_world)
    = fst (run_mark_duplicates_loop 0%nat [1%nat] []
             (mkWorld (objs example_samples_world ++ [[("unrelated", PInt 1)]])%list
                8 [Sleep 1])).
Proof.
  split.
  - apply (proj1 argument_vectors_determined
             (Diagnosetargets 0%nat "S1" "S1.bam")
             [0%nat; 1%nat; 2%nat; 3%nat; 4%nat]
             example_world example_busy_world).
    + reflexivity.
    + simpl. by left.
    + reflexivity.
    + reflexivity.
    + simpl. discriminate.
  - refine (proj1 (proj2 argument_vectors_determined 0%nat [1%nat]
                     [0%nat; 1%nat; 2%nat; 3%nat] [] example_samples_world
                     (mkWorld
                        (objs example_samples_world ++ [[("unrelated", PInt 1)]])%list
                        8 [Sleep 1])
                     _ _ eq_refl eq_refl)).
    + by left.
    + intros s Hs. apply list_elem_of_singleton in Hs as ->. right. by left.
Defined.

(* ===================================================================== *)
(** ** Missing keys *)
(* ===================================================================== *)

(** C7, as stated, fails: [run_mark_duplicates] raises on a key a sample
    record lacks only when its loop reaches that record. Here the second
    record has no [working_bam]: the call raises [KeyError], but the loop
    has got through the first record by then and has constructed its
    command. *)
Lemma run_mark_duplicates_raises_after_a_command :
  let w0 := extend example_two_samples_world
              [StdoutWrite ("Running MarkDuplicates" ++ Py.nl)] in
  let first := run_mark_duplicates_loop 0%nat [1%nat] [] w0 in
  let instruction :=
    ("java -Xmx8g -jar picard.jar MarkDuplicates CREATE_INDEX=true "
     ++ "INPUT=S1.sorted.bam OUTPUT=S1.dedup.sorted.bam "
     ++ "METRICS_FILE=S1.dedup.metrics VALIDATION_STRINGENCY=LENIENT",
     "S1.markduplicates.log") in
  fst first = Ret [instruction]
  ∧ fst (run_mark_duplicates_body 0%nat 2%nat [instruction] (snd first))
    = Raise (KeyError "working_bam")
  ∧ fst (run (RunMarkDuplicates PNone [1%nat; 2%nat] 0%nat PNone)
           example_two_samples_world)
    = Raise (KeyError "working_bam").
Proof. vm_compute. done. Qed.

(** C7, amended: when a key a call requires is absent (and no required
    key path runs through a value that is not a dictionary), the call
    raises [KeyError] and has executed and announced nothing: its trace
    holds what it does before its first read and no more. A job stage has
    not got to a command: the world is as it was, but for that. For
    [run_mark_duplicates] the loop has got through the samples before the
    one the missing key belongs to, and has constructed one instruction
    for each of them; the iteration of that sample raises. *)
Theorem missing_key_raises c w :
  (∀ o p, (o, p) ∈ required c → lookup_path (objs w) (PDict o) p ≠ Raise TypeError) →
  (∃ o p k, (o, p) ∈ required c ∧ lookup_path (objs w) (PDict o) p = Raise (KeyError k)) →
  ∃ k w',
    run c w = (Raise (KeyError k), w')
    ∧ trace w' = (trace w ++ preamble c)%list
    ∧ (is_job c = true → w' = extend w (preamble c))
    ∧ ∀ project_config sample_config tool_config resource_config,
        c = RunMarkDuplicates project_config sample_config tool_config
              resource_config →
        ∃ before sample rest instructions w1,
          sample_config = (before ++ sample :: rest)%list
          ∧ run_mark_duplicates_loop tool_config before [] (extend w (preamble c))
            = (Ret instructions, w1)
          ∧ length instructions = length before
          ∧ run_mark_duplicates_body tool_config sample instructions w1
            = (Raise (KeyError k), w').
Proof.
  intros Hty Hmiss.
  destruct (first_failure_KeyError (objs w) (required c) Hty Hmiss) as [k Hk].
  destruct (is_job c) eqn:Hjob.
  - exists k, (extend w (preamble c)). split; [by apply run_job_failure|].
    split; [done|]. split; [done|].
    intros pc sc tc rc ->. discriminate Hjob.
  - destruct c; try discriminate Hjob. cbn [required preamble] in *.
    set (w0 := extend w [StdoutWrite ("Running MarkDuplicates" ++ Py.nl)]).
    destruct (run_mark_duplicates_loop_failure tool_config sample_config [] w0
                (KeyError k) Hk)
      as (before & sample & rest & new & w1 & w' & Hsplit & _ & Hrun & Hlen
          & Hraise & Hall).
    exists k, w'. rewrite run_RunMarkDuplicates. fold w0. rewrite Hall.
    split; [done|]. split.
    { pose proof (run_mark_duplicates_loop_frame tool_config sample_config [] w0)
        as (Ht & _). by rewrite Hall in Ht. }
    split; [done|].
    intros pc sc tc rc [= <- <- <- <-].
    by exists before, sample, rest, new, w1.
Qed.

Lemma missing_key_raises_witness :
  (∃ k w',
    run (AnnotateVcf 0%nat "S1" "S1.vcf" "S1.bam" 4) example_world_without_dbsnp
    = (Raise (KeyError k), w')
    ∧ trace w' = [])
  ∧ ∃ k w',
      run (RunMarkDuplicates PNone [1%nat; 2%nat] 0%nat PNone)
          example_two_samples_world
      = (Raise (KeyError k), w')
      ∧ trace w' = [StdoutWrite ("Running MarkDuplicates" ++ Py.nl)].
Proof.
  split.
  - destruct (missing_key_raises (AnnotateVcf 0%nat "S1" "S1.vcf" "S1.bam" 4)
                example_world_without_dbsnp) as (k & w' & Hrun & Ht & _).
    + intros o p Hp. cbn [required List.map] in Hp.
      repeat (apply elem_of_cons in Hp as [[= -> ->]|Hp]; [discriminate|]).
      by apply elem_of_nil in Hp.
    + exists 0%nat, ["dbsnp"], "dbsnp". split; [|reflexivity].
      cbn [required List.map]. do 3 right. by left.
    + by exists k, w'.
  - destruct (missing_key_raises
                (RunMarkDuplicates PNone [1%nat; 2%nat] 0%nat PNone)
                example_two_samples_world) as (k & w' & Hrun & Ht & _).
    + intros o p Hp. cbn [required List.flat_map sample_reads app] in Hp.
      repeat (apply elem_of_cons in Hp as [[= -> ->]|Hp]; [discriminate|]).
      by apply elem_of_nil in Hp.
    + exists 2%nat, ["working_bam"], "working_bam". split; [|reflexivity].
      cbn [required List.flat_map sample_reads app]. do 7 right. by left.
    + by exists k, w'.
Defined.

(** The raise of that call names the missing key. *)
Example annotate_vcf_without_dbsnp :
  run (AnnotateVcf 0%nat "S1" "S1.vcf" "S1.bam" 4) example_world_without_dbsnp
  = (Raise (KeyError "dbsnp"), example_world_without_dbsnp).
Proof. reflexivity. Qed.

(* ===================================================================== *)
(** ** What a call writes *)
(* ===================================================================== *)

(** C9, as stated, fails: [run_mark_duplicates] updates the records of its
    [sample_config] in place. When the dictionary passed as [tool_config]
    is one of them, the tool configuration itself has changed when the
    call returns; when a record is the [gatk] section of the tool
    configuration, the tool configuration holds the same references as
    before but no longer prints the same. *)
Lemma run_mark_duplicates_mutates_sample_config :
  objs (snd (run (RunMarkDuplicates PNone [1%nat] 0%nat PNone) example_samples_world))
    !! 1%nat
  = Some [ ("name", PStr "S1");
           ("working_bam", PStr "S1.dedup.sorted.bam");
           ("dedup_bam", PStr "S1.dedup.sorted.bam") ]
  ∧ objs (snd (run (RunMarkDuplicates PNone [0%nat] 0%nat PNone) example_shared_world))
      !! 0%nat
    = Some [ ("gatk", PDict 1%nat);
             ("picard", PDict 2%nat);
             ("name", PStr "S1");
             ("working_bam", PStr "S1.dedup.sorted.bam");
             ("dedup_bam", PStr "S1.dedup.sorted.bam") ]
  ∧ Py.repr (objs example_nested_world) (PDict 0%nat)
    = "{'gatk': {'max_mem': 8, 'name': 'S1', 'working_bam': 'S1.sorted.bam'}, "
      ++ "'picard': {'bin': 'picard.jar'}}"
  ∧ Py.repr
      (objs (snd (run (RunMarkDuplicates PNone [1%nat] 0%nat PNone)
                    example_nested_world)))
      (PDict 0%nat)
    = "{'gatk': {'max_mem': 8, 'name': 'S1', "
      ++ "'working_bam': 'S1.dedup.sorted.bam', "
      ++ "'dedup_bam': 'S1.dedup.sorted.bam'}, 'picard': {'bin': 'picard.jar'}}".
Proof. vm_compute. done. Qed.

(** Where a call leaves the store: a job stage as it was, and
    [run_mark_duplicates] with nothing written but the sample records, and
    these under the three keys only. *)
Lemma run_store c w :
  same_outside written_keys (objs w) (objs (snd (run c w)))
  ∧ (∀ o, o ∉ written c → objs (snd (run c w)) !! o = objs w !! o)
  ∧ (is_job c = true → objs (snd (run c w)) = objs w).
Proof.
  destruct (is_job c) eqn:Hjob.
  - assert (H : objs (snd (run c w)) = objs w).
    { rewrite (run_job c w Hjob). cbn [snd]. unfold job_result.
      by destruct (first_failure _ _). }
    rewrite H. split; [apply same_outside_refl|done].
  - destruct c; try discriminate Hjob. rewrite run_RunMarkDuplicates.
    set (w0 := extend w _).
    pose proof (run_mark_duplicates_loop_frame tool_config sample_config [] w0)
      as (_ & _ & Hs & Hf).
    destruct (run_mark_duplicates_loop _ _ _ w0) as [[ins|e] u]; cbn [snd] in *; done.
Qed.

(** C9, amended: a call writes to no dictionary but the sample records
    handed to [run_mark_duplicates], and to these under the keys
    [sorted_bam], [dedup_bam] and [working_bam] only. So every dictionary
    that is not one of these records is after the call what it was before
    (for a job stage: the whole store); every dictionary keeps its other
    keys and their values; and when no dictionary of a closed set [L]
    is one of the records (the tool configuration with all that is
    nested in it, when none of that is a sample record), the dictionaries
    of [L] are as they were and every value over them prints as before. *)
Theorem call_preserves_unwritten c w o :
  o ∉ written c →
  let w' := snd (run c w) in
  objs w' !! o = objs w !! o
  ∧ length (objs w') = length (objs w)
  ∧ (is_job c = true → objs w' = objs w)
  ∧ (∀ o' d, objs w !! o' = Some d →
       ∃ d', objs w' !! o' = Some d'
             ∧ ∀ k, k ∉ written_keys → Py.dict_get d' k = Py.dict_get d k)
  ∧ (∀ L v,
       closed (objs w) L = true →
       (∀ o', o' ∈ L → o' ∉ written c) →
       (∀ o', o' ∈ refs v → o' ∈ L) →
       objects_at L (objs w') = objects_at L (objs w)
       ∧ Py.repr (objs w') v = Py.repr (objs w) v).
Proof.
  intros Ho. cbv zeta.
  destruct (run_store c w) as ([Hlen Hkeys] & Hframe & Hjob).
  split; [by apply Hframe|]. split; [done|]. split; [done|]. split; [done|].
  intros L v Hc HL Hv.
  assert (Ha : agree L (objs w) (objs (snd (run c w)))).
  { intros o' Ho'. symmetry. by apply Hframe, HL. }
  split; [symmetry; by apply objects_at_agree|].
  symmetry. by apply (repr_agree L (objs w) _ Hc Ha).
Qed.

Lemma call_preserves_unwritten_witness :
  let w' := snd (run (RunMarkDuplicates PNone [1%nat] 0%nat PNone)
                   example_samples_world) in
  objs w' !! 0%nat = Some example_tool_config
  ∧ Py.repr (objs w') (PDict 0%nat)
    = Py.repr (objs example_samples_world) (PDict 0%nat).
Proof.
  assert (H0 : 0%nat ∉ written (RunMarkDuplicates PNone [1%nat] 0%nat PNone)).
  { simpl. intros H. apply list_elem_of_singleton in H. discriminate H. }
  destruct (call_preserves_unwritten
              (RunMarkDuplicates PNone [1%nat] 0%nat PNone)
              example_samples_world 0%nat H0) as (Hobj & _ & _ & _ & Hdeep).
  split; [exact Hobj|].
  refine (proj2 (Hdeep [0%nat; 2%nat; 3%nat] (PDict 0%nat) eq_refl _ _)).
  - intros o' Ho' Hin. simpl in Hin. apply list_elem_of_singleton in Hin as ->.
    repeat (apply elem_of_cons in Ho' as [Ho'|Ho']; [discriminate Ho'|]).
    by apply elem_of_nil in Ho'.
  - intros o' Ho'. apply list_elem_of_singleton in Ho' as ->. by left.
Defined.

(* ===================================================================== *)
(** ** Artifact names *)
(* ===================================================================== *)

Lemma string_length_app (a b : string) :
  String.length (a ++ b) = (String.length a + String.length b)%nat.
Proof. induction a as [|c a IH]; simpl; [done|by rewrite IH]. Qed.

Lemma string_app_inv_tail (a b t : string) : a ++ t = b ++ t → a = b.
Proof.
  revert b. induction a as [|c a IH]; intros [|d b] H; simpl in H.
  - done.
  - apply (f_equal String.length) in H.
    rewrite ?string_length_app in H. simpl in H.
    rewrite ?string_length_app in H. lia.
  - apply (f_equal String.length) in H.
    rewrite ?string_length_app in H. simpl in H.
    rewrite ?string_length_app in H. lia.
  - injection H as -> H. f_equal. by apply IH.
Qed.

Lemma last_char_app (a b : string) :
  b ≠ EmptyString → last_char (a ++ b) = last_char b.
Proof.
  intros Hb. induction a as [|c a IH]; simpl; [done|].
  rewrite <- IH. destruct (a ++ b) eqn:E; [|done].
  destruct a; simpl in E; [done|discriminate].
Qed.

(** The naming conventions that carry the snpEff reference tell two
    references apart exactly when they format differently. *)
Lemma snpeff_output_vcf_inj sample r1 r2 :
  snpeff_output_vcf sample r1 = snpeff_output_vcf sample r2 ↔ r1 = r2.
Proof.
  unfold snpeff_output_vcf. split; [|by intros ->].
  intros H. do 2 apply String.app_inj in H. by apply string_app_inv_tail in H.
Qed.

Lemma gemini_db_inj sample r1 r2 :
  gemini_db sample r1 = gemini_db sample r2 ↔ r1 = r2.
Proof.
  unfold gemini_db. split; [|by intros ->].
  intros H. do 2 apply String.app_inj in H. by apply string_app_inv_tail in H.
Qed.

Lemma vcfanno_output_vcf_inj sample r1 r2 :
  vcfanno_output_vcf sample r1 = vcfanno_output_vcf sample r2 ↔ r1 = r2.
Proof.
  unfold vcfanno_output_vcf. split; [|by intros ->].
  intros H. do 2 apply String.app_inj in H. by apply string_app_inv_tail in H.
Qed.

(** C4, as stated, fails: the artifact name of [annotate_vcf] carries no
    reference, so two runs for one sample with different references
    collide. *)
Lemma annotate_vcf_name_ignores_reference :
  path_val (objs example_world) 0%nat ["reference"] = PStr "hg19.fa"
  ∧ path_val (objs example_world_hg38) 0%nat ["reference"] = PStr "hg38.fa"
  ∧ fst (run (AnnotateVcf 0%nat "S1" "S1.vcf" "S1.bam" 4) example_world)
    = Ret (PStr "S1.annotated.vcf")
  ∧ fst (run (AnnotateVcf 0%nat "S1" "S1.vcf" "S1.bam" 4) example_world_hg38)
    = Ret (PStr "S1.annotated.vcf").
Proof. vm_compute. done. Qed.

(** C4, amended: for one call (one stage, one sample) run with two
    configurations that provide its keys, the artifact names of [snpeff],
    [gemini] and [vcfanno] are equal exactly when the two values of
    [config['snpeff']['reference']] format to the same string, so two
    different reference names give two different artifact names; the
    artifact name of every other job stage is the same under both
    configurations. *)
Theorem artifact_name_and_reference c w1 w2 :
  is_job c = true →
  provides (objs w1) c → provides (objs w2) c →
  ∃ path1 path2,
    fst (run c w1) = Ret (PStr path1)
    ∧ fst (run c w2) = Ret (PStr path2)
    ∧ if names_reference c
      then path1 = path2
           ↔ path_str (objs w1) (config_of c) ["snpeff"; "reference"]
             = path_str (objs w2) (config_of c) ["snpeff"; "reference"]
      else path1 = path2.
Proof.
  intros Hjob Hp1 Hp2.
  exists (returned c (objs w1)), (returned c (objs w2)).
  rewrite (run_job_provided c w1), (run_job_provided c w2) by done.
  do 2 (split; [done|]).
  destruct c; try discriminate Hjob; simpl; try done.
  - apply snpeff_output_vcf_inj.
  - apply gemini_db_inj.
  - apply vcfanno_output_vcf_inj.
Qed.

Lemma artifact_name_and_reference_witness :
  ∃ path1 path2,
    fst (run (Snpeff 0%nat "S1" "S1.vcf") example_world) = Ret (PStr path1)
    ∧ fst (run (Snpeff 0%nat "S1" "S1.vcf") example_world_hg38) = Ret (PStr path2)
    ∧ (path1 = path2 ↔ "GRCh37" = "GRCh38").
Proof.
  exact (artifact_name_and_reference (Snpeff 0%nat "S1" "S1.vcf")
           example_world example_world_hg38 eq_refl eq_refl eq_refl).
Defined.

(* ===================================================================== *)
(** ** Where a command names its output *)
(* ===================================================================== *)

Lemma mem_char_app c (a b : string) :
  Py.mem_char c (a ++ b) = Py.mem_char c a || Py.mem_char c b.
Proof. induction a as [|d a IH]; simpl; [done|]. by destruct (Ascii.eqb c d). Qed.

(** C6, as stated, fails: the GEMINI load command has no redirection; the
    database is its last argument. *)
Lemma gemini_does_not_redirect :
  executed (trace (snd (gemini 0%nat "S1" "S1.vcf" example_world)))
  = [("gemini load --cores 2 --save-info-string -v S1.vcf -t snpEff "
      ++ "S1.snpEff.GRCh37.db",
      "S1.gemini.log")]
  ∧ Py.mem_char ">"
      ("gemini load --cores 2 --save-info-string -v S1.vcf -t snpEff "
       ++ "S1.snpEff.GRCh37.db")
    = false.
Proof. vm_compute. done. Qed.

(** The output is named at a position of the vector. *)
Ltac names_at n m :=
  lazymatch goal with
  | |- names_output _ ?v _ =>
      first [ by exists (take n v) | by exists (take n v), (drop m v) ]
  end.

(** The GEMINI load command has a [>] only where a text the stage was
    handed has one. *)
Lemma gemini_command_redirection bin num_cores input_vcf sample reference :
  Py.mem_char ">"
    (Py.join (gemini_command bin num_cores input_vcf (gemini_db sample reference)))
  = true →
  ∃ x, x ∈ [sample; input_vcf; reference; bin; num_cores]
       ∧ Py.mem_char ">" x = true.
Proof.
  unfold Py.join, gemini_command, gemini_db. cbn [String.concat].
  rewrite !mem_char_app. cbn [Py.mem_char Ascii.eqb Bool.eqb].
  rewrite ?orb_false_r, ?orb_false_l. intros H.
  repeat (apply orb_prop in H as [H|H]);
    eexists; (split; [|exact H]); repeat first [by left|right].
Qed.

(** C6, amended: [snpeff] and [vcfanno] redirect the standard output to
    the artifact they return ([snpeff] with [">"] and the path in one
    token, [vcfanno] in two); [gemini] passes its database as the last
    argument, and its command has no [>] unless a text the stage was
    handed (the sample name, [input_vcf], one of the three configuration
    values) has one; [diagnosetargets], [annotate_vcf],
    [filter_variants], [realign_target_creator] and [recalibrator] name
    the artifact they return after [-o], and
    [add_or_replace_readgroups] in an [OUTPUT=] argument. In each case
    the command is one the stage executes. *)
Theorem executed_command_names_output c style w :
  output_style_of c = Some style → provides (objs w) c →
  ∃ evs label vector logfile,
    run c w = (Ret (PStr (returned c (objs w))), extend w evs)
    ∧ (label, vector, logfile) ∈ commands c (objs w) (cpu_count w)
    ∧ RunAndLog (Py.join vector) logfile ∈ evs
    ∧ names_output style vector (returned c (objs w))
    ∧ (style = Positional →
       Py.mem_char ">" (Py.join vector) = true →
       ∃ x, x ∈ interpolated c (objs w) (cpu_count w)
            ∧ Py.mem_char ">" x = true).
Proof.
  intros Hstyle Hp.
  assert (Hjob : is_job c = true) by by destruct c.
  exists (effects c (objs w) (cpu_count w)).
  rewrite (run_job_provided c w Hjob Hp).
  destruct c; simpl in Hstyle; try discriminate Hstyle;
    injection Hstyle as <-.
  - eexists _, _, _. split; [done|]. split; [by left|].
    split; [simpl; right; by left|]. split; [names_at 5%nat 0%nat|done].
  - eexists _, _, _. split; [done|]. split; [by left|].
    split; [simpl; right; by left|]. split; [names_at 7%nat 0%nat|].
    intros _ H. apply gemini_command_redirection in H as (x & Hx & Hm).
    exists x. split; [|done]. unfold interpolated.
    cbn [arguments required List.map uses_cpu_count fst snd app].
    exact Hx.
  - eexists _, _, _. split; [done|]. split; [by left|].
    split; [simpl; right; by left|]. split; [names_at 7%nat 0%nat|done].
  - eexists _, _, _. split; [done|]. split; [by left|].
    split; [simpl; right; by left|]. split; [names_at 20%nat 22%nat|done].
  - eexists _, _, _. split; [done|]. split; [by left|].
    split; [simpl; right; by left|]. split; [names_at 20%nat 22%nat|done].
  - eexists _, _, _. split; [done|]. split; [by left|].
    split; [simpl; right; by left|]. split; [names_at 26%nat 28%nat|done].
  - eexists _, _, _. split; [done|]. split; [by left|].
    split; [simpl; right; right; by left|]. split; [names_at 6%nat 7%nat|done].
  - eexists _, _, _. split; [done|]. split; [by left|].
    split; [simpl; right; by left|]. split; [names_at 10%nat 12%nat|done].
  - eexists _, _, _. split; [done|]. split; [right; by left|].
    split; [simpl; do 3 right; by left|]. split; [names_at 10%nat 12%nat|done].
Qed.

Lemma executed_command_names_output_witness :
  ∃ evs label vector logfile,
    run (Vcfanno 0%nat "S1" "S1.vcf") example_world
    = (Ret (PStr "S1.vcfanno.snpEff.GRCh37.vcf"), extend example_world evs)
    ∧ (label, vector, logfile)
      ∈ commands (Vcfanno 0%nat "S1" "S1.vcf") (objs example_world) 4
    ∧ RunAndLog (Py.join vector) logfile ∈ evs
    ∧ ∃ pre, vector = (pre ++ [">"; "S1.vcfanno.snpEff.GRCh37.vcf"])%list.
Proof.
  destruct (executed_command_names_output (Vcfanno 0%nat "S1" "S1.vcf") Redirect
              example_world eq_refl eq_refl)
    as (evs & label & vector & logfile & Hrun & Hin & Hev & Hname & _).
  by exists evs, label, vector, logfile.
Defined.

(* ===================================================================== *)
(** ** Where the executable and the heap size come from *)
(* ===================================================================== *)






(** The command [run_mark_duplicates] builds for a sample takes the jar
    from [tool_config['picard']['bin']] and the heap size from
    [tool_config['gatk']['max_mem']]. *)
Example run_mark_duplicates_instructions :
  fst (run_mark_duplicates_loop 0%nat [1%nat] [] example_samples_world)
  = Ret [("java -Xmx8g -jar picard.jar MarkDuplicates CREATE_INDEX=true "
          ++ "INPUT=S1.sorted.bam OUTPUT=S1.dedup.sorted.bam "
          ++ "METRICS_FILE=S1.dedup.metrics VALIDATION_STRINGENCY=LENIENT",
          "S1.markduplicates.log")].
Proof. vm_compute. reflexivity. Qed.

(** The instructions are dropped: the call returns [None] and has executed
    nothing. *)
Example run_mark_duplicates_returns_None :
  run (RunMarkDuplicates PNone [1%nat] 0%nat PNone) example_samples_world
  = (Ret PNone,
     mkWorld
       (example_tool_config
        :: [ ("name", PStr "S1");
             ("working_bam", PStr "S1.dedup.sorted.bam");
             ("dedup_bam", PStr "S1.dedup.sorted.bam") ]
        :: example_tool_sections)
       4 [StdoutWrite ("Running MarkDuplicates" ++ Py.nl)]).
Proof. vm_compute. reflexivity. Qed.

(** The [-jar] argument of the three stages that format [config['gatk']]
    itself is the printed dictionary, not the jar. *)
Example realign_target_creator_jar_argument :
  executed (trace (snd (realign_target_creator 0%nat "S1" "S1.bam" example_world)))
  = [("java -Xmx8g -jar {'bin': 'gatk.jar', 'max_mem': 8} -T IndelRealigner "
      ++ "-R hg19.fa -I S1.bam -o S1.targets.intervals -known mills.vcf "
      ++ "-known 1000g.vcf -targetIntervals S1.targets.intervals "
      ++ "--read_filter NotPrimaryAlignment",
      "S1.targetcreation.log")].
Proof. vm_compute. reflexivity. Qed.

(* ===================================================================== *)
(** ** The realignment stages *)
(* ===================================================================== *)

Lemma realigned_name_last_char sample token :
  last_char token ≠ Some "m"%char → sample ++ ".realigned.sorted.bam" ≠ token.
Proof.
  intros H E. apply H. rewrite <- E. by rewrite last_char_app.
Qed.

Lemma heap_argument_last_char max_mem :
  last_char ("-Xmx" ++ max_mem ++ "g") = Some "g"%char.
Proof.
  rewrite last_char_app by by destruct max_mem.
  by rewrite last_char_app.
Qed.

(** The command of [realign_indels] is built without the sample name: the
    returned path is among its arguments only as one of the texts handed
    in. *)
Lemma realign_indels_command_names sample max_mem gatk reference indel1 indel2
    cpus input_bam targets :
  sample ++ ".realigned.sorted.bam"
    ∈ realign_indels_command max_mem gatk reference indel1 indel2 cpus
        input_bam targets →
  sample ++ ".realigned.sorted.bam"
    ∈ [ input_bam; targets; gatk; reference; indel1; indel2; Py.str_of_int cpus ].
Proof.
  unfold realign_indels_command. intros Hin.
  repeat (apply elem_of_cons in Hin as [Heq|Hin]);
    try (by apply elem_of_nil in Hin);
    try (exfalso; revert Heq; apply realigned_name_last_char;
         first [ by rewrite heap_argument_last_char | simpl; discriminate ]);
    rewrite Heq; repeat first [ by left | right ].
Qed.

(** The command of [realign_target_creator] names the targets file of the
    sample; the path [realign_indels] returns is among its arguments only
    as the input or as a configuration value. *)
Lemma realign_target_creator_command_names sample max_mem gatk reference
    indel1 indel2 input_bam :
  sample ++ ".realigned.sorted.bam"
    ∈ realign_target_creator_command max_mem gatk reference indel1 indel2
        input_bam (sample ++ ".targets.intervals") →
  sample ++ ".realigned.sorted.bam" ∈ [ input_bam; gatk; reference; indel1; indel2 ].
Proof.
  unfold realign_target_creator_command. intros Hin.
  repeat (apply elem_of_cons in Hin as [Heq|Hin]);
    try (by apply elem_of_nil in Hin);
    try (exfalso; revert Heq; apply realigned_name_last_char;
         first [ by rewrite heap_argument_last_char
               | by rewrite last_char_app
               | simpl; discriminate ]);
    rewrite Heq; repeat first [ by left | right ].
Qed.

(** C10, as stated, fails: the path [realign_indels] returns is in the
    argument vector when the caller hands it in, here as the input BAM of
    a second realignment of sample ["S1"]. *)
Lemma realign_indels_output_in_vector :
  realign_indels 0%nat "S1" "S1.realigned.sorted.bam" "S1.targets.intervals"
    example_world
  = (Ret "S1.realigned.sorted.bam",
     extend example_world
       [ LogToMaster
           ("GATK IndelRealigner Command: ('java', '-Xmx8g', '-jar', "
            ++ String Py.dquote "{'bin': 'gatk.jar', 'max_mem': 8}"
            ++ String Py.dquote ", '-T', 'RealignerTargetCreator', '-R', "
            ++ "'hg19.fa', '-I', 'S1.realigned.sorted.bam', '-o', "
            ++ "'S1.targets.intervals', '-known', 'mills.vcf', '-known', "
            ++ "'1000g.vcf', '-nt', '4')" ++ Py.nl);
         Touch "S1.realigned.sorted.bam";
         RunAndLog
           ("java -Xmx8g -jar {'bin': 'gatk.jar', 'max_mem': 8} "
            ++ "-T RealignerTargetCreator -R hg19.fa "
            ++ "-I S1.realigned.sorted.bam -o S1.targets.intervals "
            ++ "-known mills.vcf -known 1000g.vcf -nt 4")
           "S1.realignindels.log" ]).
Proof. vm_compute. reflexivity. Qed.

(** C10, amended: called with a configuration that provides its keys,
    [realign_indels] announces its command, touches the
    [sample ++ ".realigned.sorted.bam"] file it returns and only then
    executes the command. The argument after [-o] is the targets path of
    the caller. The vector is built without the sample name: the returned
    path is in it only when it is the input BAM or the targets path
    handed in, or what a configuration value or the CPU count formats
    to. *)
Theorem realign_indels_touches_then_runs config sample input_bam targets w :
  provides (objs w) (RealignIndels config sample input_bam targets) →
  let output_bam := sample ++ ".realigned.sorted.bam" in
  let gatk := path_str (objs w) config ["gatk"] in
  let reference := path_str (objs w) config ["reference"] in
  let indel1 := path_str (objs w) config ["indel1"] in
  let indel2 := path_str (objs w) config ["indel2"] in
  let command :=
    realign_indels_command (path_str (objs w) config ["gatk"; "max_mem"]) gatk
      reference indel1 indel2 (cpu_count w) input_bam targets in
  realign_indels config sample input_bam targets w
  = (Ret output_bam,
     extend w
       [ LogToMaster ("GATK IndelRealigner Command: "
                      ++ Py.str_tuple command ++ Py.nl);
         Touch output_bam;
         RunAndLog (Py.join command) (sample ++ ".realignindels.log") ])
  ∧ command !! 10%nat = Some "-o"
  ∧ command !! 11%nat = Some targets
  ∧ (output_bam ∈ command →
     output_bam ∈ [ input_bam; targets; gatk; reference; indel1; indel2;
                    Py.str_of_int (cpu_count w) ]).
Proof.
  intros Hp. cbv zeta.
  split.
  { rewrite realign_indels_run. unfold job_result. by rewrite Hp. }
  do 2 (split; [done|]).
  apply realign_indels_command_names.
Qed.

Lemma realign_indels_touches_then_runs_witness :
  ∃ command,
    realign_indels 0%nat "S1" "S1.rg.sorted.bam" "S1.targets.intervals" example_world
    = (Ret "S1.realigned.sorted.bam",
       extend example_world
         [ LogToMaster ("GATK IndelRealigner Command: "
                        ++ Py.str_tuple command ++ Py.nl);
           Touch "S1.realigned.sorted.bam";
           RunAndLog (Py.join command) "S1.realignindels.log" ])
    ∧ command !! 10%nat = Some "-o"
    ∧ command !! 11%nat = Some "S1.targets.intervals".
Proof.
  destruct (realign_indels_touches_then_runs 0%nat "S1" "S1.rg.sorted.bam"
              "S1.targets.intervals" example_world eq_refl)
    as (Hrun & Ho & Ht & _).
  eexists. split; [exact Hrun|]. split; [exact Ho|exact Ht].
Defined.

(** X7: the two realignment stages in sequence, the targets file of the
    first handed to the second: both commands name the same file after
    [-o], [sample ++ ".targets.intervals"]. The first runs the walker
    IndelRealigner with that file as its [-targetIntervals] too; the
    second runs RealignerTargetCreator. The BAM the second stage returns
    is touched before the second command runs; it is an argument of one
    of the two commands only when the caller hands that very path in as
    [input_bam], or when a configuration value or the CPU count formats
    to it. *)
Theorem realign_stages_share_output_flag config sample input_bam w :
  provides (objs w) (RealignTargetCreator config sample input_bam) →
  let targets := sample ++ ".targets.intervals" in
  let output_bam := sample ++ ".realigned.sorted.bam" in
  let max_mem := path_str (objs w) config ["gatk"; "max_mem"] in
  let gatk := path_str (objs w) config ["gatk"] in
  let reference := path_str (objs w) config ["reference"] in
  let indel1 := path_str (objs w) config ["indel1"] in
  let indel2 := path_str (objs w) config ["indel2"] in
  let creator :=
    realign_target_creator_command max_mem gatk reference indel1 indel2
      input_bam targets in
  let indels :=
    realign_indels_command max_mem gatk reference indel1 indel2 (cpu_count w)
      input_bam targets in
  (targets ← realign_target_creator config sample input_bam;
   realign_indels config sample input_bam targets) w
  = (Ret output_bam,
     extend w
       [ LogToMaster ("GATK RealignerTargetCreator Command: "
                      ++ Py.str_tuple creator ++ Py.nl);
         RunAndLog (Py.join creator) (sample ++ ".targetcreation.log");
         LogToMaster ("GATK IndelRealigner Command: "
                      ++ Py.str_tuple indels ++ Py.nl);
         Touch output_bam;
         RunAndLog (Py.join indels) (sample ++ ".realignindels.log") ])
  ∧ creator !! 5%nat = Some "IndelRealigner"
  ∧ creator !! 10%nat = Some "-o" ∧ creator !! 11%nat = Some targets
  ∧ creator !! 16%nat = Some "-targetIntervals"
  ∧ creator !! 17%nat = Some targets
  ∧ indels !! 5%nat = Some "RealignerTargetCreator"
  ∧ indels !! 10%nat = Some "-o" ∧ indels !! 11%nat = Some targets
  ∧ (output_bam ∈ creator ∨ output_bam ∈ indels →
     output_bam ∈ [ input_bam; gatk; reference; indel1; indel2;
                    Py.str_of_int (cpu_count w) ]).
Proof.
  intros Hp.
  assert (Hp' : provides (objs w) (RealignIndels config sample input_bam
                                     (sample ++ ".targets.intervals")))
    by exact Hp.
  cbv zeta. split.
  { unfold mbind at 1. unfold M_bind.
    rewrite realign_target_creator_run. unfold job_result.
    rewrite Hp. simpl effects. cbv iota beta.
    rewrite realign_indels_run. unfold job_result. cbn [objs extend cpu_count].
    rewrite Hp'. rewrite extend_extend. reflexivity. }
  do 8 (split; [done|]).
  intros [Hin|Hin].
  - apply realign_target_creator_command_names in Hin.
    repeat (apply elem_of_cons in Hin as [->|Hin]; [repeat first [by left|right]|]).
    by apply elem_of_nil in Hin.
  - apply realign_indels_command_names in Hin.
    apply elem_of_cons in Hin as [Heq|Hin]; [rewrite <- Heq; by left|].
    apply elem_of_cons in Hin as [Heq|Hin].
    { exfalso. revert Heq. apply realigned_name_last_char.
      by rewrite last_char_app. }
    right. exact Hin.
Qed.

Lemma realign_stages_share_output_flag_witness :
  ∃ evs creator indels,
    (targets ← realign_target_creator 0%nat "S1" "S1.bam";
     realign_indels 0%nat "S1" "S1.bam" targets) example_world
    = (Ret "S1.realigned.sorted.bam", extend example_world evs)
    ∧ executed evs
      = [ (Py.join creator, "S1.targetcreation.log");
          (Py.join indels, "S1.realignindels.log") ]
    ∧ creator !! 11%nat = Some "S1.targets.intervals"
    ∧ indels !! 11%nat = Some "S1.targets.intervals".
Proof.
  destruct (realign_stages_share_output_flag 0%nat "S1" "S1.bam" example_world
              eq_refl) as (Hrun & _).
  eexists _, _, _. split; [exact Hrun|]. by repeat split.
Defined.

(** The input that makes the returned BAM an argument of both commands:
    the stage is run again on its own output. *)
Example realign_stages_on_realigned_input :
  List.map fst
    (executed (trace (snd ((targets ← realign_target_creator 0%nat "S1"
                                        "S1.realigned.sorted.bam";
                            realign_indels 0%nat "S1" "S1.realigned.sorted.bam"
                              targets) example_world))))
  = [ "java -Xmx8g -jar {'bin': 'gatk.jar', 'max_mem': 8} -T IndelRealigner "
      ++ "-R hg19.fa -I S1.realigned.sorted.bam -o S1.targets.intervals "
      ++ "-known mills.vcf -known 1000g.vcf "
      ++ "-targetIntervals S1.targets.intervals --read_filter NotPrimaryAlignment";
      "java -Xmx8g -jar {'bin': 'gatk.jar', 'max_mem': 8} "
      ++ "-T RealignerTargetCreator -R hg19.fa -I S1.realigned.sorted.bam "
      ++ "-o S1.targets.intervals -known mills.vcf -known 1000g.vcf -nt 4" ].
Proof. vm_compute. reflexivity. Qed.

(* ===================================================================== *)
(** ** The records and the instructions of run_mark_duplicates *)
(* ===================================================================== *)

Lemma run_RunMarkDuplicates_Ret project_config sample_config tool_config
    resource_config w new w' :
  run_mark_duplicates_loop tool_config sample_config []
    (extend w [StdoutWrite ("Running MarkDuplicates" ++ Py.nl)]) = (Ret new, w') →
  run (RunMarkDuplicates project_config sample_config tool_config resource_config) w
  = (Ret PNone, w').
Proof. intros H. by rewrite run_RunMarkDuplicates, H. Qed.

(** X2: [run_mark_duplicates] on sample records that each have a [name]
    and a [working_bam], with a tool configuration that has
    [gatk.max_mem] and [picard.bin]: the call returns [None] and has
    written its one line to the standard output; every sample record
    keeps its [name], has [working_bam] and [dedup_bam] set to the dedup
    name (the name as it formats, followed by [".dedup.sorted.bam"]), has
    [sorted_bam] set to its [bam] when it has one (and left alone,
    without a [KeyError], when it has none) and keeps every other key;
    every other object is unchanged. A name that holds no dictionary, as
    a string does, formats as in the store of the call, and so does a
    name whose dictionaries, with all they reach (a closed set [L]), are
    no sample records. *)
Theorem run_mark_duplicates_updates_samples project_config sample_config
    tool_config resource_config w :
  provides (objs w)
    (RunMarkDuplicates project_config sample_config tool_config resource_config) →
  ∃ w',
    run (RunMarkDuplicates project_config sample_config tool_config resource_config) w
    = (Ret PNone, w')
    ∧ trace w' = (trace w ++ [StdoutWrite ("Running MarkDuplicates" ++ Py.nl)])%list
    ∧ (∀ s d name, s ∈ sample_config →
         objs w !! s = Some d → Py.dict_get d "name" = Some name →
         ∃ d' text,
           objs w' !! s = Some d'
           ∧ (refs name = [] → text = Py.str (objs w) name)
           ∧ (∀ L, closed (objs w) L = true → (∀ o, o ∈ refs name → o ∈ L) →
                   (∀ o, o ∈ L → o ∉ sample_config) →
                   text = Py.str (objs w) name)
           ∧ Py.dict_get d' "name" = Some name
           ∧ Py.dict_get d' "working_bam" = Some (dedup_name text)
           ∧ Py.dict_get d' "dedup_bam" = Some (dedup_name text)
           ∧ Py.dict_get d' "sorted_bam"
             = match Py.dict_get d "bam" with
               | Some bam => Some bam
               | None => Py.dict_get d "sorted_bam"
               end
           ∧ (∀ k, k ≠ "sorted_bam" → k ≠ "dedup_bam" → k ≠ "working_bam" →
                   Py.dict_get d' k = Py.dict_get d k))
    ∧ (∀ o, o ∉ sample_config → objs w' !! o = objs w !! o).
Proof.
  intros Hp. unfold provides in Hp. cbn [required] in Hp.
  set (w0 := extend w [StdoutWrite ("Running MarkDuplicates" ++ Py.nl)]).
  destruct (run_mark_duplicates_loop_provided tool_config sample_config [] w0 Hp)
    as (new & w' & Hrun & _ & Hdone).
  pose proof (run_mark_duplicates_loop_frame tool_config sample_config [] w0)
    as (Htr & _ & _ & Hframe).
  rewrite Hrun in Htr, Hframe. cbn [snd] in Htr, Hframe.
  exists w'. split; [by apply run_RunMarkDuplicates_Ret with new|].
  split; [done|]. split; [|done].
  intros s d name Hs Hd Hn.
  destruct (Hdone s d name Hs Hd Hn) as (h & Hw' & Hh).
  destruct (str_outside_samples sample_config (objs w) h name Hh) as [Hpl HL].
  exists (marked d (Py.str h name)), (Py.str h name).
  split; [done|]. split; [done|]. split; [done|].
  split; [by apply marked_name|].
  split; [apply marked_working_bam|].
  split; [apply marked_dedup_bam|].
  split; [apply marked_sorted_bam|intros k; apply marked_other].
Qed.

Lemma run_mark_duplicates_updates_samples_witness :
  ∃ d',
    objs (snd (run (RunMarkDuplicates PNone [1%nat] 0%nat PNone)
                 example_samples_world)) !! 1%nat = Some d'
    ∧ Py.dict_get d' "working_bam" = Some (PStr "S1.dedup.sorted.bam")
    ∧ Py.dict_get d' "sorted_bam" = None.
Proof.
  destruct (run_mark_duplicates_updates_samples PNone [1%nat] 0%nat PNone
              example_samples_world eq_refl) as (w' & Hrun & _ & Hs & _).
  destruct (Hs 1%nat example_sample (PStr "S1"))
    as (d' & text & Hd' & Ht & _ & _ & Hwb & _ & Hsb & _); [by left|done|done|].
  exists d'. rewrite Hrun. rewrite (Ht eq_refl) in Hwb. by repeat split.
Defined.

(** X3: the loop of [run_mark_duplicates], when the names and the
    [working_bam] values of the records and the two values of the tool
    configuration hold no dictionary (strings, numbers): it collects one
    instruction per entry of [sample_config], in order. The command of
    an entry takes the heap size from [tool_config['gatk']['max_mem']]
    and the jar from [tool_config['picard']['bin']]; its INPUT is the
    [working_bam] of the record when its turn comes, which is the value
    the record came with, or the dedup name when the record was listed
    before; OUTPUT, METRICS_FILE and the log file are derived from the
    name. *)
Theorem run_mark_duplicates_builds_instructions tool_config sample_config w
    max_mem bin :
  lookup_path (objs w) (PDict tool_config) ["gatk"; "max_mem"] = Ret max_mem →
  refs max_mem = [] →
  lookup_path (objs w) (PDict tool_config) ["picard"; "bin"] = Ret bin →
  refs bin = [] →
  (∀ s, s ∈ sample_config → plain_ready w s) →
  ∃ instructions w',
    run_mark_duplicates_loop tool_config sample_config [] w = (Ret instructions, w')
    ∧ length instructions = length sample_config
    ∧ ∀ i s d name working_bam,
        sample_config !! i = Some s → objs w !! s = Some d →
        Py.dict_get d "name" = Some name →
        Py.dict_get d "working_bam" = Some working_bam →
        instructions !! i
        = Some (instruction_for (Py.str (objs w) max_mem) (Py.str (objs w) bin)
                  (working_bam_at sample_config i s (Py.str (objs w) name)
                     (Py.str (objs w) working_bam))
                  (Py.str (objs w) name)).
Proof.
  intros Hm Hpm Hb Hpb Hr.
  destruct (run_mark_duplicates_loop_instructions tool_config sample_config []
              w max_mem bin Hm Hpm Hb Hpb Hr) as (new & w' & Hrun & Hlen & Hnew).
  by exists new, w'.
Qed.

Lemma example_sample_plain_ready :
  ∀ s, s ∈ [1%nat; 1%nat] → plain_ready example_samples_world s.
Proof.
  intros s Hs.
  assert (s = 1%nat) as ->.
  { apply elem_of_cons in Hs as [->|Hs]; [done|].
    by apply list_elem_of_singleton in Hs. }
  by exists example_sample, (PStr "S1"), (PStr "S1.sorted.bam").
Qed.

Lemma run_mark_duplicates_builds_instructions_witness :
  ∃ instructions w',
    run_mark_duplicates_loop 0%nat [1%nat; 1%nat] [] example_samples_world
    = (Ret instructions, w')
    ∧ instructions !! 0%nat
      = Some ("java -Xmx8g -jar picard.jar MarkDuplicates CREATE_INDEX=true "
              ++ "INPUT=S1.sorted.bam OUTPUT=S1.dedup.sorted.bam "
              ++ "METRICS_FILE=S1.dedup.metrics VALIDATION_STRINGENCY=LENIENT",
              "S1.markduplicates.log")
    ∧ instructions !! 1%nat
      = Some ("java -Xmx8g -jar picard.jar MarkDuplicates CREATE_INDEX=true "
              ++ "INPUT=S1.dedup.sorted.bam OUTPUT=S1.dedup.sorted.bam "
              ++ "METRICS_FILE=S1.dedup.metrics VALIDATION_STRINGENCY=LENIENT",
              "S1.markduplicates.log").
Proof.
  destruct (run_mark_duplicates_builds_instructions 0%nat [1%nat; 1%nat]
              example_samples_world (PInt 8) (PStr "picard.jar")
              eq_refl eq_refl eq_refl eq_refl example_sample_plain_ready)
    as (instructions & w' & Hrun & _ & Hins).
  exists instructions, w'. split; [exact Hrun|]. split.
  - exact (Hins 0%nat 1%nat example_sample (PStr "S1") (PStr "S1.sorted.bam")
             eq_refl eq_refl eq_refl eq_refl).
  - exact (Hins 1%nat 1%nat example_sample (PStr "S1") (PStr "S1.sorted.bam")
             eq_refl eq_refl eq_refl eq_refl).
Defined.

(** The reads of samples that are ready, with a tool configuration that
    has its two values, are provided. *)
Lemma ready_provided tool_config sample_config w :
  first_failure (objs w) (tool_reads tool_config) = None →
  (∀ s, s ∈ sample_config → ready w s) →
  first_failure (objs w) (List.flat_map (sample_reads tool_config) sample_config)
  = None.
Proof.
  intros Ht Hr. induction sample_config as [|s rest IH]; [done|].
  cbn [List.flat_map]. rewrite first_failure_app, IH.
  - destruct (Hr s) as (d & name & wb & Hd & Hn & Hwb); [by left|].
    unfold tool_reads in Ht. unfold sample_reads. cbn [first_failure] in *.
    rewrite !lookup_path_single, Hd, Hn, Hwb.
    destruct (lookup_path (objs w) (PDict tool_config) ["gatk"; "max_mem"]); [|done].
    by destruct (lookup_path (objs w) (PDict tool_config) ["picard"; "bin"]).
  - intros s' Hs'. apply Hr. by right.
Qed.

(** An iteration on a record that has a name and no [working_bam]. *)
Lemma body_result_no_working_bam tool_config sample instructions w d name :
  objs w !! sample = Some d →
  Py.dict_get d "name" = Some name →
  Py.dict_get d "working_bam" = None →
  first_failure (objs w) (tool_reads tool_config) = None →
  body_result tool_config sample instructions w
  = (Raise (KeyError "working_bam"),
     set_obj w sample
       (half_marked d (Py.str (objs (with_sorted_bam w sample d)) name))).
Proof.
  intros Hd Hn Hwb Ht. unfold body_result, tool_reads in *.
  rewrite Hd, Hn. cbv zeta. cbn [first_failure] in *.
  destruct (lookup_path (objs w) (PDict tool_config) ["gatk"; "max_mem"]); [|done].
  destruct (lookup_path (objs w) (PDict tool_config) ["picard"; "bin"]); [|done].
  by rewrite lookup_path_single, Hd, Hwb.
Qed.

(** X4: [run_mark_duplicates] is not all or nothing: when a sample record
    has a [name] but no [working_bam] (and the samples before it are
    ready), the call raises [KeyError('working_bam')] after it has
    processed the samples before it and has set [dedup_bam] in the record
    that fails. The names format as in the store of the call when they
    hold no dictionary, or none that reaches a record the loop has got
    to. *)
Theorem run_mark_duplicates_fails_half_way project_config before sample
    rest tool_config resource_config w d name :
  first_failure (objs w) (tool_reads tool_config) = None →
  (∀ s, s ∈ before → ready w s) →
  objs w !! sample = Some d →
  Py.dict_get d "name" = Some name →
  Py.dict_get d "working_bam" = None →
  ∃ w',
    run (RunMarkDuplicates project_config (before ++ sample :: rest)
           tool_config resource_config) w
    = (Raise (KeyError "working_bam"), w')
    ∧ (∀ s d0 name0, s ∈ before →
         objs w !! s = Some d0 → Py.dict_get d0 "name" = Some name0 →
         ∃ d' text,
           objs w' !! s = Some d'
           ∧ (refs name0 = [] → text = Py.str (objs w) name0)
           ∧ (∀ L, closed (objs w) L = true → (∀ o, o ∈ refs name0 → o ∈ L) →
                   (∀ o, o ∈ L → o ∉ before) →
                   text = Py.str (objs w) name0)
           ∧ Py.dict_get d' "working_bam" = Some (dedup_name text))
    ∧ ∃ d' text,
        objs w' !! sample = Some d'
        ∧ (refs name = [] → text = Py.str (objs w) name)
        ∧ (∀ L, closed (objs w) L = true → (∀ o, o ∈ refs name → o ∈ L) →
                (∀ o, o ∈ L → o ∉ sample :: before) →
                text = Py.str (objs w) name)
        ∧ Py.dict_get d' "dedup_bam" = Some (dedup_name text)
        ∧ Py.dict_get d' "working_bam" = None.
Proof.
  intros Ht Hr Hd Hn Hwb.
  set (w0 := extend w [StdoutWrite ("Running MarkDuplicates" ++ Py.nl)]).
  assert (Hp : first_failure (objs w0)
                 (List.flat_map (sample_reads tool_config) before) = None)
    by by apply ready_provided.
  destruct (run_mark_duplicates_loop_provided tool_config before [] w0 Hp)
    as (new & w1 & Hrun & _ & Hdone).
  pose proof (run_mark_duplicates_loop_frame tool_config before [] w0)
    as (_ & _ & Hsame & Hframe).
  rewrite Hrun in Hsame, Hframe. cbn [snd] in Hsame, Hframe.
  assert (Hnin : sample ∉ before).
  { intros Hin. destruct (Hr sample Hin) as (d' & name' & wb & Hd' & _ & Hwb').
    congruence. }
  assert (Hd1 : objs w1 !! sample = Some d) by by rewrite (Hframe sample Hnin).
  assert (Ht1 : first_failure (objs w1) (tool_reads tool_config) = None).
  { unfold tool_reads in *. cbn [first_failure] in *.
    rewrite !(lookup_path_same_outside written_keys (objs w0) (objs w1)); [done|..];
      try done; intros k Hk; apply elem_of_path2 in Hk as [->| ->];
      by apply not_written_key. }
  set (text := Py.str (objs (with_sorted_bam w1 sample d)) name).
  exists (set_obj w1 sample (half_marked d text)).
  split; [|split].
  - rewrite run_RunMarkDuplicates. fold w0.
    rewrite run_mark_duplicates_loop_app, Hrun, run_mark_duplicates_loop_cons.
    by rewrite (body_result_no_working_bam tool_config sample _ w1 d name).
  - intros s d0 name0 Hs Hd0 Hn0.
    destruct (Hdone s d0 name0 Hs Hd0 Hn0) as (h & Hw1 & Hh).
    destruct (str_outside_samples before (objs w) h name0 Hh) as [Hpl HL].
    exists (marked d0 (Py.str h name0)), (Py.str h name0).
    split; [|split; [done|split; [done|apply marked_working_bam]]].
    rewrite set_obj_lookup_ne; [done|]. by intros <-.
  - destruct (str_outside_samples (sample :: before) (objs w)
                (objs (with_sorted_bam w1 sample d)) name) as [Hpl HL].
    { intros o Ho. apply not_elem_of_cons in Ho as [Hne Ho].
      rewrite with_sorted_bam_lookup_ne by done. by apply Hframe. }
    exists (half_marked d text), text.
    split; [by apply (set_obj_lookup w1 sample _ d)|].
    split; [done|]. split; [done|].
    split; [apply half_marked_dedup_bam|].
    by rewrite half_marked_other.
Qed.

Lemma run_mark_duplicates_fails_half_way_witness :
  ∃ w',
    run (RunMarkDuplicates PNone [1%nat; 2%nat] 0%nat PNone)
        example_two_samples_world
    = (Raise (KeyError "working_bam"), w')
    ∧ ∃ d', objs w' !! 2%nat = Some d'
            ∧ Py.dict_get d' "dedup_bam" = Some (PStr "S2.dedup.sorted.bam").
Proof.
  destruct (run_mark_duplicates_fails_half_way PNone [1%nat] 2%nat [] 0%nat PNone
              example_two_samples_world [("name", PStr "S2")] (PStr "S2") eq_refl)
    as (w' & Hrun & _ & d' & text & Hd' & Ht & _ & Hdd & _); try done.
  { intros s Hs. apply list_elem_of_singleton in Hs as ->.
    by exists example_sample, (PStr "S1"), (PStr "S1.sorted.bam"). }
  exists w'. split; [exact Hrun|]. exists d'. rewrite (Ht eq_refl) in Hdd.
  by split.
Defined.

(* ===================================================================== *)
(** ** Job stages: failure, composition, samples *)
(* ===================================================================== *)

(** X5: a job stage returns exactly when its configuration provides every
    key path it reads. When it raises, the exception is that of the first
    key path that cannot be read ([KeyError] for a missing key,
    [TypeError] for a subscript of a value that is no dictionary), and all
    the stage has done is what it does before its first read, at most a
    line in the master log: there is no run that executes some commands
    and then fails on the configuration. *)
Theorem job_stage_raises_before_effects c w :
  is_job c = true →
  (provides (objs w) c ↔ ∃ path, fst (run c w) = Ret path)
  ∧ (∀ e w', run c w = (Raise e, w') →
       first_failure (objs w) (required c) = Some e
       ∧ w' = extend w (preamble c)
       ∧ Forall is_log (preamble c)).
Proof.
  intros Hjob. rewrite (run_job c w Hjob).
  unfold job_result, provides.
  destruct (first_failure (objs w) (required c)) as [e0|]; simpl.
  - split.
    + split; [done|]. by intros [path Hpath].
    + intros e w' [= <- <-]. repeat split.
      destruct c; try discriminate Hjob; repeat constructor.
      by eexists.
  - split; [split; eauto|]. intros e w' H. discriminate H.
Qed.

Lemma job_stage_raises_before_effects_witness :
  first_failure (objs example_world_without_dbsnp)
    (required (AnnotateVcf 0%nat "S1" "S1.vcf" "S1.bam" 4))
  = Some (KeyError "dbsnp").
Proof.
  destruct (job_stage_raises_before_effects
              (AnnotateVcf 0%nat "S1" "S1.vcf" "S1.bam" 4)
              example_world_without_dbsnp eq_refl) as [_ H].
  exact (proj1 (H (KeyError "dbsnp") _ eq_refl)).
Defined.

(** A dictionary of the store prints with a brace first. *)
Lemma repr_dict_starts_with_brace h o d :
  h !! o = Some d → ∃ rest, Py.repr h (PDict o) = String "{" rest.
Proof.
  intros Ho. unfold Py.repr. cbn [Py.repr_in].
  destruct (length h) as [|n] eqn:Hlen.
  - apply lookup_lt_Some in Ho. lia.
  - rewrite repr_obj_S. cbn [existsb]. rewrite Ho. simpl. eauto.
Qed.

(** X6: [realign_target_creator], [realign_indels] and [recalibrator]
    cannot be given the GATK jar: when [config['gatk']] is anything but a
    dictionary (a path string, say) the stage raises [TypeError] on
    [config['gatk']['max_mem']] before doing anything; and whenever the
    stage runs, [config['gatk']] is a dictionary and the argument after
    [-jar] of the command it executes is that dictionary as Python
    prints it, a string that starts with a brace. *)
Theorem gatk_jar_is_printed_dict c w :
  formats_gatk_section c = true →
  (∀ v, lookup_path (objs w) (PDict (config_of c)) ["gatk"] = Ret v →
        (∀ o, v ≠ PDict o) →
        run c w = (Raise TypeError, w))
  ∧ (provides (objs w) c →
     ∃ o d evs label vector logfile rest,
       lookup_path (objs w) (PDict (config_of c)) ["gatk"] = Ret (PDict o)
       ∧ objs w !! o = Some d
       ∧ run c w = (Ret (PStr (returned c (objs w))), extend w evs)
       ∧ head (commands c (objs w) (cpu_count w)) = Some (label, vector, logfile)
       ∧ RunAndLog (Py.join vector) logfile ∈ evs
       ∧ vector !! 2%nat = Some "-jar"
       ∧ vector !! 3%nat = Some (Py.repr (objs w) (PDict o))
       ∧ Py.repr (objs w) (PDict o) = String "{" rest).
Proof.
  intros Hfmt.
  assert (Hjob : is_job c = true) by by destruct c.
  assert (Hreq : ∃ reads, required c = (config_of c, ["gatk"; "max_mem"]) :: reads)
    by (destruct c; try discriminate Hfmt; by eexists).
  destruct Hreq as [reads Hreq].
  split.
  - intros v Hv Hnd.
    rewrite (run_job_failure c w TypeError Hjob).
    + destruct c; try discriminate Hfmt; by rewrite extend_nil.
    + rewrite Hreq. cbn [first_failure lookup_path] in *.
      destruct (Py.getitem (objs w) (PDict (config_of c)) "gatk") as [x|];
        [|done].
      injection Hv as ->.
      destruct v as [| | | | |o]; try done. by destruct (Hnd o).
  - intros Hp.
    assert (Hd : ∃ o d, lookup_path (objs w) (PDict (config_of c)) ["gatk"]
                        = Ret (PDict o) ∧ objs w !! o = Some d).
    { unfold provides in Hp. rewrite Hreq in Hp.
      cbn [first_failure lookup_path] in *.
      destruct (Py.getitem (objs w) (PDict (config_of c)) "gatk") as [x|];
        [|done].
      destruct x as [| | | | |o]; try done. exists o.
      unfold Py.getitem in Hp. destruct (objs w !! o) as [d|]; [|done].
      by exists d. }
    destruct Hd as (o & d & Hgatk & Ho).
    destruct (repr_dict_starts_with_brace (objs w) o d Ho) as [rest Hrest].
    exists o, d, (effects c (objs w) (cpu_count w)).
    rewrite (run_job_provided c w Hjob Hp).
    assert (Hval : path_str (objs w) (config_of c) ["gatk"]
                   = Py.repr (objs w) (PDict o))
      by (unfold path_str, path_val; by rewrite Hgatk).
    destruct c; try discriminate Hfmt;
      (eexists _, _, _, rest; split; [done|]; split; [done|]; split; [done|];
       split; [done|];
       split; [simpl; first [by (right; left) | by (do 2 right; left)]|];
       split; [done|]; split; [|done];
       cbn [config_of] in Hval; by rewrite <- Hval).
Qed.

Lemma gatk_jar_is_printed_dict_witness :
  run (RealignTargetCreator 0%nat "S1" "S1.bam") example_world_gatk_path
  = (Raise TypeError, example_world_gatk_path).
Proof.
  refine (proj1 (gatk_jar_is_printed_dict
                   (RealignTargetCreator 0%nat "S1" "S1.bam")
                   example_world_gatk_path eq_refl)
            (PStr "gatk.jar") eq_refl _).
  intros o H. discriminate H.
Defined.

Lemma with_sample_job c sample :
  is_job (with_sample c sample) = is_job c
  ∧ config_of (with_sample c sample) = config_of c
  ∧ required (with_sample c sample) = required c.
Proof. by destruct c. Qed.

(** X8: for one stage, one configuration and the same artifact arguments,
    two different sample names give two different returned artifact
    names: runs for different samples do not collide. *)
Theorem artifact_names_tell_samples_apart c sample1 sample2 w :
  is_job c = true → provides (objs w) c →
  sample1 ≠ sample2 →
  ∃ path1 path2,
    fst (run (with_sample c sample1) w) = Ret (PStr path1)
    ∧ fst (run (with_sample c sample2) w) = Ret (PStr path2)
    ∧ path1 ≠ path2.
Proof.
  intros Hjob Hp Hne.
  destruct (with_sample_job c sample1) as (Hj1 & Hc1 & Hr1).
  destruct (with_sample_job c sample2) as (Hj2 & Hc2 & Hr2).
  exists (returned (with_sample c sample1) (objs w)),
         (returned (with_sample c sample2) (objs w)).
  rewrite (run_job_provided (with_sample c sample1) w),
          (run_job_provided (with_sample c sample2) w);
    try congruence; try (unfold provides in *; congruence).
  do 2 (split; [done|]).
  intros Heq. apply Hne.
  destruct c; try discriminate Hjob; simpl in Heq;
    unfold snpeff_output_vcf, gemini_db, vcfanno_output_vcf in Heq;
    by apply string_app_inv_tail in Heq.
Qed.

Lemma artifact_names_tell_samples_apart_witness :
  ∃ path1 path2,
    fst (run (Gemini 0%nat "S1" "in.vcf") example_world) = Ret (PStr path1)
    ∧ fst (run (Gemini 0%nat "S2" "in.vcf") example_world) = Ret (PStr path2)
    ∧ path1 ≠ path2.
Proof.
  apply (artifact_names_tell_samples_apart (Gemini 0%nat "S1" "in.vcf") "S1" "S2"
           example_world eq_refl eq_refl).
  discriminate.
Defined.

(** What a job stage does in a world with more in its trace. *)
Lemma job_result_extend c w evs0 :
  ∃ evs,
    snd (job_result c w) = extend w evs
    ∧ job_result c (extend w evs0)
      = (fst (job_result c w), extend w (evs0 ++ evs)).
Proof.
  unfold job_result. cbn [objs extend cpu_count].
  destruct (first_failure (objs w) (required c)).
  - exists (preamble c). by rewrite extend_extend.
  - exists (effects c (objs w) (cpu_count w)). by rewrite extend_extend.
Qed.

(** X9: job stages do not interfere: whatever a job stage did (returned
    or raised), a job stage run after it returns or raises what it would
    have without it and performs the same effects; the trace of the
    sequence is the trace of the first followed by that of the second. *)
Theorem job_stages_do_not_interfere c1 c2 w :
  is_job c1 = true → is_job c2 = true →
  ∃ evs1 evs2,
    snd (run c1 w) = extend w evs1
    ∧ snd (run c2 w) = extend w evs2
    ∧ run c2 (snd (run c1 w)) = (fst (run c2 w), extend w (evs1 ++ evs2)).
Proof.
  intros H1 H2.
  destruct (job_result_extend c1 w []) as (evs1 & Hw1 & _).
  destruct (job_result_extend c2 w evs1) as (evs2 & Hw2 & Hseq).
  exists evs1, evs2. rewrite (run_job c1 w H1), (run_job c2 w H2). cbn [fst snd].
  split; [done|]. split; [done|].
  rewrite Hw1, (run_job c2 _ H2), Hseq. done.
Qed.

Lemma job_stages_do_not_interfere_witness :
  ∃ evs1 evs2,
    snd (run (Snpeff 0%nat "S1" "S1.vcf") example_world)
    = extend example_world evs1
    ∧ snd (run (Gemini 0%nat "S1" "S1.snpEff.GRCh37.vcf") example_world)
      = extend example_world evs2
    ∧ run (Gemini 0%nat "S1" "S1.snpEff.GRCh37.vcf")
          (snd (run (Snpeff 0%nat "S1" "S1.vcf") example_world))
      = (Ret (PStr "S1.snpEff.GRCh37.db"), extend example_world (evs1 ++ evs2)).
Proof.
  exact (job_stages_do_not_interfere (Snpeff 0%nat "S1" "S1.vcf")
           (Gemini 0%nat "S1" "S1.snpEff.GRCh37.vcf") example_world
           eq_refl eq_refl).
Defined.
